(** * redback: the afterglow data container and the TDE models

    A shallow embedding of [redback/transient/afterglow.py] and
    [transient_models/tde_models.py].

    Conventions of the embedding.
    - A float64 is modelled as a real number ([R]): rounding, overflow and
      infinities are left out.  NaN, which the code tests for with
      [np.isnan], is a constructor of its own in [Np.float64].
    - A Python exception is a value of [Py.exn]; a function that can raise
      returns a [Py.result].  A method that assigns attributes of [self]
      before it raises is a function of the state monad [Afterglow.M],
      which keeps the attributes assigned so far.
    - External collaborators (the cosmology library, file input and output,
      [redback.constants]) are variables of the section that uses them. *)

From Stdlib Require Import String Ascii ZArith Reals Lra Lia Bool List.
Import ListNotations.

(** ** Python: exceptions, strings, slices, calls *)

Module Py.

Inductive exn : Type :=
| NameError (name : string)
| KeyError (key : string)
| UnexpectedKeyword (func key : string)   (* TypeError *)
| MissingArguments (func : string) (names : list string)   (* TypeError *)
| TooManyPositional (func : string)       (* TypeError *)
| MultipleValues (func key : string)      (* TypeError *)
| UnboundLocalError (name : string)
| ValueError
| IndexError.

(** [isinstance(e, TypeError)] *)
Definition is_TypeError (e : exn) : bool :=
  match e with
  | UnexpectedKeyword _ _ | MissingArguments _ _
  | TooManyPositional _ | MultipleValues _ _ => true
  | _ => false
  end.

Inductive result (A : Type) : Type :=
| Ok (a : A)
| Raise (e : exn).
Arguments Ok {A} a.
Arguments Raise {A} e.

Definition bind {A B} (r : result A) (k : A -> result B) : result B :=
  match r with
  | Ok a => k a
  | Raise e => Raise e
  end.

(** *** Strings *)

(** [s.startswith(p)] *)
Fixpoint startswith (s p : string) {struct p} : bool :=
  match p with
  | EmptyString => true
  | String b p' =>
      match s with
      | EmptyString => false
      | String a s' => Ascii.eqb a b && startswith s' p'
      end
  end.

(** [c in chars] *)
Fixpoint char_in (c : ascii) (chars : string) : bool :=
  match chars with
  | EmptyString => false
  | String d rest => Ascii.eqb c d || char_in c rest
  end.

(** [s.lstrip(chars)]: drops every leading character of [s] that occurs
    in [chars]; [chars] is a set of characters, not a prefix. *)
Fixpoint lstrip (s chars : string) : string :=
  match s with
  | EmptyString => EmptyString
  | String c rest => if char_in c chars then lstrip rest chars else s
  end.

(** [s[len(p):] if s.startswith(p) else s], Python's [str.removeprefix]:
    what removing a single leading prefix means. *)
Fixpoint drop (n : nat) (s : string) : string :=
  match n, s with
  | O, _ => s
  | S n', String _ rest => drop n' rest
  | S _, EmptyString => EmptyString
  end.

Definition removeprefix (s p : string) : string :=
  if startswith s p then drop (String.length p) s else s.

(** *** Slices *)

(** The start of the slice [a[k:]] of a sequence of length [n]: a negative
    [k] counts from the end, and the result is clipped to [0..n]. *)
Definition slice_start (n : nat) (k : Z) : nat :=
  if (k <? 0)%Z then Z.to_nat (Z.max 0 (Z.of_nat n + k))
  else Nat.min (Z.to_nat k) n.

(** [a[k:]] *)
Definition slice_from {A} (a : list A) (k : Z) : list A :=
  skipn (slice_start (length a) k) a.

(** The position that the index [i] denotes in a sequence of length [n]:
    [a[-1]] is the last element. *)
Definition index_pos (n : nat) (i : Z) : option nat :=
  if (i <? 0)%Z
  then (if (0 <=? Z.of_nat n + i)%Z then Some (Z.to_nat (Z.of_nat n + i)) else None)
  else (if (i <? Z.of_nat n)%Z then Some (Z.to_nat i) else None).

(** *** Dictionaries and keyword arguments *)

Definition dict (V : Type) : Type := list (string * V).

Fixpoint lookup {V} (d : dict V) (k : string) : option V :=
  match d with
  | [] => None
  | (k', v) :: rest => if String.eqb k k' then Some v else lookup rest k
  end.

(** [d[k]] *)
Definition getitem {V} (d : dict V) (k : string) : result V :=
  match lookup d k with
  | Some v => Ok v
  | None => Raise (KeyError k)
  end.

(** [d.get(k, default)] *)
Definition get {V} (d : dict V) (k : string) (default : V) : V :=
  match lookup d k with
  | Some v => v
  | None => default
  end.

(** *** Calls

    A signature lists the named parameters in order, each with its default
    if it has one, and says whether the function ends in [**kwargs]. *)
Record signature (V : Type) : Type := {
  sig_name : string;
  sig_params : list (string * option V);
  sig_var_keyword : bool
}.
Arguments sig_name {V} s.
Arguments sig_params {V} s.
Arguments sig_var_keyword {V} s.

Definition is_param {V} (ps : list (string * option V)) (k : string) : bool :=
  existsb (fun p => String.eqb k (fst p)) ps.

(** Positional arguments fill the parameters from the left. *)
Fixpoint bind_positional {V} (f : string) (ps : list (string * option V))
    (args : list V) : result (dict V) :=
  match args, ps with
  | [], _ => Ok []
  | _ :: _, [] => Raise (TooManyPositional f)
  | a :: args', (p, _) :: ps' =>
      bind (bind_positional f ps' args') (fun d => Ok ((p, a) :: d))
  end.

(** Keyword arguments: a keyword that names no parameter is an error unless
    the function takes [**kwargs]; a keyword for a parameter already filled
    is an error. *)
Fixpoint bind_keywords {V} (s : signature V) (bound : dict V)
    (kw : dict V) : result (dict V) :=
  match kw with
  | [] => Ok bound
  | (k, v) :: kw' =>
      if is_param (sig_params s) k then
        match lookup bound k with
        | Some _ => Raise (MultipleValues (sig_name s) k)
        | None => bind_keywords s (bound ++ [(k, v)]) kw'
        end
      else if sig_var_keyword s then bind_keywords s bound kw'
      else Raise (UnexpectedKeyword (sig_name s) k)
  end.

(** Parameters still unfilled take their default; one without a default
    is missing. *)
Fixpoint fill_defaults {V} (ps : list (string * option V)) (bound : dict V)
    : dict V * list string :=
  match ps with
  | [] => ([], [])
  | (p, dflt) :: ps' =>
      let (d, missing) := fill_defaults ps' bound in
      match lookup bound p, dflt with
      | Some v, _ => ((p, v) :: d, missing)
      | None, Some v => ((p, v) :: d, missing)
      | None, None => (d, p :: missing)
      end
  end.

(** A call of [f] with positional arguments [args] and keyword arguments
    [kw]: the values of the named parameters of [f]. *)
Definition bind_args {V} (s : signature V) (args : list V) (kw : dict V)
    : result (dict V) :=
  bind (bind_positional (sig_name s) (sig_params s) args) (fun pos =>
  bind (bind_keywords s pos kw) (fun bound =>
  match fill_defaults (sig_params s) bound with
  | (d, []) => Ok d
  | (_, missing) => Raise (MissingArguments (sig_name s) missing)
  end)).

(** *** Replacing in strings *)

(** [s.replace(old, new)] for a non-empty [old]: the occurrences of [old]
    are replaced from left to right, and the search resumes after each
    occurrence ([skip] counts the characters of the current occurrence
    still to pass). *)
Fixpoint replace_from (old new : string) (skip : nat) (s : string) : string :=
  match s with
  | EmptyString => EmptyString
  | String c rest =>
      match skip with
      | S k => replace_from old new k rest
      | O =>
          if startswith s old
          then new ++ replace_from old new (String.length old - 1) rest
          else String c (replace_from old new 0 rest)
      end
  end.

Definition str_replace (s old new : string) : string :=
  replace_from old new 0 s.

(** [c in s] for a character [c] *)
Definition occurs (c : ascii) (s : string) : bool := char_in c s.

(** No character of [s] occurs in [chars]. *)
Fixpoint none_in (s chars : string) : bool :=
  match s with
  | EmptyString => true
  | String c rest => negb (char_in c chars) && none_in rest chars
  end.

End Py.

(** ** numpy: arrays of float64 *)

Module Np.
Import Py.
Local Open Scope R_scope.

(** A float64 scalar that the code tests with [np.isnan]. *)
Inductive float64 : Type :=
| NaN
| Num (x : R).

Definition Rgtb (x y : R) : bool := if Rgt_dec x y then true else false.
Definition Rltb (x y : R) : bool := if Rlt_dec x y then true else false.

(** A one-dimensional array is a list.  The error arrays of the data
    container are two-dimensional once loaded (one row per sign of the
    error, one column per measurement) and the one-dimensional
    [np.array([])] before. *)
Inductive ndarray : Type :=
| Arr1 (xs : list R)
| Arr2 (rows : list (list R)).

(** [np.array([])] *)
Definition empty : ndarray := Arr1 [].

(** [a > c], [a < c] for a one-dimensional [a] and a scalar [c] *)
Definition gt (a : list R) (c : R) : list bool := map (fun x => Rgtb x c) a.
Definition lt (a : list R) (c : R) : list bool := map (fun x => Rltb x c) a.

(** [~m] *)
Definition invert (m : list bool) : list bool := map negb m.

Fixpoint zip_and (m1 m2 : list bool) : list bool :=
  match m1, m2 with
  | b1 :: r1, b2 :: r2 => (b1 && b2) :: zip_and r1 r2
  | _, _ => []
  end.

(** [np.logical_and(m1, m2)] for one-dimensional masks: shapes that are
    equal, or of which one has length 1, broadcast; others do not. *)
Definition logical_and (m1 m2 : list bool) : result (list bool) :=
  if Nat.eqb (length m1) (length m2) then Ok (zip_and m1 m2)
  else match m1, m2 with
       | [b], _ => Ok (map (andb b) m2)
       | _, [b] => Ok (map (fun x => x && b) m1)
       | _, _ => Raise ValueError
       end.

(** The entries of [a] at the positions where [m] is true. *)
Fixpoint compress {A} (m : list bool) (a : list A) : list A :=
  match m, a with
  | b :: m', x :: a' => if b then x :: compress m' a' else compress m' a'
  | _, _ => []
  end.

(** [a[m]] for a one-dimensional [a] and a boolean mask [m]: the mask must
    be as long as the array. *)
Definition take_mask (a : list R) (m : list bool) : result (list R) :=
  if Nat.eqb (length m) (length a) then Ok (compress m a)
  else Raise IndexError.

(** [a[i, :]]: too many indices for a one-dimensional array. *)
Definition row (a : ndarray) (i : nat) : result (list R) :=
  match a with
  | Arr1 _ => Raise IndexError
  | Arr2 rows =>
      match nth_error rows i with
      | Some r => Ok r
      | None => Raise IndexError
      end
  end.

(** [a[:, m]] *)
Definition take_mask_cols (a : ndarray) (m : list bool) : result ndarray :=
  match a with
  | Arr1 _ => Raise IndexError
  | Arr2 rows =>
      if forallb (fun r => Nat.eqb (length m) (length r)) rows
      then Ok (Arr2 (map (compress m) rows))
      else Raise IndexError
  end.

(** [a[:, k:]] *)
Definition slice_cols_from (a : ndarray) (k : Z) : result ndarray :=
  match a with
  | Arr1 _ => Raise IndexError
  | Arr2 rows => Ok (Arr2 (map (fun r => slice_from r k) rows))
  end.

(** [np.argmax(a)]: the first position of the largest entry; an empty
    array has none. *)
Fixpoint argmax_from (best : R) (besti i : nat) (a : list R) : nat :=
  match a with
  | [] => besti
  | x :: a' =>
      if Rgtb x best then argmax_from x i (S i) a'
      else argmax_from best besti (S i) a'
  end.

Definition argmax (a : list R) : result nat :=
  match a with
  | [] => Raise ValueError
  | x :: a' => Ok (argmax_from x 0 1 a')
  end.

(** [a * c] and [a / c] for a scalar [c], of any shape *)
Definition map_nd (f : R -> R) (a : ndarray) : ndarray :=
  match a with
  | Arr1 xs => Arr1 (map f xs)
  | Arr2 rows => Arr2 (map (map f) rows)
  end.

(** [np.zeros(n)] *)
Definition zeros (n : nat) : list R := repeat 0 n.

(** [a[m] = c] for a scalar [c] *)
Fixpoint put_mask_scalar (a : list R) (m : list bool) (c : R) : list R :=
  match a, m with
  | x :: a', b :: m' => (if b then c else x) :: put_mask_scalar a' m' c
  | _, _ => a
  end.

Fixpoint put_values (a : list R) (m : list bool) (vals : list R) : list R :=
  match a, m with
  | x :: a', b :: m' =>
      if b then
        match vals with
        | v :: vals' => v :: put_values a' m' vals'
        | [] => x :: put_values a' m' []
        end
      else x :: put_values a' m' vals
  | _, _ => a
  end.

(** [a[m] = vals]: the entries of [vals], in order, go to the positions of
    [a] where [m] is true.  The mask must be as long as [a]; [vals] must
    have one entry per true position, or a single entry for all of them. *)
Definition put_mask (a : list R) (m : list bool) (vals : list R)
    : result (list R) :=
  if negb (Nat.eqb (length m) (length a)) then Raise IndexError
  else if Nat.eqb (length vals) (count_occ bool_dec m true)
  then Ok (put_values a m vals)
  else match vals with
       | [v] => Ok (put_mask_scalar a m v)
       | _ => Raise ValueError
       end.

(** [x ** y] on floats: [exp (y ln x)] for a positive base, the signed
    power for a negative base and an integer exponent.  A zero base with a
    negative exponent and a negative base with a fractional exponent have
    no real value; the model gives them 0. *)
Definition power (x y : R) : R :=
  if Rlt_dec 0 x then Rpower x y
  else if Req_dec_T y 0 then 1
  else if Req_dec_T x 0 then 0
  else if Req_dec_T (frac_part y) 0
       then (if Z.even (Int_part y) then Rpower (- x) y else - Rpower (- x) y)
       else 0.

(** [a[m] = c] for a scalar [c]: the mask must be as long as [a]. *)
Definition put_mask_const (a : list R) (m : list bool) (c : R)
    : result (list R) :=
  if Nat.eqb (length m) (length a) then Ok (put_mask_scalar a m c)
  else Raise IndexError.

(** [a[i]] and [a[i] = v] for an integer [i], inside a loop whose indices
    are in range (see [index_pos]; out of range Python raises IndexError,
    here the read gives 0 and the write does nothing). *)
Definition item (a : list R) (i : Z) : R :=
  match index_pos (length a) i with
  | Some p => nth p a 0
  | None => 0
  end.

Fixpoint replace_nth (p : nat) (v : R) (a : list R) : list R :=
  match a, p with
  | [], _ => []
  | _ :: a', O => v :: a'
  | x :: a', S p' => x :: replace_nth p' v a'
  end.

Definition setitem (a : list R) (i : Z) (v : R) : list R :=
  match index_pos (length a) i with
  | Some p => replace_nth p v a
  | None => a
  end.

(** [np.log10(x)] *)
Definition log10 (x : R) : R := ln x / ln 10.

(** [np.linspace(start, stop, num)]: [num] evenly spaced samples, the last
    one set to [stop]. *)
Definition linspace (start stop : R) (num : nat) : list R :=
  let step := (stop - start) / INR (num - 1) in
  map (fun i =>
         if Nat.eqb (S i) num && Nat.ltb 1 num then stop
         else INR i * step + start)
      (seq 0 num).

(** [np.logspace(start, stop, num)] is [10 ** np.linspace(start, stop, num)] *)
Definition logspace (start stop : R) (num : nat) : list R :=
  map (fun y => power 10 y) (linspace start stop num).

(** *** Matrices read from a file

    The rows of a two-dimensional array; all rows have one length.  No
    row at all stands for an array that is not two-dimensional, as
    [np.genfromtxt] gives for a file without data lines or with a single
    column. *)

Definition ncols (data : list (list R)) : nat :=
  match data with
  | [] => 0%nat
  | r :: _ => length r
  end.

(** [data[:, j]] *)
Definition column (data : list (list R)) (j : nat) : result (list R) :=
  if Nat.ltb j (ncols data) then Ok (map (fun r => nth j r 0) data)
  else Raise IndexError.

(** [data[:, a:b].T] with [b] left out when it is [None]: one row per
    column of the slice, which is clipped to the columns there are. *)
Definition transposed_columns (data : list (list R)) (a : nat) (b : option nat)
    : result ndarray :=
  match data with
  | [] => Raise IndexError
  | _ :: _ =>
      let stop := match b with
                  | Some b => Nat.min b (ncols data)
                  | None => ncols data
                  end in
      Ok (Arr2 (map (fun j => map (fun r => nth j r 0) data)
                    (seq a (stop - a))))
  end.

(** [np.abs(a)] *)
Definition abs (a : ndarray) : ndarray := map_nd Rabs a.

(** The entries of an array are not negative. *)
Definition nonnegative (a : ndarray) : Prop :=
  match a with
  | Arr1 xs => Forall (fun x => 0 <= x) xs
  | Arr2 rows => Forall (Forall (fun x => 0 <= x)) rows
  end.

End Np.

(** ** redback/transient/afterglow.py *)

Module Afterglow.
Import Py Np.
Local Open Scope R_scope.
Local Open Scope string_scope.

Definition DATA_MODES : list string :=
  ["luminosity"; "flux"; "flux_density"; "photometry"].

(** The attributes of an [Afterglow] object that the methods below read or
    assign. *)
Record obj : Type := {
  name : string;
  data_mode : string;
  redshift : float64;
  photon_index : R;
  time : list R;
  time_rest_frame : list R;
  time_err : ndarray;
  time_rest_frame_err : ndarray;
  Lum50 : list R;
  Lum50_err : ndarray;
  flux_density : list R;
  flux_density_err : ndarray;
  flux : list R;
  flux_err : ndarray
}.

(** *** Methods: state and exceptions *)

Definition M (A : Type) : Type := obj -> result A * obj.

Definition ret {A} (a : A) : M A := fun self => (Ok a, self).

Definition mbind {A B} (c : M A) (k : A -> M B) : M B :=
  fun self =>
    match c self with
    | (Ok a, self') => k a self'
    | (Raise e, self') => (Raise e, self')
    end.

Definition raise {A} (e : exn) : M A := fun self => (Raise e, self).

(** The value of an expression that can raise. *)
Definition eval {A} (r : result A) : M A := fun self => (r, self).

(** [self.attr] *)
Definition attr {A} (f : obj -> A) : M A := fun self => (Ok (f self), self).

(** [self.attr = v] *)
Definition assign (upd : obj -> obj) : M unit := fun self => (Ok tt, upd self).

Declare Scope py_scope.
Delimit Scope py_scope with py.
Notation "x <- c ;; k" := (mbind c (fun x => k))
  (at level 61, c at next level, right associativity) : py_scope.
Notation "c ;; k" := (mbind c (fun _ => k))
  (at level 61, right associativity) : py_scope.
Local Open Scope py_scope.

Definition set_data_mode (v : string) (o : obj) : obj :=
  {| name := name o; data_mode := v; redshift := redshift o;
     photon_index := photon_index o; time := time o;
     time_rest_frame := time_rest_frame o; time_err := time_err o;
     time_rest_frame_err := time_rest_frame_err o; Lum50 := Lum50 o;
     Lum50_err := Lum50_err o; flux_density := flux_density o;
     flux_density_err := flux_density_err o; flux := flux o;
     flux_err := flux_err o |}.

Definition set_time (v : list R) (o : obj) : obj :=
  {| name := name o; data_mode := data_mode o; redshift := redshift o;
     photon_index := photon_index o; time := v;
     time_rest_frame := time_rest_frame o; time_err := time_err o;
     time_rest_frame_err := time_rest_frame_err o; Lum50 := Lum50 o;
     Lum50_err := Lum50_err o; flux_density := flux_density o;
     flux_density_err := flux_density_err o; flux := flux o;
     flux_err := flux_err o |}.

Definition set_time_rest_frame (v : list R) (o : obj) : obj :=
  {| name := name o; data_mode := data_mode o; redshift := redshift o;
     photon_index := photon_index o; time := time o;
     time_rest_frame := v; time_err := time_err o;
     time_rest_frame_err := time_rest_frame_err o; Lum50 := Lum50 o;
     Lum50_err := Lum50_err o; flux_density := flux_density o;
     flux_density_err := flux_density_err o; flux := flux o;
     flux_err := flux_err o |}.

Definition set_time_err (v : ndarray) (o : obj) : obj :=
  {| name := name o; data_mode := data_mode o; redshift := redshift o;
     photon_index := photon_index o; time := time o;
     time_rest_frame := time_rest_frame o; time_err := v;
     time_rest_frame_err := time_rest_frame_err o; Lum50 := Lum50 o;
     Lum50_err := Lum50_err o; flux_density := flux_density o;
     flux_density_err := flux_density_err o; flux := flux o;
     flux_err := flux_err o |}.

Definition set_time_rest_frame_err (v : ndarray) (o : obj) : obj :=
  {| name := name o; data_mode := data_mode o; redshift := redshift o;
     photon_index := photon_index o; time := time o;
     time_rest_frame := time_rest_frame o; time_err := time_err o;
     time_rest_frame_err := v; Lum50 := Lum50 o;
     Lum50_err := Lum50_err o; flux_density := flux_density o;
     flux_density_err := flux_density_err o; flux := flux o;
     flux_err := flux_err o |}.

Definition set_Lum50 (v : list R) (o : obj) : obj :=
  {| name := name o; data_mode := data_mode o; redshift := redshift o;
     photon_index := photon_index o; time := time o;
     time_rest_frame := time_rest_frame o; time_err := time_err o;
     time_rest_frame_err := time_rest_frame_err o; Lum50 := v;
     Lum50_err := Lum50_err o; flux_density := flux_density o;
     flux_density_err := flux_density_err o; flux := flux o;
     flux_err := flux_err o |}.

Definition set_Lum50_err (v : ndarray) (o : obj) : obj :=
  {| name := name o; data_mode := data_mode o; redshift := redshift o;
     photon_index := photon_index o; time := time o;
     time_rest_frame := time_rest_frame o; time_err := time_err o;
     time_rest_frame_err := time_rest_frame_err o; Lum50 := Lum50 o;
     Lum50_err := v; flux_density := flux_density o;
     flux_density_err := flux_density_err o; flux := flux o;
     flux_err := flux_err o |}.

Definition set_flux_density (v : list R) (o : obj) : obj :=
  {| name := name o; data_mode := data_mode o; redshift := redshift o;
     photon_index := photon_index o; time := time o;
     time_rest_frame := time_rest_frame o; time_err := time_err o;
     time_rest_frame_err := time_rest_frame_err o; Lum50 := Lum50 o;
     Lum50_err := Lum50_err o; flux_density := v;
     flux_density_err := flux_density_err o; flux := flux o;
     flux_err := flux_err o |}.

Definition set_flux_density_err (v : ndarray) (o : obj) : obj :=
  {| name := name o; data_mode := data_mode o; redshift := redshift o;
     photon_index := photon_index o; time := time o;
     time_rest_frame := time_rest_frame o; time_err := time_err o;
     time_rest_frame_err := time_rest_frame_err o; Lum50 := Lum50 o;
     Lum50_err := Lum50_err o; flux_density := flux_density o;
     flux_density_err := v; flux := flux o;
     flux_err := flux_err o |}.

Definition set_flux (v : list R) (o : obj) : obj :=
  {| name := name o; data_mode := data_mode o; redshift := redshift o;
     photon_index := photon_index o; time := time o;
     time_rest_frame := time_rest_frame o; time_err := time_err o;
     time_rest_frame_err := time_rest_frame_err o; Lum50 := Lum50 o;
     Lum50_err := Lum50_err o; flux_density := flux_density o;
     flux_density_err := flux_density_err o; flux := v;
     flux_err := flux_err o |}.

Definition set_flux_err (v : ndarray) (o : obj) : obj :=
  {| name := name o; data_mode := data_mode o; redshift := redshift o;
     photon_index := photon_index o; time := time o;
     time_rest_frame := time_rest_frame o; time_err := time_err o;
     time_rest_frame_err := time_rest_frame_err o; Lum50 := Lum50 o;
     Lum50_err := Lum50_err o; flux_density := flux_density o;
     flux_density_err := flux_density_err o; flux := flux o;
     flux_err := v |}.

(** *** The name (lines 30-32 of [__init__], and [_stripped_name]) *)

Definition init_name (n : string) : string :=
  if negb (startswith n "GRB") then "GRB" ++ n else n.

Definition _stripped_name (self_name : string) : string :=
  lstrip self_name "GRB".

(** *** Data-mode properties *)

Definition luminosity_data : M bool :=
  attr (fun o => String.eqb (data_mode o) (nth 0 DATA_MODES "")).
Definition flux_data : M bool :=
  attr (fun o => String.eqb (data_mode o) (nth 1 DATA_MODES "")).
Definition fluxdensity_data : M bool :=
  attr (fun o => String.eqb (data_mode o) (nth 2 DATA_MODES "")).
Definition photometry_data : M bool :=
  attr (fun o => String.eqb (data_mode o) (nth 3 DATA_MODES "")).

(** *** Truncation *)

Definition _truncate_prompt_time_error : M unit :=
  lum <- luminosity_data ;;
  masks <- (if lum : bool then
              e <- attr time_rest_frame_err ;;
              e0 <- eval (row e 0) ;;
              t <- attr time_rest_frame ;;
              ret (gt e0 0.0025, lt t 2.0)
            else
              e <- attr time_err ;;
              e0 <- eval (row e 0) ;;
              t <- attr time ;;
              ret (gt e0 0.0025, lt t 2.0)) ;;
  mask <- eval (logical_and (fst masks) (snd masks)) ;;
  lum <- luminosity_data ;;
  if lum : bool then
    a <- attr time_rest_frame ;;
    v <- eval (take_mask a (invert mask)) ;;
    assign (set_time_rest_frame v) ;;
    a <- attr time_rest_frame_err ;;
    v <- eval (take_mask_cols a (invert mask)) ;;
    assign (set_time_rest_frame_err v) ;;
    a <- attr Lum50 ;;
    v <- eval (take_mask a (invert mask)) ;;
    assign (set_Lum50 v) ;;
    a <- attr Lum50_err ;;
    v <- eval (take_mask_cols a (invert mask)) ;;
    assign (set_Lum50_err v)
  else
    fl <- flux_data ;;
    if fl : bool then
      a <- attr flux ;;
      v <- eval (take_mask a (invert mask)) ;;
      assign (set_flux v) ;;
      a <- attr flux_err ;;
      v <- eval (take_mask_cols a (invert mask)) ;;
      assign (set_flux_err v)
    else
      fd <- fluxdensity_data ;;
      if fd : bool then
        a <- attr flux_density ;;
        v <- eval (take_mask a (invert mask)) ;;
        assign (set_flux_density v) ;;
        a <- attr flux_density_err ;;
        v <- eval (take_mask_cols a (invert mask)) ;;
        assign (set_flux_density_err v)
      else ret tt.

Definition _truncate_left_of_max : M unit :=
  max_index <-
    (lum <- luminosity_data ;;
     if lum : bool then
       y <- attr Lum50 ;;
       max_index <- eval (argmax y) ;;
       a <- attr time_rest_frame ;;
       assign (set_time_rest_frame (slice_from a (Z.of_nat max_index))) ;;
       a <- attr time_rest_frame_err ;;
       v <- eval (slice_cols_from a (Z.of_nat max_index)) ;;
       assign (set_time_rest_frame_err v) ;;
       a <- attr Lum50 ;;
       assign (set_Lum50 (slice_from a (Z.of_nat max_index))) ;;
       a <- attr Lum50_err ;;
       v <- eval (slice_cols_from a (Z.of_nat max_index)) ;;
       assign (set_Lum50_err v) ;;
       ret max_index
     else
       fl <- flux_data ;;
       if fl : bool then
         y <- attr flux ;;
         max_index <- eval (argmax y) ;;
         a <- attr flux ;;
         assign (set_flux (slice_from a (Z.of_nat max_index))) ;;
         a <- attr flux_err ;;
         v <- eval (slice_cols_from a (Z.of_nat max_index)) ;;
         assign (set_flux_err v) ;;
         ret max_index
       else
         fd <- fluxdensity_data ;;
         if fd : bool then
           y <- attr flux_density ;;
           max_index <- eval (argmax y) ;;
           a <- attr flux_density ;;
           assign (set_flux_density (slice_from a (Z.of_nat max_index))) ;;
           a <- attr flux_density_err ;;
           v <- eval (slice_cols_from a (Z.of_nat max_index)) ;;
           assign (set_flux_density_err v) ;;
           ret max_index
         else raise ValueError) ;;
  a <- attr time ;;
  assign (set_time (slice_from a (Z.of_nat max_index))) ;;
  a <- attr time_err ;;
  v <- eval (slice_cols_from a (Z.of_nat max_index)) ;;
  assign (set_time_err v).

Definition _truncate_default : M unit :=
  e <- attr time_err ;;
  e0 <- eval (row e 0) ;;
  let truncate := gt e0 0.1 in
  t <- attr time ;;
  kept <- eval (take_mask t truncate) ;;
  let to_del := (Z.of_nat (length t) - (Z.of_nat (length kept) + 2))%Z in
  a <- attr time ;;
  assign (set_time (slice_from a to_del)) ;;
  a <- attr time_err ;;
  v <- eval (slice_cols_from a to_del) ;;
  assign (set_time_err v) ;;
  lum <- luminosity_data ;;
  if lum : bool then
    a <- attr time_rest_frame ;;
    assign (set_time_rest_frame (slice_from a to_del)) ;;
    a <- attr time_rest_frame_err ;;
    v <- eval (slice_cols_from a to_del) ;;
    assign (set_time_rest_frame_err v) ;;
    a <- attr Lum50 ;;
    assign (set_Lum50 (slice_from a to_del)) ;;
    a <- attr Lum50_err ;;
    v <- eval (slice_cols_from a to_del) ;;
    assign (set_Lum50_err v)
  else
    fl <- flux_data ;;
    if fl : bool then
      a <- attr flux ;;
      assign (set_flux (slice_from a to_del)) ;;
      a <- attr flux_err ;;
      v <- eval (slice_cols_from a to_del) ;;
      assign (set_flux_err v)
    else
      fd <- fluxdensity_data ;;
      if fd : bool then
        a <- attr flux_density ;;
        assign (set_flux_density (slice_from a to_del)) ;;
        a <- attr flux_density_err ;;
        v <- eval (slice_cols_from a to_del) ;;
        assign (set_flux_density_err v)
      else ret tt.

Definition truncate (truncate_method : string) : M unit :=
  if String.eqb truncate_method "prompt_time_error" then
    _truncate_prompt_time_error
  else if String.eqb truncate_method "left_of_max" then
    _truncate_left_of_max
  else
    _truncate_default.

(** *** Flux to luminosity *)

Section Conversion.

(** [cosmo.luminosity_distance(z).cgs.value] of the cosmology library. *)
Variable luminosity_distance : R -> R.

Definition _get_redshift_for_luminosity_calculation : M (option R) :=
  z <- attr redshift ;;
  match z with
  | NaN => (* np.isnan(self.redshift) *) ret (Some 0.75)
  | Num z =>
      mode <- attr data_mode ;;
      if String.eqb mode "luminosity" then ret None
      else if String.eqb mode "flux_density" then ret None
      else ret (Some z)
  end.

Definition _calculate_rest_frame_time_and_luminosity
    (counts_to_flux_fraction isotropic_bolometric_flux redshift : R) : M unit :=
  a <- attr flux ;;
  assign (set_Lum50
    (map (fun x => x * counts_to_flux_fraction * isotropic_bolometric_flux * 1e-50) a)) ;;
  a <- attr flux_err ;;
  assign (set_Lum50_err
    (map_nd (fun x => x * isotropic_bolometric_flux * 1e-50) a)) ;;
  a <- attr time ;;
  assign (set_time_rest_frame (map (fun x => x / (1 + redshift)) a)) ;;
  a <- attr time_err ;;
  assign (set_time_rest_frame_err (map_nd (fun x => x / (1 + redshift)) a)).

(** The columns of the table that [_save_luminosity_data] writes; a
    [DataFrame] needs columns of one length.  Writing the file itself
    assigns no attribute and is left out. *)
Definition _save_luminosity_data : M unit :=
  t <- attr time_rest_frame ;;
  e <- attr time_rest_frame_err ;;
  e0 <- eval (row e 0) ;;
  e1 <- eval (row e 1) ;;
  l <- attr Lum50 ;;
  le <- attr Lum50_err ;;
  l0 <- eval (row le 0) ;;
  l1 <- eval (row le 1) ;;
  if forallb (fun c => Nat.eqb (length c) (length t)) [e0; e1; l; l0; l1]
  then ret tt
  else raise ValueError.

Definition analytical_flux_to_luminosity : M unit :=
  redshift <- _get_redshift_for_luminosity_calculation ;;
  match redshift with
  | None => ret tt
  | Some redshift =>
      let luminosity_distance := luminosity_distance redshift in
      gamma <- attr photon_index ;;
      let k_corr := power (1 + redshift) (gamma - 2) in
      let isotropic_bolometric_flux :=
        (power luminosity_distance 2) * 4 * PI * k_corr in
      let counts_to_flux_fraction := 1 in
      _calculate_rest_frame_time_and_luminosity
        counts_to_flux_fraction isotropic_bolometric_flux redshift ;;
      assign (set_data_mode "luminosity") ;;
      _save_luminosity_data
  end.

End Conversion.

(** *** Construction *)

Section Construction.

(** [redback.utils.find_path]. *)
Variable find_path : string -> string.

(** Lines 32 to 52 of [__init__]: the initialiser of the base class and the
    loading of the event table and of the data file, for the name and data
    mode given. *)
Variable init_and_load : string -> string -> result obj.

(** [load_data(data_mode)], which reads the data file. *)
Variable load_data : string -> M unit.

(** [def __init__(self, name, data_mode='flux')] *)
Definition __init__signature : signature string :=
  {| sig_name := "__init__";
     sig_params := [("name", None); ("data_mode", Some "flux")];
     sig_var_keyword := false |}.

Definition __init__ (name data_mode : string) : result obj :=
  let name := init_name name in
  init_and_load name data_mode.

(** [cls(...)] for [cls] one of [Afterglow], [SGRB], [LGRB]. *)
Definition new (args : list string) (kw : dict string) : result obj :=
  bind (bind_args __init__signature args kw) (fun a =>
    __init__ (get a "name" "") (get a "data_mode" "")).

Definition from_path_and_grb (path grb : string) : result obj :=
  let data_dir := find_path path in
  new [] [("name", grb); ("path", data_dir)].

Definition load_and_truncate_data (truncate_flag : bool)
    (truncate_method data_mode : string) : M unit :=
  load_data data_mode ;;
  if truncate_flag then truncate truncate_method else ret tt.

Definition from_path_and_grb_with_truncation (path grb : string)
    (truncate_flag : bool) (truncate_method data_mode : string) : result obj :=
  bind (from_path_and_grb path grb) (fun grb =>
    match load_and_truncate_data truncate_flag truncate_method data_mode grb with
    | (Ok _, grb') => Ok grb'
    | (Raise e, _) => Raise e
    end).

End Construction.

(** *** Objects used as examples *)

(** A luminosity distance to run the conversion with: the Hubble law,
    [c z / H0] in cm. *)
Definition hubble_distance (z : R) : R := 1.37e28 * z.

(** An object loaded in flux mode with two measurements, the first of them
    from the prompt phase. *)
Definition two_point_flux : obj :=
  {| name := "GRB070809"; data_mode := "flux"; redshift := Num 0.2187;
     photon_index := 1.69;
     time := [1; 3]; time_rest_frame := [];
     time_err := Arr2 [[0.01; 0.01]; [0.01; 0.01]];
     time_rest_frame_err := empty;
     Lum50 := []; Lum50_err := empty;
     flux_density := []; flux_density_err := empty;
     flux := [5; 6]; flux_err := Arr2 [[0.5; 0.5]; [0.5; 0.5]] |}.

(** An object loaded in flux-density mode whose redshift is not measured. *)
Definition unmeasured_flux_density : obj :=
  {| name := "GRB050509B"; data_mode := "flux_density"; redshift := NaN;
     photon_index := 1.57;
     time := [100]; time_rest_frame := [];
     time_err := Arr2 [[5]; [5]];
     time_rest_frame_err := empty;
     Lum50 := []; Lum50_err := empty;
     flux_density := [3]; flux_density_err := Arr2 [[0.5]; [0.5]];
     flux := []; flux_err := empty |}.

(** The same object with a measured redshift. *)
Definition measured_flux_density : obj :=
  {| name := "GRB050509B"; data_mode := "flux_density"; redshift := Num 0.225;
     photon_index := 1.57;
     time := [100]; time_rest_frame := [];
     time_err := Arr2 [[5]; [5]];
     time_rest_frame_err := empty;
     Lum50 := []; Lum50_err := empty;
     flux_density := [3]; flux_density_err := Arr2 [[0.5]; [0.5]];
     flux := []; flux_err := empty |}.

(** The object of two flux measurements after one truncation by the method
    prompt_time_error: the flux has lost its first entry, the time has
    not. *)
Definition once_truncated_flux : obj :=
  {| name := "GRB070809"; data_mode := "flux"; redshift := Num 0.2187;
     photon_index := 1.69;
     time := [1; 3]; time_rest_frame := [];
     time_err := Arr2 [[0.01; 0.01]; [0.01; 0.01]];
     time_rest_frame_err := empty;
     Lum50 := []; Lum50_err := empty;
     flux_density := []; flux_density_err := empty;
     flux := [6]; flux_err := Arr2 [[0.5]; [0.5]] |}.

(** An object in luminosity mode with two measurements, the first of them
    from the prompt phase. *)
Definition two_point_luminosity : obj :=
  {| name := "GRB070809"; data_mode := "luminosity"; redshift := Num 0.2187;
     photon_index := 1.69;
     time := [1; 3]; time_rest_frame := [0.8; 2.5];
     time_err := Arr2 [[0.01; 0.01]; [0.01; 0.01]];
     time_rest_frame_err := Arr2 [[0.008; 0.008]; [0.008; 0.008]];
     Lum50 := [5; 6]; Lum50_err := Arr2 [[0.5; 0.5]; [0.5; 0.5]];
     flux_density := []; flux_density_err := empty;
     flux := [5; 6]; flux_err := Arr2 [[0.5; 0.5]; [0.5; 0.5]] |}.

(** *** Loading the data file *)

Section Loading.

(** [afterglow_directory_structure(grb, use_default_directory=False,
    data_mode)], of which the directory is kept, and [os.path.join]. *)
Variable afterglow_directory_structure : string -> string -> string.
Variable join : string -> string -> string.

(** [np.genfromtxt(data_file, delimiter=",")[1:]]: the rows of the file
    after its header. *)
Variable genfromtxt_rows : string -> result (list (list R)).

Definition _load (data : list (list R)) : result (list R * ndarray) :=
  bind (column data 3) (fun y =>
  bind (transposed_columns data 4 None) (fun y_err =>
  Ok (y, abs y_err))).

Definition load_data (data_mode : option string) : M unit :=
  (match data_mode with
   | Some m => assign (set_data_mode m)
   | None => ret tt
   end) ;;
  nm <- attr name ;;
  mode <- attr Afterglow.data_mode ;;
  let grb_dir := afterglow_directory_structure (_stripped_name nm) mode in
  let filename := nm ++ ".csv" in
  let data_file := join grb_dir filename in
  data <- eval (genfromtxt_rows data_file) ;;
  lum <- luminosity_data ;;
  if lum : bool then
    v <- eval (column data 0) ;;
    assign (set_time_rest_frame v) ;;
    v <- eval (transposed_columns data 1 (Some 3%nat)) ;;
    assign (set_time_rest_frame_err (abs v)) ;;
    ye <- eval (_load data) ;;
    assign (set_Lum50 (fst ye)) ;;
    assign (set_Lum50_err (snd ye))
  else
    fd <- fluxdensity_data ;;
    if fd : bool then
      v <- eval (column data 0) ;;
      assign (set_time v) ;;
      v <- eval (transposed_columns data 1 (Some 3%nat)) ;;
      assign (set_time_err (abs v)) ;;
      ye <- eval (_load data) ;;
      assign (set_flux_density (fst ye)) ;;
      assign (set_flux_density_err (snd ye))
    else
      fl <- flux_data ;;
      if fl : bool then
        v <- eval (column data 0) ;;
        assign (set_time v) ;;
        v <- eval (transposed_columns data 1 (Some 3%nat)) ;;
        assign (set_time_err (abs v)) ;;
        ye <- eval (_load data) ;;
        assign (set_flux (fst ye)) ;;
        assign (set_flux_err (snd ye))
      else ret tt.

End Loading.

(** A directory layout and a data file to load from, with one row per
    measurement: time, its two errors, the measurement, its two errors. *)
Definition example_directory (grb data_mode : string) : string :=
  "GRBData/GRB" ++ grb ++ "/" ++ data_mode ++ "/".

Definition example_rows : list (list R) :=
  [[1; 0.01; -0.01; 5; 0.5; -0.5]; [3; 0.01; -0.01; 6; 0.5; -0.5]].

Definition example_genfromtxt (data_file : string) : result (list (list R)) :=
  Ok example_rows.

(** A file that has lost its measurement columns. *)
Definition short_rows : list (list R) := [[1; 0.01; -0.01]; [3; 0.01; -0.01]].

Definition short_genfromtxt (data_file : string) : result (list (list R)) :=
  Ok short_rows.

(** *** Plotting *)

(** [a[0]] and [a[-1]] of a one-dimensional array *)
Definition first_item (a : list R) : result R :=
  match a with
  | [] => Raise IndexError
  | x :: _ => Ok x
  end.

Definition last_item (a : list R) : result R :=
  match a with
  | [] => Raise IndexError
  | x :: a' => Ok (last a' x)
  end.

(** [min(a)] and [np.max(a)]: an empty array has neither. *)
Definition minimum (a : list R) : result R :=
  match a with
  | [] => Raise ValueError
  | x :: a' => Ok (fold_left Rmin a' x)
  end.

Definition maximum (a : list R) : result R :=
  match a with
  | [] => Raise ValueError
  | x :: a' => Ok (fold_left Rmax a' x)
  end.

(** What [_get_plot_data_and_labels] returns: [x], [x_err], [y], [y_err]
    and the label; each of [x_err] and [y_err] is a list of two rows. *)
Record plot_data_and_labels : Type := {
  plot_x : list R;
  plot_x_err : list R * list R;
  plot_y : list R;
  plot_y_err : list R * list R;
  plot_ylabel : string
}.

Definition _get_plot_data_and_labels : M plot_data_and_labels :=
  lum <- luminosity_data ;;
  if lum : bool then
    x <- attr time_rest_frame ;;
    e <- attr time_rest_frame_err ;;
    e1 <- eval (row e 1) ;;
    e0 <- eval (row e 0) ;;
    y <- attr Lum50 ;;
    ye <- attr Lum50_err ;;
    ye1 <- eval (row ye 1) ;;
    ye0 <- eval (row ye 0) ;;
    ret {| plot_x := x; plot_x_err := (e1, e0); plot_y := y;
           plot_y_err := (ye1, ye0);
           plot_ylabel := "Luminosity [$10^{50}$ erg s$^{-1}$]" |}
  else
    fl <- flux_data ;;
    if fl : bool then
      x <- attr time ;;
      e <- attr time_err ;;
      e1 <- eval (row e 1) ;;
      e0 <- eval (row e 0) ;;
      y <- attr flux ;;
      ye <- attr flux_err ;;
      ye1 <- eval (row ye 1) ;;
      ye0 <- eval (row ye 0) ;;
      ret {| plot_x := x; plot_x_err := (e1, e0); plot_y := y;
             plot_y_err := (ye1, ye0);
             plot_ylabel := "Flux [erg cm$^{-2}$ s$^{-1}$]" |}
    else
      fd <- fluxdensity_data ;;
      if fd : bool then
        x <- attr time ;;
        e <- attr time_err ;;
        e1 <- eval (row e 1) ;;
        e0 <- eval (row e 0) ;;
        y <- attr flux_density ;;
        ye <- attr flux_density_err ;;
        ye1 <- eval (row ye 1) ;;
        ye0 <- eval (row ye 0) ;;
        ret {| plot_x := x; plot_x_err := (e1, e0); plot_y := y;
               plot_y_err := (ye1, ye0);
               plot_ylabel := "Flux density [mJy]" |}
      else raise ValueError.

(** What [plot_data] hands to matplotlib: the limits of the two axes, the
    text of the annotation, the label of the ordinate and the name of the
    file saved.  The drawing itself is left out. *)
Record figure : Type := {
  xlim : R * R;
  ylim : R * R;
  annotation : string;
  ylabel : string;
  savefig_name : string
}.

Definition plot_data : M figure :=
  d <- _get_plot_data_and_labels ;;
  x0 <- eval (first_item (plot_x d)) ;;
  x1 <- eval (last_item (plot_x d)) ;;
  xe <- eval (last_item (snd (plot_x_err d))) ;;
  ymin <- eval (minimum (plot_y d)) ;;
  ymax <- eval (maximum (plot_y d)) ;;
  nm <- attr name ;;
  ret {| xlim := (0.5 * x0, 2 * (x1 + xe));
         ylim := (0.5 * ymin, 2 * ymax);
         annotation := "GRB" ++ nm;
         ylabel := plot_ylabel d;
         savefig_name := nm ++ "_lc.png" |}.

(** *** Cleaning the entries of the event table *)

Definition clean_patterns : list string :=
  ["PL"; "CPL"; ","; "C"; "~"; " "; "Gemini:emission"; "()"].

(** The string that [__clean_string] hands to [float]. *)
Definition cleaned (s : string) : string :=
  fold_left (fun s r => str_replace s r "") clean_patterns s.

Section CleanString.

(** [float(string)] *)
Variable float : string -> result R.

Definition __clean_string (s : string) : result R := float (cleaned s).

End CleanString.

End Afterglow.

(** ** transient_models/tde_models.py *)

Module TdeModels.
Import Py Np.
Local Open Scope R_scope.
Local Open Scope string_scope.

Notation "a .[ i ]" := (item a i) (at level 1, left associativity, format "a .[ i ]").

(** *** The analytic fallback model *)

Definition _analytic_fallback (time : list R) (l0 t_0 : R) : result (list R) :=
  let mask := gt (map (fun t => t - t_0) time) 0 in
  let lbol := zeros (length time) in
  bind (take_mask time mask) (fun time_mask =>
  bind (put_mask lbol mask
          (map (fun t => l0 / power (t * 86400) (5 / 3)) time_mask)) (fun lbol =>
  bind (put_mask_const lbol (invert mask) (l0 / power (t_0 * 86400) (5 / 3))) (fun lbol =>
  Ok lbol))).

(** An interaction process is a class called with the time, the luminosity
    and the keyword arguments; the model keeps its [new_luminosity]. *)
Definition interaction : Type := list R -> list R -> dict R -> result (list R).

Definition tde_analytical_bolometric (time : list R) (l0 t_0 : R)
    (interaction_process : option interaction) (kwargs : dict R)
    : result (list R) :=
  bind (_analytic_fallback time l0 t_0) (fun lbol =>
  match interaction_process with
  | Some cls => bind (cls time lbol kwargs) (fun new_luminosity => Ok new_luminosity)
  | None => Ok lbol
  end).

(** *** The Metzger model *)

Section Metzger.

(** [redback.constants] *)
Variables graviational_constant solar_mass speed_of_light solar_radius
          day_to_s sigma_sb : R.

(** The contents of the [k]-th buffer that [np.empty_like] hands out: it is
    not initialised. *)
Variable buffer : nat -> nat -> R.

Definition empty_like (k : nat) (a : list R) : list R :=
  map (buffer k) (seq 0 (length a)).

Record grids : Type := {
  Me : list R;
  Ee40 : list R;
  Rv : list R;
  Racc : list R;
  Rph : list R;
  Edotfb40 : list R;
  tacc : list R;
  Edotbh40 : list R;
  MdotBH : list R;
  Teff : list R;
  Lrad : list R;
  nuLnu : list R;
  Lamb : list R;
  LX40 : list R
}.

Record output : Type := {
  bolometric_luminosity : list R;
  photosphere_temperature : list R;
  photosphere_radius : list R;
  lum_xray : list R;
  accretion_radius : list R;
  SMBH_accretion_rate : list R;
  time_temp : list R
}.

Section Parameters.

Variables mbh_6 stellar_mass eta alpha beta : R.
Variable kwargs : dict R.

Definition t0 : R := get kwargs "t0" 1.0.
Definition binding_energy_const : R := get kwargs "binding_energy_const" 0.8.
Definition zeta : R := get kwargs "zeta" 2.0.
Definition hoverR : R := get kwargs "hoverR" 0.3.
Definition etamin : R :=
  0.01 * (power stellar_mass (- 7 / 15) * power mbh_6 (2 / 3)).
Definition beta_max : R :=
  12 * (power stellar_mass (7 / 15)) * (power mbh_6 (- 2 / 3)).
Definition Rg : R :=
  graviational_constant * mbh_6 * 1.0e6 * (solar_mass / power speed_of_light 2.0).
Definition Mstar : R := stellar_mass * solar_mass.
Definition Rstar : R := power stellar_mass 0.8 * solar_radius.
Definition Rt : R := Rstar * power (mbh_6 * 1.0e6 / stellar_mass) (1 / 3).
Definition Rcirc : R := 2.0 * Rt / beta.
Definition tfb : R :=
  58 * (3600 * 24) * (power mbh_6 0.5) * (power stellar_mass 0.2)
  * (power (binding_energy_const / 0.8) (- 1.5)).
Definition Ledd40 : R := 1.4e4 * mbh_6.
Definition grid_points : nat := 500.
(** The local variable [time_temp] of [_metzger_tde]. *)
Definition make_time_temp : list R :=
  logspace (log10 (1.0 * tfb)) (log10 (100 * tfb)) grid_points.
Definition tdays : list R := map (fun t => t / day_to_s) make_time_temp.

(** Lines 65 to 91: one buffer per grid. *)
Definition allocate : grids :=
  {| Me := empty_like 0 tdays; Ee40 := empty_like 1 tdays;
     Rv := empty_like 2 tdays; Racc := empty_like 3 tdays;
     Rph := empty_like 4 tdays; Edotfb40 := empty_like 5 tdays;
     tacc := empty_like 6 tdays; Edotbh40 := empty_like 7 tdays;
     MdotBH := empty_like 8 tdays; Teff := empty_like 9 tdays;
     Lrad := empty_like 10 tdays; nuLnu := empty_like 11 tdays;
     Lamb := empty_like 12 tdays; LX40 := empty_like 13 tdays |}.

Definition Mdotfb : list R :=
  map (fun t => (0.8 * Mstar / (3.0 * tfb)) * power (t / tfb) (- 5 / 3))
      make_time_temp.
Definition Mdotfb_Edd : list R :=
  map (fun x => x / (Ledd40 / (0.1 * power speed_of_light 2.0)) / 1.0e20 / 1.0e20)
      Mdotfb.

(** Lines 98 to 123: the quantities at grid point 0. *)
Definition initialize (g : grids) : grids :=
  let Me := setitem (Me g) 0
    (0.1 * Mstar + (0.4 * Mstar) * (1.0 - power t0 (- 2 / 3))) in
  let Rv := setitem (Rv g) 0
    ((2 * power Rt 2.0 / (5.0 * binding_energy_const * Rstar)) * (Me.[0] / Mstar)) in
  let Ee40 := setitem (Ee40 g) 0
    (((2.0 * graviational_constant * mbh_6 * 1.0e6 * Me.[0]) / (5.0 * Rv.[0])) * 2.0e-7) in
  let Lamb := setitem (Lamb g) 0
    (0.38 * Me.[0] / (10.0 * PI * power Rv.[0] 2.0)) in
  let Rph := setitem (Rph g) 0 (Rv.[0] * (1.0 + ln Lamb.[0])) in
  let Racc := setitem (Racc g) 0 (zeta * Rv.[0]) in
  let Edotfb40 := setitem (Edotfb40 g) 0
    ((graviational_constant * mbh_6 * 1.0e6 * Mdotfb.[0] / Racc.[0]) * 2.0e-7) in
  let Lrad := setitem (Lrad g) 0 (Ledd40 + Edotfb40.[0]) in
  let tacc := setitem (tacc g) 0
    (2.2e-17 * (10 / (3 * alpha)) * (power Rv.[0] 2.0)
     / power (graviational_constant * mbh_6 * 1.0e6 * Rcirc) 0.5
     * power hoverR (- 2.0)) in
  let MdotBH := setitem (MdotBH g) 0 (Me.[0] / tacc.[0]) in
  let Edotbh40 := setitem (Edotbh40 g) 0
    (eta * power speed_of_light 2.0 * (Me.[0] / tacc.[0]) * 1.0e-40) in
  let Teff := setitem (Teff g) 0
    (1.0e10 * power ((Ledd40 + Edotfb40.[0])
                     / (4.0 * PI * sigma_sb * power Rph.[0] 2.0)) 0.25) in
  {| Me := Me; Ee40 := Ee40; Rv := Rv; Racc := Racc; Rph := Rph;
     Edotfb40 := Edotfb40; tacc := tacc; Edotbh40 := Edotbh40;
     MdotBH := MdotBH; Teff := Teff; Lrad := Lrad; nuLnu := nuLnu g;
     Lamb := Lamb; LX40 := LX40 g |}.

(** Lines 127 to 152: the body of the loop, for the index [ii]. *)
Definition update (t : list R) (g : grids) (ii : Z) : grids :=
  let Me := setitem (Me g) ii
    ((Me g).[ii - 1] - ((MdotBH g).[ii - 1] - Mdotfb.[ii - 1]) * (t.[ii] - t.[ii - 1])) in
  let Ee40 := setitem (Ee40 g) ii
    ((Ee40 g).[ii - 1] + (Ledd40 - (Edotbh40 g).[ii - 1]) * (t.[ii] - t.[ii - 1])) in
  let Rv := setitem (Rv g) ii
    (((2.0 * graviational_constant * mbh_6 * 1.0e6 * Me.[ii]) / (5.0 * Ee40.[ii])) * 2.0e-7) in
  let Lamb := setitem (Lamb g) ii
    (0.38 * Me.[ii] / (10.0 * PI * power Rv.[ii] 2.0)) in
  let Rph := setitem (Rph g) ii (Rv.[ii] * (1.0 + ln Lamb.[ii])) in
  let Racc := setitem (Racc g) ii
    (zeta * Rv.[0] * power (t.[ii] / tfb) (2 / 3)) in
  let Edotfb40 := setitem (Edotfb40 g) ii
    ((graviational_constant * mbh_6 * 1.0e6 * Mdotfb.[ii] / Racc.[ii]) * 2.0e-7) in
  let Lrad := setitem (Lrad g) ii (Ledd40 + Edotfb40.[ii]) in
  let Teff := setitem (Teff g) ii
    (1.0e10 * power ((Ledd40 + Edotfb40.[ii])
                     / (4.0 * PI * sigma_sb * power Rph.[ii] 2.0)) 0.25) in
  let tacc := setitem (tacc g) ii
    (2.2e-17 * (10 / (3.0 * alpha)) * (power Rv.[ii] 2.0)
     / power (graviational_constant * mbh_6 * 1.0e6 * Rcirc) 0.5
     * power hoverR (- 2.0)) in
  let MdotBH := setitem (MdotBH g) ii (Me.[ii] / tacc.[ii]) in
  let LX40 := setitem (LX40 g) ii
    (0.01 * (MdotBH.[ii] / 1.0e20) * (power speed_of_light 2.0 / 1.0e20)) in
  let Edotbh40 := setitem (Edotbh40 g) ii
    (eta * power speed_of_light 2.0 * (Me.[ii] / tacc.[ii]) * 1.0e-40) in
  {| Me := Me; Ee40 := Ee40; Rv := Rv; Racc := Racc; Rph := Rph;
     Edotfb40 := Edotfb40; tacc := tacc; Edotbh40 := Edotbh40;
     MdotBH := MdotBH; Teff := Teff; Lrad := Lrad; nuLnu := nuLnu g;
     Lamb := Lamb; LX40 := LX40 |}.

(** [range(n)] *)
Definition range (n : nat) : list Z := map Z.of_nat (seq 0 n).

(** Line 126: [for ii in range(len(time_temp))]. *)
Definition evolve (t : list R) (g : grids) : grids :=
  fold_left (update t) (range (length t)) g.

(** A grid that an iteration leaves alone or assigns at [ii] only. *)
Definition assigned_at_ii (f : grids -> list R) : Prop :=
  forall (t : list R) (g : grids) (ii : Z),
    f (update t g ii) = f g \/ exists v : R, f (update t g ii) = setitem (f g) ii v.

(** Two states of the grids that the iteration [ii = 0] cannot tell apart:
    it reads the last entries and assigns the first ones. *)
Definition same_but_first (g1 g2 : grids) : Prop :=
  Forall (fun f : grids -> list R =>
            (f g1).[-1] = (f g2).[-1] /\
            forall v : R, setitem (f g1) 0 v = setitem (f g2) 0 v)
         [Me; Ee40; Rv; Racc; Rph; Edotfb40; tacc; Edotbh40; MdotBH; Teff;
          Lrad; Lamb; LX40] /\
  nuLnu g1 = nuLnu g2.

(** The grids when the loop has finished. *)
Definition final_grids : grids :=
  evolve make_time_temp (initialize allocate).

(** The grids when the iteration [ii = p] of the loop begins. *)
Definition before_iteration (p : nat) : grids :=
  fold_left (update make_time_temp) (range p) (initialize allocate).

Definition _metzger_tde : output :=
  let g := final_grids in
  {| bolometric_luminosity := Lrad g;
     photosphere_temperature := Teff g;
     photosphere_radius := Rph g;
     lum_xray := LX40 g;
     accretion_radius := Racc g;
     SMBH_accretion_rate := MdotBH g;
     time_temp := make_time_temp |}.

End Parameters.
End Metzger.

(** *** The module namespace and [metzger_tde] *)

Inductive pyobj : Type :=
| PyFloat (x : R)
| PyArray (a : list R)
| PyStr (s : string)
| PyModule (dotted_name : string)
| PyFunction (qualified_name : string)
| PyInstance (class_name : string).

(** The names that the module binds: its imports (lines 1 to 9) and its
    function definitions.  [citation_wrapper] hands back the function it
    decorates. *)
Definition module_globals : dict pyobj :=
  [ ("np", PyModule "numpy");
    ("ip", PyModule "redback.interaction_processes");
    ("sed", PyModule "redback.sed");
    ("photosphere", PyModule "redback.photosphere");
    ("cosmo", PyInstance "astropy.cosmology.Planck18");
    ("calc_kcorrected_properties", PyFunction "redback.utils.calc_kcorrected_properties");
    ("citation_wrapper", PyFunction "redback.utils.citation_wrapper");
    ("cc", PyModule "redback.constants");
    ("namedtuple", PyFunction "collections.namedtuple");
    ("uu", PyModule "astropy.units");
    ("_analytic_fallback", PyFunction "_analytic_fallback");
    ("_semianalytical_fallback", PyFunction "_semianalytical_fallback");
    ("_metzger_tde", PyFunction "_metzger_tde");
    ("metzger_tde", PyFunction "metzger_tde");
    ("tde_analytical_bolometric", PyFunction "tde_analytical_bolometric");
    ("tde_analytical", PyFunction "tde_analytical");
    ("tde_semianalytical", PyFunction "tde_semianalytical") ].

(** The functions of the [builtins] module. *)
Definition builtins : list string :=
  [ "abs"; "aiter"; "all"; "anext"; "any"; "ascii"; "bin"; "bool";
    "breakpoint"; "bytearray"; "bytes"; "callable"; "chr"; "classmethod";
    "compile"; "complex"; "delattr"; "dict"; "dir"; "divmod"; "enumerate";
    "eval"; "exec"; "filter"; "float"; "format"; "frozenset"; "getattr";
    "globals"; "hasattr"; "hash"; "help"; "hex"; "id"; "input"; "int";
    "isinstance"; "issubclass"; "iter"; "len"; "list"; "locals"; "map";
    "max"; "memoryview"; "min"; "next"; "object"; "oct"; "open"; "ord";
    "pow"; "print"; "property"; "range"; "repr"; "reversed"; "round";
    "set"; "setattr"; "slice"; "sorted"; "staticmethod"; "str"; "sum";
    "super"; "tuple"; "type"; "vars"; "zip"; "__import__" ].

(** A name that the function does not assign is looked up in the module,
    then among the builtins. *)
Definition load_global (n : string) : result pyobj :=
  match lookup module_globals n with
  | Some v => Ok v
  | None =>
      if existsb (String.eqb n) builtins then Ok (PyFunction n)
      else Raise (NameError n)
  end.

(** A name that the function assigns somewhere, or takes as a parameter,
    is local to it. *)
Definition load_name (local_names : list string) (locals : dict pyobj)
    (n : string) : result pyobj :=
  if existsb (String.eqb n) local_names then
    match lookup locals n with
    | Some v => Ok v
    | None => Raise (UnboundLocalError n)
    end
  else load_global n.

(** The parameters of [metzger_tde] and the names it assigns. *)
Definition metzger_tde_local_names : list string :=
  [ "time"; "redshift"; "mbh_6"; "stellar_mass"; "eta"; "alpha"; "beta";
    "kwargs"; "frequency"; "output"; "dl"; "temp_func"; "rad_func"; "temp";
    "photosphere"; "flux_density" ].

(** [def _metzger_tde(mbh_6, stellar_mass, eta, alpha, beta, **kwargs)] *)
Definition _metzger_tde_signature : signature pyobj :=
  {| sig_name := "_metzger_tde";
     sig_params := [("mbh_6", None); ("stellar_mass", None); ("eta", None);
                    ("alpha", None); ("beta", None)];
     sig_var_keyword := true |}.

Section MetzgerTde.

(** Lines 183 to 202, from the bound arguments of the call on line 182 on:
    they use the cosmology library and three more functions,
    and are kept abstract. *)
Variable lines_183_202 :
  dict pyobj -> pyobj -> list R -> R -> dict pyobj -> result (list R).

Definition metzger_tde (time : list R)
    (redshift mbh_6 stellar_mass eta alpha beta : R) (kwargs : dict pyobj)
    : result (list R) :=
  let locals :=
    [ ("time", PyArray time); ("redshift", PyFloat redshift);
      ("mbh_6", PyFloat mbh_6); ("stellar_mass", PyFloat stellar_mass);
      ("eta", PyFloat eta); ("alpha", PyFloat alpha); ("beta", PyFloat beta) ] in
  bind (getitem kwargs "frequency") (fun frequency =>
  let locals := ("frequency", frequency) :: locals in
  bind (load_name metzger_tde_local_names locals "_metzger_tde") (fun callee =>
  bind (load_name metzger_tde_local_names locals "time_temp") (fun time_temp =>
  bind (bind_args _metzger_tde_signature [time_temp] kwargs) (fun arguments =>
  lines_183_202 arguments frequency time redshift kwargs)))).

End MetzgerTde.

(** *** [tde_analytical] *)

(** The values that the keyword arguments of [tde_analytical] hold; a class
    or any other object is known by its name. *)
Inductive value : Type :=
| VFloat (x : R)
| VArray (a : list R)
| VStr (s : string)
| VNone
| VObject (qualified_name : string).

(** [v == s] for a string [s] *)
Definition value_is (v : value) (s : string) : bool :=
  match v with
  | VStr s' => String.eqb s' s
  | _ => false
  end.

(** [def tde_analytical_bolometric(time, l0, t_0,
    interaction_process = ip.Diffusion, **kwargs)] *)
Definition tde_analytical_bolometric_signature : signature value :=
  {| sig_name := "tde_analytical_bolometric";
     sig_params := [("time", None); ("l0", None); ("t_0", None);
                    ("interaction_process",
                     Some (VObject "redback.interaction_processes.Diffusion"))];
     sig_var_keyword := true |}.

Section TdeAnalytical.

(** The collaborators: calling the interaction process [cls(time=...,
    luminosity=..., **kwargs)] and reading its [new_luminosity]; calling
    the photosphere and reading its temperature and radius; calling the
    SED and reading its flux density; the k-correction; the luminosity
    distance in cm; and [np.nan_to_num] followed by the conversion to mJy
    or to AB magnitudes. *)
Variable call_interaction :
  value -> list R -> list R -> dict value -> result (list R).
Variable call_photosphere :
  value -> list R -> list R -> dict value -> result (list R * list R).
Variable call_sed :
  value -> list R -> list R -> list R -> value -> R -> value -> list R ->
  result (list R).
Variable calc_kcorrected_properties :
  value -> R -> list R -> result (value * list R).
Variable luminosity_distance : R -> R.
Variables to_mJy to_ABmag : list R -> list R.

(** The interaction process as [tde_analytical_bolometric] receives it,
    with the keyword arguments that the call passes on to it. *)
Definition as_interaction (cls : value) (kwargs : dict value)
    : option interaction :=
  match cls with
  | VNone => None
  | _ => Some (fun time luminosity _ => call_interaction cls time luminosity kwargs)
  end.

Definition tde_analytical (time : list R) (redshift l0 t_0 : R)
    (kwargs : dict value) : result (option (list R)) :=
  let _interaction_process :=
    get kwargs "interaction_process"
        (VObject "redback.interaction_processes.Diffusion") in
  let _photosphere :=
    get kwargs "photosphere" (VObject "redback.photosphere.TemperatureFloor") in
  let _sed := get kwargs "sed" (VObject "redback.sed.CutoffBlackbody") in
  bind (getitem kwargs "frequency") (fun frequency =>
  let cutoff_wavelength := get kwargs "cutoff_wavelength" (VFloat 3000) in
  bind (calc_kcorrected_properties frequency redshift time) (fun ft =>
  let frequency := fst ft in
  let time := snd ft in
  let dl := luminosity_distance redshift in
  bind (bind_args tde_analytical_bolometric_signature []
          ([("time", VArray time); ("l0", VFloat l0); ("t_0", VFloat t_0);
            ("interaction_process", _interaction_process)] ++ kwargs)%list)
       (fun arguments =>
  bind (tde_analytical_bolometric time l0 t_0
          (as_interaction (get arguments "interaction_process" VNone) kwargs) [])
       (fun lbol =>
  bind (call_photosphere _photosphere time lbol kwargs) (fun photo =>
  bind (call_sed _sed time (fst photo) (snd photo) frequency dl
          cutoff_wavelength lbol) (fun flux_density =>
  bind (getitem kwargs "output_format") (fun output_format =>
  if value_is output_format "flux_density" then Ok (Some (to_mJy flux_density))
  else if value_is output_format "magnitude" then Ok (Some (to_ABmag flux_density))
  else Ok None))))))).

End TdeAnalytical.

End TdeModels.

(** ** The truncation rule, in the words of the specification *)

Module TruncationSpec.
Import Py Np Afterglow.
Local Open Scope R_scope.
Local Open Scope string_scope.

(** A measurement belongs to the prompt phase when its positive time error
    exceeds 0.0025 s and its time is before 2.0 s. *)
Definition prompt (t e : R) : Prop := e > 0.0025 /\ t < 2.0.

Definition promptb (t e : R) : bool := Rgtb e 0.0025 && Rltb t 2.0.

(** The positions, in increasing order, of the measurements that are not
    in the prompt phase, for the times [t] and positive time errors [e]. *)
Definition kept_positions (t e : list R) : list nat :=
  filter (fun i => negb (promptb (nth i t 0) (nth i e 0))) (seq 0 (length t)).

(** The entries of [a] at the positions [idx]. *)
Definition select (idx : list nat) (a : list R) : list R :=
  map (fun i => nth i a 0) idx.

(** The time, its error, the measurement and its error that the data mode
    of an object designates. *)
Definition observed (self : obj) : option (list R * ndarray * list R * ndarray) :=
  if String.eqb (data_mode self) "luminosity" then
    Some (time_rest_frame self, time_rest_frame_err self, Lum50 self, Lum50_err self)
  else if String.eqb (data_mode self) "flux" then
    Some (time self, time_err self, flux self, flux_err self)
  else if String.eqb (data_mode self) "flux_density" then
    Some (time self, time_err self, flux_density self, flux_density_err self)
  else None.

(** An error array has [n] columns: each of its rows has length [n]. *)
Definition columns (a : ndarray) (n : nat) : Prop :=
  match a with
  | Arr1 xs => length xs = n
  | Arr2 rows => Forall (fun r => length r = n) rows
  end.

(** The time and the measurement have one length, and each error array has
    as many columns as its value array has entries. *)
Definition aligned (self : obj) : Prop :=
  match observed self with
  | Some (t, te, y, ye) =>
      length t = length y /\ columns te (length t) /\ columns ye (length y)
  | None => True
  end.

(** The rule of the method prompt_time_error, read for one object: the
    call returns, and the measurement that the data mode designates keeps,
    in order, exactly its entries that are not in the prompt phase. *)
Definition prompt_rule_holds (self : obj) : Prop :=
  exists (t e0 y : list R) (te ye : ndarray),
    observed self = Some (t, te, y, ye) /\ row te 0 = Ok e0 /\
    let result := truncate "prompt_time_error" self in
    fst result = Ok tt /\
    exists (t' : list R) (te' ye' : ndarray),
      observed (snd result)
      = Some (t', te', select (kept_positions t e0) y, ye').

End TruncationSpec.

(** * Properties *)

Import Py Np.

(** ** The name of an afterglow *)

Module NameProperties.
Import Afterglow.
Local Open Scope string_scope.

(** The constructor leaves a name that starts with GRB. *)
Lemma init_name_startswith (n : string) :
  startswith (init_name n) "GRB" = true.
Proof.
  unfold init_name.
  destruct (startswith n "GRB") eqn:E; simpl.
  - exact E.
  - reflexivity.
Qed.

(** GRB is put in front exactly when the name given does not start with it. *)
Lemma init_name_prepends (n : string) :
  (startswith n "GRB" = false -> init_name n = "GRB" ++ n) /\
  (startswith n "GRB" = true -> init_name n = n).
Proof.
  unfold init_name; split; intros ->; reflexivity.
Qed.

Lemma lstrip_skips (s chars : string) (c : ascii) :
  char_in c chars = true -> lstrip (String c s) chars = lstrip s chars.
Proof. intros H; simpl; rewrite H; reflexivity. Qed.

Lemma lstrip_stops (s chars : string) (c : ascii) :
  char_in c chars = false -> lstrip (String c s) chars = String c s.
Proof. intros H; simpl; rewrite H; reflexivity. Qed.

(** When what follows the prefix begins with none of G, R and B (a date,
    as GRB names do), [lstrip] removes the prefix and nothing more. *)
Lemma stripped_name_of_dated (c : ascii) (s : string) :
  char_in c "GRB" = false ->
  _stripped_name (init_name (String c s)) = String c s /\
  _stripped_name (init_name ("GRB" ++ String c s)) = String c s.
Proof.
  intros H. split.
  - unfold init_name.
    assert (E : startswith (String c s) "GRB" = false).
    { pose proof H as G. simpl in G. apply Bool.orb_false_elim in G as [G _].
      simpl. rewrite G. reflexivity. }
    rewrite E. cbn [negb]. unfold _stripped_name.
    change ("GRB" ++ String c s) with (String "G" (String "R" (String "B" (String c s)))).
    rewrite !lstrip_skips by reflexivity. apply lstrip_stops, H.
  - unfold init_name, _stripped_name.
    change ("GRB" ++ String c s) with (String "G" (String "R" (String "B" (String c s)))).
    replace (startswith (String "G" (String "R" (String "B" (String c s)))) "GRB")
      with true by reflexivity.
    cbn [negb].
    rewrite !lstrip_skips by reflexivity. apply lstrip_stops, H.
Qed.

(** C10, at the name B050128 with the prefix GRB in front: the constructor
    keeps the name as it is, and [_stripped_name] gives 050128, although
    removing one leading GRB leaves B050128. *)
Theorem stripped_name_drops_leading_B :
  init_name "GRBB050128" = "GRBB050128" /\
  _stripped_name (init_name "GRBB050128") = "050128" /\
  removeprefix "GRBB050128" "GRB" = "B050128" /\
  _stripped_name (init_name "GRBB050128") <> removeprefix "GRBB050128" "GRB".
Proof.
  repeat split; try reflexivity.
  vm_compute. discriminate.
Qed.

End NameProperties.

(** ** Construction from a path *)

Module ConstructionProperties.
Import Afterglow.
Local Open Scope string_scope.

Section WithCollaborators.

Variable find_path : string -> string.
Variable init_and_load : string -> string -> result obj.
Variable load_data : string -> M unit.

(** The keyword [path] names no parameter of [__init__]. *)
Lemma new_rejects_path (grb data_dir : string) :
  new init_and_load [] [("name", grb); ("path", data_dir)]
  = Raise (UnexpectedKeyword "__init__" "path").
Proof. reflexivity. Qed.

(** The same call without the keyword [path] reaches the body of
    [__init__]. *)
Lemma new_accepts_name (grb : string) :
  new init_and_load [] [("name", grb)] = __init__ init_and_load grb "flux".
Proof. reflexivity. Qed.

(** C9: [from_path_and_grb] raises a TypeError for every path and name, for
    the keyword [path] that [__init__] does not take, and so does
    [from_path_and_grb_with_truncation]. *)
Theorem from_path_and_grb_raises_TypeError (path grb : string) :
  from_path_and_grb find_path init_and_load path grb
    = Raise (UnexpectedKeyword "__init__" "path") /\
  is_TypeError (UnexpectedKeyword "__init__" "path") = true /\
  forall (truncate_flag : bool) (truncate_method data_mode : string),
    from_path_and_grb_with_truncation find_path init_and_load load_data
      path grb truncate_flag truncate_method data_mode
    = Raise (UnexpectedKeyword "__init__" "path").
Proof.
  repeat split.
Qed.

End WithCollaborators.

End ConstructionProperties.

(** ** [metzger_tde] *)

Module MetzgerTdeProperties.
Import TdeModels.
Local Open Scope string_scope.

(** [time_temp] is neither assigned in [metzger_tde] nor bound in the
    module nor a builtin. *)
Lemma time_temp_unbound (locals : dict pyobj) :
  load_name metzger_tde_local_names locals "time_temp"
  = Raise (NameError "time_temp").
Proof. reflexivity. Qed.

(** The function called on line 182 is bound. *)
Lemma _metzger_tde_bound (locals : dict pyobj) :
  load_name metzger_tde_local_names locals "_metzger_tde"
  = Ok (PyFunction "_metzger_tde").
Proof. reflexivity. Qed.

(** The functions that lines 183 to 202 call are not bound either. *)
Lemma helpers_unbound :
  load_global "interp1d" = Raise (NameError "interp1d") /\
  load_global "day_to_s" = Raise (NameError "day_to_s") /\
  load_global "blackbody_to_flux_density"
    = Raise (NameError "blackbody_to_flux_density").
Proof. repeat split. Qed.

(** With one positional argument and the keywords [frequency] and
    [output_format], the call on line 182 lacks four arguments. *)
Lemma call_lacks_arguments (v frequency output_format : pyobj) :
  bind_args _metzger_tde_signature [v]
    [("frequency", frequency); ("output_format", output_format)]
  = Raise (MissingArguments "_metzger_tde"
             ["stellar_mass"; "eta"; "alpha"; "beta"]).
Proof. reflexivity. Qed.

(** C1, what the code does: whenever [kwargs] has [frequency] and
    [output_format], for the flux density as for the magnitude,
    [metzger_tde] raises NameError for [time_temp] and returns nothing. *)
Theorem metzger_tde_raises_NameError
    (lines_183_202 : dict pyobj -> pyobj -> list R -> R -> dict pyobj -> result (list R))
    (time : list R) (redshift mbh_6 stellar_mass eta alpha beta : R)
    (kwargs : dict pyobj) (frequency : pyobj) (output_format : string) :
  lookup kwargs "frequency" = Some frequency ->
  lookup kwargs "output_format" = Some (PyStr output_format) ->
  metzger_tde lines_183_202 time redshift mbh_6 stellar_mass eta alpha beta kwargs
  = Raise (NameError "time_temp").
Proof.
  intros Hf _.
  unfold metzger_tde, getitem. rewrite Hf. cbn [bind].
  rewrite _metzger_tde_bound. cbn [bind].
  rewrite time_temp_unbound. reflexivity.
Qed.

Lemma metzger_tde_raises_NameError_witness :
  metzger_tde (fun _ _ _ _ _ => Ok [1%R]) [1%R; 2%R] 0.1 1 1 0.1 0.1 1
    [("frequency", PyFloat 1e14); ("output_format", PyStr "flux_density")]
  = Raise (NameError "time_temp").
Proof.
  apply (metzger_tde_raises_NameError _ _ _ _ _ _ _ _ _ (PyFloat 1e14) "flux_density");
    reflexivity.
Defined.

End MetzgerTdeProperties.

(** ** Masks *)

Module MaskProperties.
Local Open Scope R_scope.

Lemma Rgtb_true (x y : R) : Rgtb x y = true <-> x > y.
Proof. unfold Rgtb; destruct (Rgt_dec x y); split; intros; try discriminate; tauto. Qed.

Lemma Rgtb_false (x y : R) : Rgtb x y = false <-> x <= y.
Proof.
  unfold Rgtb; destruct (Rgt_dec x y); split; intros; try discriminate;
    try reflexivity; lra.
Qed.

Lemma Rltb_true (x y : R) : Rltb x y = true <-> x < y.
Proof. unfold Rltb; destruct (Rlt_dec x y); split; intros; try discriminate; tauto. Qed.

Lemma Rltb_false (x y : R) : Rltb x y = false <-> y <= x.
Proof.
  unfold Rltb; destruct (Rlt_dec x y); split; intros; try discriminate;
    try reflexivity; lra.
Qed.

Lemma length_invert (m : list bool) : length (invert m) = length m.
Proof. apply length_map. Qed.

Lemma length_compress_count {A} (m : list bool) (a : list A) :
  length m = length a -> length (compress m a) = count_occ bool_dec m true.
Proof.
  revert a; induction m as [|b m IH]; intros [|x a] H; simpl in *;
    try discriminate; try reflexivity.
  injection H as H. destruct b; simpl; rewrite (IH a H); reflexivity.
Qed.

Lemma take_mask_map (p : R -> bool) (a : list R) :
  take_mask a (map p a) = Ok (compress (map p a) a).
Proof. unfold take_mask. rewrite length_map, Nat.eqb_refl. reflexivity. Qed.

Lemma compress_map_filter {A} (p : A -> bool) (a : list A) :
  compress (map p a) a = filter p a.
Proof.
  induction a as [|x a IH]; simpl; [reflexivity|].
  destruct (p x); rewrite IH; reflexivity.
Qed.

(** Assigning [f] of the selected entries to the selected positions of an
    array of zeros. *)
Lemma put_values_zeros (p : R -> bool) (f : R -> R) (a : list R) :
  put_values (zeros (length a)) (map p a) (map f (compress (map p a) a))
  = map (fun x => if p x then f x else 0) a.
Proof.
  induction a as [|x a IH]; simpl; [reflexivity|].
  destruct (p x); simpl; fold (zeros (length a)); rewrite IH; reflexivity.
Qed.

Lemma put_mask_scalar_rest (p : R -> bool) (f : R -> R) (c d : R) (a : list R) :
  put_mask_scalar (map (fun x => if p x then f x else d) a)
                  (invert (map p a)) c
  = map (fun x => if p x then f x else c) a.
Proof.
  induction a as [|x a IH]; simpl; [reflexivity|].
  fold (invert (map p a)). rewrite IH. destruct (p x); reflexivity.
Qed.

End MaskProperties.

(** ** The analytic fallback model *)

Module AnalyticFallbackProperties.
Import TdeModels MaskProperties.
Local Open Scope R_scope.

Lemma power_pos (x y : R) : 0 < x -> power x y = Rpower x y.
Proof. intros H. unfold power. destruct (Rlt_dec 0 x); [reflexivity | contradiction]. Qed.

(** The function never raises, and computes its result entry by entry. *)
Lemma _analytic_fallback_entrywise (time : list R) (l0 t_0 : R) :
  _analytic_fallback time l0 t_0
  = Ok (map (fun t => if Rgtb (t - t_0) 0
                      then l0 / power (t * 86400) (5 / 3)
                      else l0 / power (t_0 * 86400) (5 / 3)) time).
Proof.
  unfold _analytic_fallback, gt.
  rewrite map_map.
  set (p := fun t : R => Rgtb (t - t_0) 0).
  set (f := fun t : R => l0 / power (t * 86400) (5 / 3)).
  rewrite (take_mask_map p time). cbn [bind].
  unfold put_mask.
  unfold zeros at 1. rewrite length_map, repeat_length, Nat.eqb_refl. cbn [negb].
  rewrite length_map, length_compress_count by (apply length_map).
  rewrite Nat.eqb_refl. cbn [bind].
  rewrite (put_values_zeros p f time).
  unfold put_mask_const.
  rewrite length_invert, !length_map, Nat.eqb_refl. cbn [bind].
  rewrite (put_mask_scalar_rest p f). reflexivity.
Qed.

(** C8: for [l0 > 0] and [t_0 > 0] the result has the length of [time];
    the entry of a time after [t_0] is [l0 / (time * 86400) ^ (5/3)] and the
    entry of a time up to [t_0] is the constant [l0 / (t_0 * 86400) ^ (5/3)];
    and [tde_analytical_bolometric] with no interaction process returns the
    same array. *)
Theorem analytic_fallback_power_law (time : list R) (l0 t_0 : R)
    (kwargs : dict R) :
  l0 > 0 -> t_0 > 0 ->
  exists lbol : list R,
    _analytic_fallback time l0 t_0 = Ok lbol /\
    length lbol = length time /\
    (forall (i : nat) (t : R), nth_error time i = Some t -> t > t_0 ->
       nth_error lbol i = Some (l0 / Rpower (t * 86400) (5 / 3))) /\
    (forall (i : nat) (t : R), nth_error time i = Some t -> t <= t_0 ->
       nth_error lbol i = Some (l0 / Rpower (t_0 * 86400) (5 / 3))) /\
    tde_analytical_bolometric time l0 t_0 None kwargs = Ok lbol.
Proof.
  intros Hl Ht.
  eexists. split; [apply _analytic_fallback_entrywise|].
  split; [apply length_map|].
  split; [|split].
  - intros i t Hi Hgt.
    rewrite nth_error_map, Hi. cbn [option_map].
    replace (Rgtb (t - t_0) 0) with true
      by (symmetry; apply Rgtb_true; lra).
    rewrite power_pos by lra. reflexivity.
  - intros i t Hi Hle.
    rewrite nth_error_map, Hi. cbn [option_map].
    replace (Rgtb (t - t_0) 0) with false
      by (symmetry; apply Rgtb_false; lra).
    rewrite power_pos by lra. reflexivity.
  - unfold tde_analytical_bolometric.
    rewrite _analytic_fallback_entrywise. reflexivity.
Qed.

Lemma analytic_fallback_power_law_witness :
  exists lbol : list R,
    _analytic_fallback [1; 3] 1e40 2 = Ok lbol /\
    length lbol = length [1; 3] /\
    (forall (i : nat) (t : R), nth_error [1; 3] i = Some t -> t > 2 ->
       nth_error lbol i = Some (1e40 / Rpower (t * 86400) (5 / 3))) /\
    (forall (i : nat) (t : R), nth_error [1; 3] i = Some t -> t <= 2 ->
       nth_error lbol i = Some (1e40 / Rpower (2 * 86400) (5 / 3))) /\
    tde_analytical_bolometric [1; 3] 1e40 2 None [] = Ok lbol.
Proof.
  apply (analytic_fallback_power_law [1; 3] 1e40 2 []); lra.
Defined.

End AnalyticFallbackProperties.

(** ** The time grid of [_metzger_tde] *)

Module GridProperties.
Import TdeModels AnalyticFallbackProperties.
Local Open Scope R_scope.

Lemma nth_map_seq (f : nat -> R) (n i : nat) :
  (i < n)%nat -> nth i (map f (seq 0 n)) 0 = f i.
Proof.
  intros H.
  rewrite (nth_indep _ 0 (f 0%nat)) by (rewrite length_map, length_seq; exact H).
  rewrite (map_nth f (seq 0 n) 0%nat i), seq_nth by exact H. reflexivity.
Qed.

Lemma length_linspace (start stop : R) (n : nat) :
  length (linspace start stop n) = n.
Proof. unfold linspace. rewrite length_map, length_seq. reflexivity. Qed.

(** With at least two samples, every sample of [linspace], the last one
    included, is [start + i * (stop - start) / (n - 1)]. *)
Lemma nth_linspace (start stop : R) (n i : nat) :
  (1 < n)%nat -> (i < n)%nat ->
  nth i (linspace start stop n) 0
  = start + INR i * ((stop - start) / INR (n - 1)).
Proof.
  intros Hn Hi. unfold linspace.
  rewrite nth_map_seq by exact Hi.
  replace (Nat.ltb 1 n) with true by (symmetry; apply Nat.ltb_lt; exact Hn).
  rewrite Bool.andb_true_r.
  destruct (Nat.eqb (S i) n) eqn:E.
  - apply Nat.eqb_eq in E.
    replace (n - 1)%nat with i by lia.
    assert (INR i <> 0) by (apply not_0_INR; lia).
    field. assumption.
  - ring.
Qed.

Lemma length_logspace (start stop : R) (n : nat) :
  length (logspace start stop n) = n.
Proof. unfold logspace. rewrite length_map. apply length_linspace. Qed.

Lemma nth_logspace (start stop : R) (n i : nat) :
  (1 < n)%nat -> (i < n)%nat ->
  nth i (logspace start stop n) 0
  = Rpower 10 (start + INR i * ((stop - start) / INR (n - 1))).
Proof.
  intros Hn Hi. unfold logspace.
  rewrite (nth_indep _ 0 (power 10 0))
    by (rewrite length_map, length_linspace; exact Hi).
  rewrite (map_nth (fun y => power 10 y)).
  rewrite nth_linspace by assumption.
  apply power_pos. lra.
Qed.

Lemma ln_10_pos : 0 < ln 10.
Proof. rewrite <- ln_1. apply ln_increasing; lra. Qed.

Lemma Rpower_10_log10 (x : R) : 0 < x -> Rpower 10 (log10 x) = x.
Proof.
  intros H. unfold Rpower, log10.
  replace (ln x / ln 10 * ln 10) with (ln x)
    by (field; apply Rgt_not_eq, ln_10_pos).
  apply exp_ln, H.
Qed.

Lemma log10_mult (x y : R) : 0 < x -> 0 < y -> log10 (x * y) = log10 x + log10 y.
Proof.
  intros Hx Hy. unfold log10. rewrite ln_mult by assumption.
  field. apply Rgt_not_eq, ln_10_pos.
Qed.

(** The fall-back time is positive. *)
Lemma tfb_pos (mbh_6 stellar_mass : R) (kwargs : dict R) :
  0 < mbh_6 -> 0 < stellar_mass -> 0 < binding_energy_const kwargs ->
  0 < tfb mbh_6 stellar_mass kwargs.
Proof.
  intros Hm Hs Hb. unfold tfb.
  rewrite !power_pos
    by first [assumption | apply Rdiv_lt_0_compat; [assumption | lra]].
  unfold Rpower.
  repeat apply Rmult_lt_0_compat; try apply exp_pos; lra.
Qed.

(** Every point of the grid, in closed form. *)
Lemma nth_time_temp (mbh_6 stellar_mass : R) (kwargs : dict R) (i : nat) :
  0 < mbh_6 -> 0 < stellar_mass -> 0 < binding_energy_const kwargs ->
  (i < 500)%nat ->
  nth i (make_time_temp mbh_6 stellar_mass kwargs) 0
  = tfb mbh_6 stellar_mass kwargs * Rpower 10 (INR i * (2 / 499)).
Proof.
  intros Hm Hs Hb Hi.
  pose proof (tfb_pos mbh_6 stellar_mass kwargs Hm Hs Hb) as Ht.
  unfold make_time_temp, grid_points.
  rewrite nth_logspace by (try exact Hi; lia).
  set (T := tfb mbh_6 stellar_mass kwargs) in *.
  replace (1.0 * T) with T by lra.
  rewrite (Rmult_comm 100 T), log10_mult by lra.
  replace (log10 T + log10 100 - log10 T) with (log10 100) by ring.
  assert (H100 : log10 100 = 2).
  { replace 100 with (10 * 10) by lra.
    rewrite log10_mult by lra. unfold log10.
    field. apply Rgt_not_eq, ln_10_pos. }
  rewrite H100.
  replace (INR (500 - 1)) with 499
    by (change (500 - 1)%nat with 499%nat; rewrite INR_IZR_INZ; reflexivity).
  rewrite Rpower_plus, Rpower_10_log10 by exact Ht.
  reflexivity.
Qed.

Lemma time_temp_first (mbh_6 stellar_mass : R) (kwargs : dict R) :
  0 < mbh_6 -> 0 < stellar_mass -> 0 < binding_energy_const kwargs ->
  nth 0 (make_time_temp mbh_6 stellar_mass kwargs) 0
  = tfb mbh_6 stellar_mass kwargs.
Proof.
  intros Hm Hs Hb. rewrite nth_time_temp by (try assumption; lia).
  replace (INR 0 * (2 / 499)) with 0 by (simpl; ring).
  rewrite Rpower_O by lra. ring.
Qed.

Lemma time_temp_last (mbh_6 stellar_mass : R) (kwargs : dict R) :
  0 < mbh_6 -> 0 < stellar_mass -> 0 < binding_energy_const kwargs ->
  nth 499 (make_time_temp mbh_6 stellar_mass kwargs) 0
  = 100 * tfb mbh_6 stellar_mass kwargs.
Proof.
  intros Hm Hs Hb. rewrite nth_time_temp by (try assumption; lia).
  replace (INR 499 * (2 / 499)) with (1 + 1)
    by (rewrite INR_IZR_INZ; change (IZR (Z.of_nat 499)) with 499; field).
  rewrite Rpower_plus, Rpower_1 by lra. ring.
Qed.

(** C3: for positive parameters the grid has 500 points, starts at [tfb],
    ends at [100 * tfb], and each point is the one before it times the
    constant [10 ^ (2 / 499)]. *)
Theorem time_grid_is_logarithmic (mbh_6 stellar_mass : R) (kwargs : dict R) :
  0 < mbh_6 -> 0 < stellar_mass -> 0 < binding_energy_const kwargs ->
  let grid := make_time_temp mbh_6 stellar_mass kwargs in
  let tfb := tfb mbh_6 stellar_mass kwargs in
  length grid = 500%nat /\
  nth 0 grid 0 = tfb /\
  nth 499 grid 0 = 100 * tfb /\
  (forall i : nat, (i < 499)%nat ->
     nth i grid 0 > 0 /\
     nth (S i) grid 0 / nth i grid 0 = Rpower 10 (2 / 499)).
Proof.
  intros Hm Hs Hb grid T.
  pose proof (tfb_pos mbh_6 stellar_mass kwargs Hm Hs Hb) as Ht.
  fold T in Ht.
  split; [apply length_logspace|].
  split; [|split].
  - apply time_temp_first; assumption.
  - apply time_temp_last; assumption.
  - intros i Hi. unfold grid.
    rewrite !nth_time_temp by (try assumption; lia). fold T.
    assert (Hp : 0 < Rpower 10 (INR i * (2 / 499))) by apply exp_pos.
    split; [apply Rmult_lt_0_compat; assumption|].
    rewrite S_INR.
    replace ((INR i + 1) * (2 / 499)) with (INR i * (2 / 499) + 2 / 499) by ring.
    rewrite Rpower_plus. field. split; apply Rgt_not_eq; assumption.
Qed.

Lemma time_grid_is_logarithmic_witness :
  let grid := make_time_temp 1 1 [] in
  let tfb := tfb 1 1 [] in
  length grid = 500%nat /\
  nth 0 grid 0 = tfb /\
  nth 499 grid 0 = 100 * tfb /\
  (forall i : nat, (i < 499)%nat ->
     nth i grid 0 > 0 /\
     nth (S i) grid 0 / nth i grid 0 = Rpower 10 (2 / 499)).
Proof.
  apply (time_grid_is_logarithmic 1 1 []);
    unfold binding_energy_const, get; simpl; lra.
Defined.

End GridProperties.

(** ** Flux to luminosity *)

Module ConversionProperties.
Import Afterglow.
Local Open Scope R_scope.
Local Open Scope string_scope.

(** The square, for a base of any sign. *)
Lemma power_2 (x : R) : power x 2 = x ^ 2.
Proof.
  assert (P : forall u : R, 0 < u -> Rpower u 2 = u ^ 2).
  { intros u Hu. change 2 with (INR 2). apply Rpower_pow, Hu. }
  unfold power.
  destruct (Rlt_dec 0 x) as [Hx | Hx]; [apply P, Hx|].
  destruct (Req_dec_T 2 0) as [H | _]; [lra|].
  destruct (Req_dec_T x 0) as [-> | Hx0]; [simpl; ring|].
  destruct (Int_part_frac_part_spec 2 2 0) as [Hi Hf]; [lra | lra |].
  rewrite <- Hf, <- Hi.
  destruct (Req_dec_T 0 0) as [_ | H]; [|contradiction].
  cbn [Z.even]. rewrite P by lra. ring.
Qed.

(** Saving assigns no attribute. *)
Lemma _save_luminosity_data_state (self : obj) :
  snd (_save_luminosity_data self) = self.
Proof.
  unfold _save_luminosity_data, mbind, attr, eval, ret, raise.
  destruct (row (time_rest_frame_err self) 0); [|reflexivity].
  destruct (row (time_rest_frame_err self) 1); [|reflexivity].
  destruct (row (Lum50_err self) 0); [|reflexivity].
  destruct (row (Lum50_err self) 1); [|reflexivity].
  destruct (forallb _ _); reflexivity.
Qed.

Section WithCosmology.

Variable luminosity_distance : R -> R.

(** The attributes after a conversion at redshift [z]. *)
Lemma conversion_state (self : obj) (z : R) :
  fst (_get_redshift_for_luminosity_calculation self) = Ok (Some z) ->
  let ibf := power (luminosity_distance z) 2 * 4 * PI
             * power (1 + z) (photon_index self - 2) in
  snd (analytical_flux_to_luminosity luminosity_distance self)
  = {| name := name self; data_mode := "luminosity";
       redshift := redshift self; photon_index := photon_index self;
       time := time self;
       time_rest_frame := map (fun x => x / (1 + z)) (time self);
       time_err := time_err self;
       time_rest_frame_err := map_nd (fun x => x / (1 + z)) (time_err self);
       Lum50 := map (fun x => x * 1 * ibf * 1e-50) (flux self);
       Lum50_err := map_nd (fun x => x * ibf * 1e-50) (flux_err self);
       flux_density := flux_density self;
       flux_density_err := flux_density_err self;
       flux := flux self; flux_err := flux_err self |}.
Proof.
  intros H ibf.
  unfold analytical_flux_to_luminosity. unfold mbind at 1.
  assert (Hs : snd (_get_redshift_for_luminosity_calculation self) = self).
  { unfold _get_redshift_for_luminosity_calculation, mbind, attr, ret.
    destruct (redshift self); [reflexivity|].
    destruct (String.eqb _ _); [reflexivity|].
    destruct (String.eqb _ _); reflexivity. }
  destruct (_get_redshift_for_luminosity_calculation self) as [r s].
  simpl in H, Hs. subst r s.
  unfold _calculate_rest_frame_time_and_luminosity, mbind, attr, assign.
  rewrite _save_luminosity_data_state.
  reflexivity.
Qed.

(** C6: in flux mode with a measured redshift [z], the conversion sets
    [Lum50] to the flux times [4 pi dL^2 (1+z)^(photon_index-2) 1e-50], the
    rest-frame time and its error to the time and its error over [1+z], and
    the data mode to luminosity. *)
Theorem analytical_flux_to_luminosity_in_flux_mode (self : obj) (z : R) :
  data_mode self = "flux" ->
  redshift self = Num z ->
  let dL := luminosity_distance z in
  let self' := snd (analytical_flux_to_luminosity luminosity_distance self) in
  Lum50 self'
    = map (fun f => f * (4 * PI * dL ^ 2 * power (1 + z) (photon_index self - 2) * 1e-50))
          (flux self) /\
  time_rest_frame self' = map (fun t => t / (1 + z)) (time self) /\
  time_rest_frame_err self' = map_nd (fun e => e / (1 + z)) (time_err self) /\
  data_mode self' = "luminosity".
Proof.
  intros Hmode Hz dL self'.
  assert (H : fst (_get_redshift_for_luminosity_calculation self) = Ok (Some z)).
  { unfold _get_redshift_for_luminosity_calculation, mbind, attr, ret.
    rewrite Hz, Hmode. reflexivity. }
  unfold self'. rewrite (conversion_state self z H).
  cbn [Lum50 time_rest_frame time_rest_frame_err data_mode].
  repeat split.
  apply map_ext. intros f. rewrite power_2. fold dL. ring.
Qed.

(** With a measured redshift, an object in luminosity or flux-density mode
    is returned as it is. *)
Lemma measured_redshift_leaves_other_modes (self : obj) (z : R) :
  redshift self = Num z ->
  data_mode self = "luminosity" \/ data_mode self = "flux_density" ->
  analytical_flux_to_luminosity luminosity_distance self = (Ok tt, self).
Proof.
  intros Hz Hmode.
  unfold analytical_flux_to_luminosity, _get_redshift_for_luminosity_calculation.
  unfold mbind, attr, ret.
  rewrite Hz. destruct Hmode as [-> | ->]; reflexivity.
Qed.

End WithCosmology.

Lemma analytical_flux_to_luminosity_in_flux_mode_witness :
  let z := 0.2187 in
  let dL := hubble_distance z in
  let self' := snd (analytical_flux_to_luminosity hubble_distance two_point_flux) in
  Lum50 self'
    = map (fun f => f * (4 * PI * dL ^ 2 * power (1 + z) (1.69 - 2) * 1e-50))
          [5; 6] /\
  time_rest_frame self' = map (fun t => t / (1 + z)) [1; 3] /\
  time_rest_frame_err self'
    = map_nd (fun e => e / (1 + z)) (Arr2 [[0.01; 0.01]; [0.01; 0.01]]) /\
  data_mode self' = "luminosity".
Proof.
  apply (analytical_flux_to_luminosity_in_flux_mode hubble_distance two_point_flux 0.2187);
    reflexivity.
Defined.

(** The object of the example below, had its redshift been measured. *)
Example measured_flux_density_is_left :
  analytical_flux_to_luminosity hubble_distance measured_flux_density
  = (Ok tt, measured_flux_density).
Proof.
  apply (measured_redshift_leaves_other_modes hubble_distance measured_flux_density 0.225).
  - reflexivity.
  - right. reflexivity.
Qed.

(** C7, at an object in flux-density mode whose redshift is NaN: the
    redshift check comes first and answers 0.75, so the object is converted
    whatever its data mode; its data mode becomes luminosity and its
    rest-frame time is assigned. *)
Theorem unmeasured_redshift_is_converted :
  data_mode unmeasured_flux_density = "flux_density" /\
  forall luminosity_distance : R -> R,
    let self' := snd (analytical_flux_to_luminosity luminosity_distance
                        unmeasured_flux_density) in
    data_mode self' = "luminosity" /\
    time_rest_frame unmeasured_flux_density = [] /\
    time_rest_frame self' = [100 / (1 + 0.75)] /\
    self' <> unmeasured_flux_density.
Proof.
  split; [reflexivity|].
  intros ld self'.
  assert (H : fst (_get_redshift_for_luminosity_calculation unmeasured_flux_density)
              = Ok (Some 0.75)) by reflexivity.
  pose proof (conversion_state ld unmeasured_flux_density 0.75 H) as E.
  cbv zeta in E. fold self' in E.
  repeat split; try (rewrite E; reflexivity).
  intros C. apply (f_equal data_mode) in C. rewrite E in C. discriminate C.
Qed.

End ConversionProperties.

(** ** Truncation *)

Module TruncationProperties.
Import Afterglow TruncationSpec MaskProperties.
Local Open Scope R_scope.
Local Open Scope string_scope.

Lemma length_zip_and (m1 m2 : list bool) :
  length m1 = length m2 -> length (zip_and m1 m2) = length m1.
Proof.
  revert m2; induction m1 as [|b m1 IH]; intros [|c m2] H; simpl in *;
    try discriminate; try reflexivity.
  injection H as H. rewrite (IH m2 H). reflexivity.
Qed.

Lemma logical_and_same_length (m1 m2 : list bool) :
  length m1 = length m2 -> logical_and m1 m2 = Ok (zip_and m1 m2).
Proof.
  intros H. unfold logical_and. rewrite H, Nat.eqb_refl. reflexivity.
Qed.

Lemma take_mask_ok (a : list R) (m : list bool) :
  length m = length a -> take_mask a m = Ok (compress m a).
Proof. intros H. unfold take_mask. rewrite H, Nat.eqb_refl. reflexivity. Qed.

Lemma take_mask_cols_ok (rows : list (list R)) (m : list bool) :
  Forall (fun r => length r = length m) rows ->
  take_mask_cols (Arr2 rows) m = Ok (Arr2 (map (compress m) rows)).
Proof.
  intros H. unfold take_mask_cols.
  replace (forallb (fun r => Nat.eqb (length m) (length r)) rows) with true;
    [reflexivity|].
  symmetry. apply forallb_forall. intros r Hr.
  rewrite Forall_forall in H. rewrite (H r Hr). apply Nat.eqb_refl.
Qed.

Lemma filter_map_S (f : nat -> bool) (l : list nat) :
  filter f (map S l) = map S (filter (fun i => f (S i)) l).
Proof.
  induction l as [|x l IH]; simpl; [reflexivity|].
  destruct (f (S x)); simpl; rewrite IH; reflexivity.
Qed.

(** Indexing by a mask selects the entries at its true positions. *)
Lemma compress_select (m : list bool) (a : list R) :
  length m = length a ->
  compress m a = select (filter (fun i => nth i m false) (seq 0 (length m))) a.
Proof.
  revert a; induction m as [|b m IH]; intros [|x a] H; simpl in *;
    try discriminate; try reflexivity.
  injection H as H.
  rewrite <- seq_shift, filter_map_S. unfold select in *.
  destruct b; simpl; rewrite map_map; simpl; rewrite (IH a H); reflexivity.
Qed.

(** The mask that [_truncate_prompt_time_error] indexes with is true at the
    positions to keep. *)
Lemma keep_mask_positions (t e : list R) :
  length e = length t ->
  let keep := invert (zip_and (gt e 0.0025) (lt t 2.0)) in
  length keep = length t /\
  filter (fun i => nth i keep false) (seq 0 (length keep)) = kept_positions t e.
Proof.
  intros H keep.
  assert (L : length keep = length t).
  { unfold keep. rewrite length_invert, length_zip_and.
    - unfold gt. rewrite length_map. exact H.
    - unfold gt, lt. rewrite !length_map. exact H. }
  split; [exact L|].
  rewrite L. unfold kept_positions.
  apply filter_ext_in. intros i Hi. apply in_seq in Hi.
  unfold keep. clear keep L. simpl in Hi. destruct Hi as [_ Hi].
  revert e H i Hi. induction t as [|x t IH]; intros [|y e] H i Hi; simpl in *;
    try discriminate; try lia.
  injection H as H. destruct i as [|i].
  - reflexivity.
  - apply (IH e H i). lia.
Qed.

Lemma promptb_spec (t e : R) : promptb t e = true <-> prompt t e.
Proof.
  unfold promptb, prompt. rewrite Bool.andb_true_iff, Rgtb_true, Rltb_true.
  reflexivity.
Qed.

Lemma in_kept_positions (t e : list R) (i : nat) :
  In i (kept_positions t e)
  <-> (i < length t)%nat /\ ~ prompt (nth i t 0) (nth i e 0).
Proof.
  unfold kept_positions. rewrite filter_In, in_seq, <- promptb_spec.
  destruct (promptb _ _); simpl; split; intros [H1 H2]; split;
    try lia; try discriminate; try reflexivity; try congruence.
Qed.

Lemma compress_rows (keep : list bool) (rows : list (list R)) (n : nat) :
  length keep = n ->
  Forall (fun r => length r = n) rows ->
  map (compress keep) rows
  = map (select (filter (fun i => nth i keep false) (seq 0 (length keep)))) rows.
Proof.
  intros Lk H. apply map_ext_in. intros r Hr.
  rewrite Forall_forall in H. apply compress_select.
  rewrite (H r Hr). exact Lk.
Qed.

Lemma Forall_length_eq (rows : list (list R)) (n m : nat) :
  m = n -> Forall (fun r => length r = n) rows ->
  Forall (fun r => length r = m) rows.
Proof. intros ->. trivial. Qed.

Ltac run_truncate :=
  cbn -[gt lt logical_and take_mask take_mask_cols invert compress
        slice_cols_from slice_from argmax].

(** [_truncate_prompt_time_error] in flux mode: the flux and its error are
    indexed by the mask; the time and its error are not assigned. *)
Lemma prompt_time_error_flux (self : obj) (t e0 y : list R)
    (erest yrows : list (list R)) :
  data_mode self = "flux" ->
  time self = t -> time_err self = Arr2 (e0 :: erest) ->
  flux self = y -> flux_err self = Arr2 yrows ->
  length e0 = length t -> length y = length t ->
  Forall (fun r => length r = length t) yrows ->
  truncate "prompt_time_error" self
  = (Ok tt, set_flux_err (Arr2 (map (select (kept_positions t e0)) yrows))
              (set_flux (select (kept_positions t e0) y) self)).
Proof.
  intros Hmode Ht He Hy Hye Le Ly Lrows.
  destruct (keep_mask_positions t e0 Le) as [Lk Hk].
  destruct self as [nm dm z g t' trf te trfe l le fd fde fl fle].
  cbn in Hmode, Ht, He, Hy, Hye. subst.
  run_truncate.
  rewrite logical_and_same_length
    by (unfold gt, lt; rewrite !length_map; exact Le).
  set (keep := invert (zip_and (gt e0 0.0025) (lt t 2.0))) in *.
  rewrite (take_mask_ok y keep) by lia.
  rewrite (take_mask_cols_ok yrows keep)
    by (apply (Forall_length_eq _ (length t)); assumption).
  rewrite (compress_select keep y) by lia.
  rewrite (compress_rows keep yrows (length t)) by assumption.
  rewrite Hk. reflexivity.
Qed.

(** The same in flux-density mode. *)
Lemma prompt_time_error_flux_density (self : obj) (t e0 y : list R)
    (erest yrows : list (list R)) :
  data_mode self = "flux_density" ->
  time self = t -> time_err self = Arr2 (e0 :: erest) ->
  flux_density self = y -> flux_density_err self = Arr2 yrows ->
  length e0 = length t -> length y = length t ->
  Forall (fun r => length r = length t) yrows ->
  truncate "prompt_time_error" self
  = (Ok tt, set_flux_density_err (Arr2 (map (select (kept_positions t e0)) yrows))
              (set_flux_density (select (kept_positions t e0) y) self)).
Proof.
  intros Hmode Ht He Hy Hye Le Ly Lrows.
  destruct (keep_mask_positions t e0 Le) as [Lk Hk].
  destruct self as [nm dm z g t' trf te trfe l le fd fde fl fle].
  cbn in Hmode, Ht, He, Hy, Hye. subst.
  run_truncate.
  rewrite logical_and_same_length
    by (unfold gt, lt; rewrite !length_map; exact Le).
  set (keep := invert (zip_and (gt e0 0.0025) (lt t 2.0))) in *.
  rewrite (take_mask_ok y keep) by lia.
  rewrite (take_mask_cols_ok yrows keep)
    by (apply (Forall_length_eq _ (length t)); assumption).
  rewrite (compress_select keep y) by lia.
  rewrite (compress_rows keep yrows (length t)) by assumption.
  rewrite Hk. reflexivity.
Qed.

(** In luminosity mode the mask is made from the rest-frame time and its
    error, and the rest-frame time, the luminosity and both errors are
    indexed by it. *)
Lemma prompt_time_error_luminosity (self : obj) (t e0 y : list R)
    (erest yrows : list (list R)) :
  data_mode self = "luminosity" ->
  time_rest_frame self = t -> time_rest_frame_err self = Arr2 (e0 :: erest) ->
  Lum50 self = y -> Lum50_err self = Arr2 yrows ->
  length e0 = length t -> Forall (fun r => length r = length t) erest ->
  length y = length t ->
  Forall (fun r => length r = length t) yrows ->
  truncate "prompt_time_error" self
  = (Ok tt,
     set_Lum50_err (Arr2 (map (select (kept_positions t e0)) yrows))
       (set_Lum50 (select (kept_positions t e0) y)
          (set_time_rest_frame_err
             (Arr2 (map (select (kept_positions t e0)) (e0 :: erest)))
             (set_time_rest_frame (select (kept_positions t e0) t) self)))).
Proof.
  intros Hmode Ht He Hy Hye Le Lerest Ly Lrows.
  destruct (keep_mask_positions t e0 Le) as [Lk Hk].
  destruct self as [nm dm z g t' trf te trfe l le fd fde fl fle].
  cbn in Hmode, Ht, He, Hy, Hye. subst.
  run_truncate.
  rewrite logical_and_same_length
    by (unfold gt, lt; rewrite !length_map; exact Le).
  set (keep := invert (zip_and (gt e0 0.0025) (lt t 2.0))) in *.
  assert (Lall : Forall (fun r => length r = length t) (e0 :: erest))
    by (constructor; assumption).
  rewrite (take_mask_ok t keep) by lia.
  rewrite (take_mask_cols_ok (e0 :: erest) keep)
    by (apply (Forall_length_eq _ (length t)); assumption).
  rewrite (take_mask_ok y keep) by lia.
  rewrite (take_mask_cols_ok yrows keep)
    by (apply (Forall_length_eq _ (length t)); assumption).
  rewrite (compress_select keep y), (compress_select keep t) by lia.
  rewrite (compress_rows keep yrows (length t)) by assumption.
  rewrite (compress_rows keep (e0 :: erest) (length t)) by assumption.
  rewrite Hk. reflexivity.
Qed.

Lemma length_slice_from {A B} (a : list A) (b : list B) (k : Z) :
  length a = length b -> length (slice_from a k) = length (slice_from b k).
Proof.
  intros H. unfold slice_from. rewrite !length_skipn, H. reflexivity.
Qed.

Lemma columns_slice (a a' : ndarray) (t : list R) (k : Z) :
  columns a (length t) -> slice_cols_from a k = Ok a' ->
  columns a' (length (slice_from t k)).
Proof.
  destruct a as [xs | rows]; simpl; intros H E; [discriminate|].
  injection E as <-. simpl.
  apply Forall_map. revert H. apply Forall_impl. intros r Hr.
  apply length_slice_from, Hr.
Qed.

Ltac split_results :=
  repeat match goal with
  | H : context [match ?x with Ok _ => _ | Raise _ => _ end] |- _ =>
      destruct x eqn:?; cbn in H; try discriminate H
  | |- context [match ?x with Ok _ => _ | Raise _ => _ end] =>
      destruct x eqn:?; cbn; try discriminate
  end.

Ltac by_mode dm :=
  let E1 := fresh "E" in let E2 := fresh "E" in let E3 := fresh "E" in
  destruct (String.eqb dm "luminosity") eqn:E1;
  [ apply String.eqb_eq in E1; subst dm
  | destruct (String.eqb dm "flux") eqn:E2;
    [ apply String.eqb_eq in E2; subst dm
    | destruct (String.eqb dm "flux_density") eqn:E3;
      [ apply String.eqb_eq in E3; subst dm | ] ] ].

Ltac unfold_method :=
  unfold truncate, _truncate_left_of_max, _truncate_default,
    _truncate_prompt_time_error, mbind, luminosity_data, flux_data,
    fluxdensity_data, attr, eval, assign, ret, raise;
  run_truncate.

Ltac aligned_after_slicing :=
  repeat match goal with
  | H : _ /\ _ |- _ => destruct H
  | |- _ /\ _ => split
  | |- length (slice_from _ _) = length (slice_from _ _) =>
      apply length_slice_from; assumption
  | H : slice_cols_from ?a ?k = Ok ?b |- columns ?b (length (slice_from ?t ?k)) =>
      apply (columns_slice a b t k); [|exact H]
  | H : columns ?a (length ?u), E : length ?t = length ?u |- columns ?a (length ?t) =>
      rewrite E; exact H
  | |- columns _ _ => assumption
  end.

(** [_truncate_left_of_max] keeps the arrays aligned whenever it returns. *)
Lemma left_of_max_keeps_aligned (self : obj) :
  aligned self ->
  fst (_truncate_left_of_max self) = Ok tt ->
  aligned (snd (_truncate_left_of_max self)).
Proof.
  destruct self as [nm dm z g t trf te trfe l le fd fde fl fle].
  unfold aligned, observed.
  cbn [data_mode time time_rest_frame time_err time_rest_frame_err Lum50
       Lum50_err flux_density flux_density_err flux flux_err].
  by_mode dm; intros A.
  - unfold_method. split_results. intros _. aligned_after_slicing.
  - unfold_method. split_results. intros _. aligned_after_slicing.
  - unfold_method. split_results. intros _. aligned_after_slicing.
  - unfold_method.
    repeat (first [rewrite E | rewrite E0 | rewrite E1]; run_truncate).
    discriminate.
Qed.

(** [_truncate_default] keeps the arrays aligned whenever it returns. *)
Lemma default_keeps_aligned (self : obj) :
  aligned self ->
  fst (_truncate_default self) = Ok tt ->
  aligned (snd (_truncate_default self)).
Proof.
  destruct self as [nm dm z g t trf te trfe l le fd fde fl fle].
  unfold aligned, observed.
  cbn [data_mode time time_rest_frame time_err time_rest_frame_err Lum50
       Lum50_err flux_density flux_density_err flux flux_err].
  by_mode dm; intros A.
  - unfold_method. split_results. intros _. aligned_after_slicing.
  - unfold_method. split_results. intros _. aligned_after_slicing.
  - unfold_method. split_results. intros _. aligned_after_slicing.
  - unfold_method. split_results;
      repeat (first [rewrite E | rewrite E0 | rewrite E1]; run_truncate);
      trivial.
Qed.

(** On the object of two measurements the method left_of_max drops the
    first measurement from the flux and from the time alike. *)
Example left_of_max_two_point :
  let result := truncate "left_of_max" two_point_flux in
  fst result = Ok tt /\
  flux (snd result) = [6] /\ flux_err (snd result) = Arr2 [[0.5]; [0.5]] /\
  time (snd result) = [3] /\ time_err (snd result) = Arr2 [[0.01]; [0.01]].
Proof.
  assert (E : argmax [5; 6] = Ok 1%nat).
  { unfold argmax, argmax_from.
    replace (Rgtb 6 5) with true by (symmetry; apply Rgtb_true; lra).
    reflexivity. }
  cbv zeta. unfold two_point_flux. unfold_method. rewrite E.
  run_truncate. repeat split.
Qed.

Lemma length_select (idx : list nat) (a : list R) :
  length (select idx a) = length idx.
Proof. apply length_map. Qed.

(** In luminosity mode [_truncate_prompt_time_error] keeps the arrays
    aligned. *)
Lemma prompt_time_error_luminosity_keeps_aligned (self : obj) (t e0 y : list R)
    (erest yrows : list (list R)) :
  data_mode self = "luminosity" ->
  time_rest_frame self = t -> time_rest_frame_err self = Arr2 (e0 :: erest) ->
  Lum50 self = y -> Lum50_err self = Arr2 yrows ->
  aligned self ->
  fst (truncate "prompt_time_error" self) = Ok tt /\
  aligned (snd (truncate "prompt_time_error" self)).
Proof.
  intros Hmode Ht He Hy Hye A.
  unfold aligned, observed in A. rewrite Hmode, Ht, He, Hy, Hye in A.
  cbn in A. destruct A as (Ly & Le & Lrows).
  apply Forall_cons_iff in Le as [Le0 Lerest].
  rewrite (prompt_time_error_luminosity self t _ y _ _
             Hmode Ht He Hy Hye Le0 Lerest (eq_sym Ly))
    by (rewrite Ly; exact Lrows).
  split; [reflexivity|].
  destruct self as [nm dm z g t' trf te trfe l le fd fde fl fle].
  cbn in Hmode. subst dm.
  unfold aligned, observed. cbn.
  rewrite !length_select.
  repeat split; try constructor; try apply Forall_map;
    try (apply Forall_forall; intros; apply length_select);
    apply length_select.
Qed.

Lemma kept_positions_two_point :
  kept_positions [1; 3] [0.01; 0.01] = [1%nat].
Proof.
  unfold kept_positions, promptb. cbn [length seq filter nth].
  replace (Rgtb 0.01 0.0025) with true by (symmetry; apply Rgtb_true; lra).
  replace (Rltb 1 2.0) with true by (symmetry; apply Rltb_true; lra).
  replace (Rltb 3 2.0) with false by (symmetry; apply Rltb_false; lra).
  reflexivity.
Qed.

(** C4, at an object with two flux measurements of which the first is from
    the prompt phase: the arrays are aligned before the call; after it the
    flux has one entry and the time still has two. *)
Theorem prompt_time_error_misaligns_flux :
  let result := truncate "prompt_time_error" two_point_flux in
  aligned two_point_flux /\
  fst result = Ok tt /\
  flux (snd result) = [6] /\
  flux_err (snd result) = Arr2 [[0.5]; [0.5]] /\
  time (snd result) = [1; 3] /\
  time_err (snd result) = Arr2 [[0.01; 0.01]; [0.01; 0.01]] /\
  length (time (snd result)) <> length (flux (snd result)) /\
  ~ aligned (snd result).
Proof.
  assert (A : aligned two_point_flux).
  { unfold aligned; cbn. repeat split; repeat constructor. }
  cbv zeta.
  rewrite (prompt_time_error_flux two_point_flux [1; 3] [0.01; 0.01] [5; 6]
             [[0.01; 0.01]] [[0.5; 0.5]; [0.5; 0.5]])
    by (try reflexivity; repeat constructor).
  rewrite kept_positions_two_point.
  split; [exact A|].
  do 5 (split; [reflexivity|]).
  split.
  - cbn. discriminate.
  - unfold aligned; cbn. intros (H & _). discriminate H.
Qed.

(** C5: [truncate] with the method prompt_time_error succeeds on loaded
    data and keeps, in order, exactly the measurements that are not in
    the prompt phase (positive time error above 0.0025 s and time before
    2.0 s); a measurement at or after 2.0 s is kept whatever its error.
    In flux and flux-density mode the rule reads the time and its error and
    selects from the flux (density) and its error; in luminosity mode it
    reads the rest-frame time and its error and selects from them and from
    the luminosity and its error. *)
Theorem prompt_time_error_rule (self : obj) (t e0 y : list R)
    (erest yrows : list (list R)) :
  observed self = Some (t, Arr2 (e0 :: erest), y, Arr2 yrows) ->
  length e0 = length t -> Forall (fun r => length r = length t) erest ->
  length y = length t -> Forall (fun r => length r = length t) yrows ->
  let kept := kept_positions t e0 in
  let result := truncate "prompt_time_error" self in
  fst result = Ok tt /\
  (data_mode self = "flux" ->
     flux (snd result) = select kept y /\
     flux_err (snd result) = Arr2 (map (select kept) yrows)) /\
  (data_mode self = "flux_density" ->
     flux_density (snd result) = select kept y /\
     flux_density_err (snd result) = Arr2 (map (select kept) yrows)) /\
  (data_mode self = "luminosity" ->
     time_rest_frame (snd result) = select kept t /\
     time_rest_frame_err (snd result) = Arr2 (map (select kept) (e0 :: erest)) /\
     Lum50 (snd result) = select kept y /\
     Lum50_err (snd result) = Arr2 (map (select kept) yrows)) /\
  (forall i : nat,
     In i kept <-> (i < length t)%nat /\ ~ prompt (nth i t 0) (nth i e0 0)) /\
  (forall i : nat, (i < length t)%nat -> nth i t 0 >= 2.0 -> In i kept).
Proof.
  intros Hobs Le Lerest Ly Lrows kept result.
  assert (Hin : forall i : nat,
            In i kept <-> (i < length t)%nat /\ ~ prompt (nth i t 0) (nth i e0 0))
    by (intros i; apply in_kept_positions).
  assert (Hlate : forall i : nat,
            (i < length t)%nat -> nth i t 0 >= 2.0 -> In i kept).
  { intros i Hi Ht. apply Hin. split; [exact Hi|].
    unfold prompt. lra. }
  unfold observed in Hobs. unfold result.
  destruct (String.eqb (data_mode self) "luminosity") eqn:E1;
    [|destruct (String.eqb (data_mode self) "flux") eqn:E2;
      [|destruct (String.eqb (data_mode self) "flux_density") eqn:E3;
        [|discriminate Hobs]]].
  - apply String.eqb_eq in E1. injection Hobs as Ht He Hy Hye.
    rewrite (prompt_time_error_luminosity self t e0 y erest yrows) by assumption.
    fold kept.
    repeat split; try assumption; try apply Hin; try reflexivity;
      congruence.
  - apply String.eqb_eq in E2. injection Hobs as Ht He Hy Hye.
    rewrite (prompt_time_error_flux self t e0 y erest yrows) by assumption.
    fold kept.
    repeat split; try assumption; try apply Hin; try reflexivity;
      congruence.
  - apply String.eqb_eq in E3. injection Hobs as Ht He Hy Hye.
    rewrite (prompt_time_error_flux_density self t e0 y erest yrows) by assumption.
    fold kept.
    repeat split; try assumption; try apply Hin; try reflexivity;
      congruence.
Qed.

Lemma prompt_time_error_rule_witness :
  let t := [1; 3] in
  let e0 := [0.01; 0.01] in
  let y := [5; 6] in
  let erest := [[0.01; 0.01]] in
  let yrows := [[0.5; 0.5]; [0.5; 0.5]] in
  let self := two_point_flux in
  let kept := kept_positions t e0 in
  let result := truncate "prompt_time_error" self in
  fst result = Ok tt /\
  (data_mode self = "flux" ->
     flux (snd result) = select kept y /\
     flux_err (snd result) = Arr2 (map (select kept) yrows)) /\
  (data_mode self = "flux_density" ->
     flux_density (snd result) = select kept y /\
     flux_density_err (snd result) = Arr2 (map (select kept) yrows)) /\
  (data_mode self = "luminosity" ->
     time_rest_frame (snd result) = select kept t /\
     time_rest_frame_err (snd result) = Arr2 (map (select kept) (e0 :: erest)) /\
     Lum50 (snd result) = select kept y /\
     Lum50_err (snd result) = Arr2 (map (select kept) yrows)) /\
  (forall i : nat,
     In i kept <-> (i < length t)%nat /\ ~ prompt (nth i t 0) (nth i e0 0)) /\
  (forall i : nat, (i < length t)%nat -> nth i t 0 >= 2.0 -> In i kept).
Proof.
  apply (prompt_time_error_rule two_point_flux [1; 3] [0.01; 0.01] [5; 6]
           [[0.01; 0.01]] [[0.5; 0.5]; [0.5; 0.5]]);
    try reflexivity; repeat constructor.
Defined.

(** C5, as stated for every object in flux mode, fails at the object that
    one truncation leaves.  There the first time is before 2.0 s and its
    error above 0.0025 s, but the mask has the two entries of the time and
    the flux has one: the call raises IndexError and removes nothing.  At
    the object of two measurements itself the rule holds. *)
Lemma prompt_time_error_rule_fails_once_truncated :
  snd (truncate "prompt_time_error" two_point_flux) = once_truncated_flux /\
  data_mode once_truncated_flux = "flux" /\
  prompt 1 0.01 /\
  truncate "prompt_time_error" once_truncated_flux
    = (Raise IndexError, once_truncated_flux) /\
  prompt_rule_holds two_point_flux /\
  ~ prompt_rule_holds once_truncated_flux.
Proof.
  assert (E : truncate "prompt_time_error" two_point_flux
              = (Ok tt, once_truncated_flux)).
  { rewrite (prompt_time_error_flux two_point_flux [1; 3] [0.01; 0.01] [5; 6]
               [[0.01; 0.01]] [[0.5; 0.5]; [0.5; 0.5]])
      by (try reflexivity; repeat constructor).
    rewrite kept_positions_two_point. reflexivity. }
  assert (F : truncate "prompt_time_error" once_truncated_flux
              = (Raise IndexError, once_truncated_flux)).
  { unfold once_truncated_flux. unfold_method.
    rewrite logical_and_same_length by reflexivity.
    reflexivity. }
  split; [rewrite E; reflexivity|].
  split; [reflexivity|].
  split; [unfold prompt; lra|].
  split; [exact F|].
  split.
  - exists [1; 3], [0.01; 0.01], [5; 6],
      (Arr2 [[0.01; 0.01]; [0.01; 0.01]]), (Arr2 [[0.5; 0.5]; [0.5; 0.5]]).
    split; [reflexivity|]. split; [reflexivity|].
    cbv zeta. rewrite E. split; [reflexivity|].
    rewrite kept_positions_two_point.
    do 3 eexists. reflexivity.
  - intros (t & e0 & y & te & ye & _ & _ & H).
    cbv zeta in H. rewrite F in H. destruct H as [H _]. discriminate H.
Qed.

End TruncationProperties.

(** ** The evolution loop of [_metzger_tde] *)

Module LoopProperties.
Import TdeModels AnalyticFallbackProperties GridProperties.
Local Open Scope R_scope.

Lemma length_replace_nth (p : nat) (v : R) (a : list R) :
  length (replace_nth p v a) = length a.
Proof.
  revert p; induction a as [|x a IH]; intros [|p]; simpl; try reflexivity.
  rewrite IH. reflexivity.
Qed.

Lemma nth_replace_nth_same (p : nat) (v : R) (a : list R) :
  (p < length a)%nat -> nth p (replace_nth p v a) 0 = v.
Proof.
  revert p; induction a as [|x a IH]; intros [|p] H; simpl in *; try lia.
  - reflexivity.
  - apply IH. lia.
Qed.

Lemma nth_replace_nth_other (p q : nat) (v : R) (a : list R) :
  p <> q -> nth p (replace_nth q v a) 0 = nth p a 0.
Proof.
  revert p q; induction a as [|x a IH]; intros [|p] [|q] H; simpl;
    try reflexivity; try lia.
  apply IH. lia.
Qed.

Lemma length_setitem (a : list R) (i : Z) (v : R) :
  length (setitem a i v) = length a.
Proof.
  unfold setitem. destruct (index_pos (length a) i); [|reflexivity].
  apply length_replace_nth.
Qed.

(** Inside [range(n)] the indices [ii] and [ii - 1] are in range: the
    loop raises no IndexError.  At [ii = 0], [ii - 1] is the last position. *)
Lemma index_pos_range (n i : nat) :
  (i < n)%nat -> index_pos n (Z.of_nat i) = Some i.
Proof.
  intros H. unfold index_pos.
  replace (Z.of_nat i <? 0)%Z with false by (symmetry; apply Z.ltb_ge; lia).
  replace (Z.of_nat i <? Z.of_nat n)%Z with true by (symmetry; apply Z.ltb_lt; lia).
  rewrite Nat2Z.id. reflexivity.
Qed.

Lemma index_pos_before (n i : nat) :
  (i < n)%nat ->
  index_pos n (Z.of_nat i - 1)
  = Some (match i with O => (n - 1)%nat | S j => j end).
Proof.
  intros H. destruct i as [|j].
  - unfold index_pos. cbn [Z.of_nat Z.sub Z.add Z.opp Z.ltb Z.compare].
    replace (0 <=? Z.of_nat n + -1)%Z with true by (symmetry; apply Z.leb_le; lia).
    f_equal. lia.
  - replace (Z.of_nat (S j) - 1)%Z with (Z.of_nat j) by lia.
    apply index_pos_range. lia.
Qed.

Lemma item_setitem_same (a : list R) (i : Z) (p : nat) (v : R) :
  index_pos (length a) i = Some p -> (p < length a)%nat ->
  (setitem a i v).[i] = v.
Proof.
  intros H Hp. unfold item, setitem.
  rewrite H, length_replace_nth, H. apply nth_replace_nth_same, Hp.
Qed.

Lemma item_setitem_other (a : list R) (i j : Z) (p q : nat) (v : R) :
  index_pos (length a) i = Some p -> index_pos (length a) j = Some q ->
  p <> q -> (setitem a j v).[i] = a.[i].
Proof.
  intros Hi Hj Hpq. unfold item, setitem.
  rewrite Hj, length_replace_nth, Hi. apply nth_replace_nth_other, Hpq.
Qed.

Lemma replace_nth_twice (p : nat) (v w : R) (a : list R) :
  replace_nth p w (replace_nth p v a) = replace_nth p w a.
Proof.
  revert p; induction a as [|x a IH]; intros [|p]; simpl; try reflexivity.
  rewrite IH. reflexivity.
Qed.

Lemma setitem_twice (a : list R) (i : Z) (v w : R) :
  setitem (setitem a i v) i w = setitem a i w.
Proof.
  unfold setitem at 1 3. rewrite length_setitem.
  destruct (index_pos (length a) i) as [p|] eqn:E; [|unfold setitem; rewrite E; reflexivity].
  unfold setitem. rewrite E. apply replace_nth_twice.
Qed.

Lemma last_after_setitem_0 (a : list R) (v : R) :
  (2 <= length a)%nat -> (setitem a 0 v).[-1] = a.[-1].
Proof.
  intros H.
  apply (item_setitem_other _ _ _ (length a - 1)%nat 0%nat).
  - replace (-1)%Z with (Z.of_nat 0 - 1)%Z by reflexivity.
    apply (index_pos_before _ 0). lia.
  - apply (index_pos_range _ 0). lia.
  - lia.
Qed.

Section Loop.

Variables graviational_constant solar_mass speed_of_light solar_radius
          day_to_s sigma_sb : R.
Variable buffer : nat -> nat -> R.
Variables mbh_6 stellar_mass eta alpha beta : R.
Variable kwargs : dict R.

#[local] Abbreviation update :=
  (update graviational_constant solar_mass speed_of_light solar_radius
     sigma_sb mbh_6 stellar_mass eta alpha beta kwargs).
#[local] Abbreviation evolve :=
  (evolve graviational_constant solar_mass speed_of_light solar_radius
     sigma_sb mbh_6 stellar_mass eta alpha beta kwargs).
#[local] Abbreviation initialize :=
  (initialize graviational_constant solar_mass speed_of_light solar_radius
     sigma_sb mbh_6 stellar_mass eta alpha beta kwargs).
#[local] Abbreviation allocate := (allocate day_to_s buffer mbh_6 stellar_mass kwargs).
#[local] Abbreviation final_grids :=
  (final_grids graviational_constant solar_mass speed_of_light solar_radius
     day_to_s sigma_sb buffer mbh_6 stellar_mass eta alpha beta kwargs).
#[local] Abbreviation assigned_at_ii :=
  (assigned_at_ii graviational_constant solar_mass speed_of_light solar_radius
     sigma_sb mbh_6 stellar_mass eta alpha beta kwargs).
#[local] Abbreviation Mdotfb := (Mdotfb solar_mass mbh_6 stellar_mass kwargs).
#[local] Abbreviation time_temp := (make_time_temp mbh_6 stellar_mass kwargs).
#[local] Abbreviation tfb := (tfb mbh_6 stellar_mass kwargs).
#[local] Abbreviation Mstar := (Mstar solar_mass stellar_mass).
#[local] Abbreviation Ledd40 := (Ledd40 mbh_6).

Lemma assigned_Me : assigned_at_ii Me.
Proof. intros t g ii. right. eexists. reflexivity. Qed.
Lemma assigned_Ee40 : assigned_at_ii Ee40.
Proof. intros t g ii. right. eexists. reflexivity. Qed.
Lemma assigned_Rv : assigned_at_ii Rv.
Proof. intros t g ii. right. eexists. reflexivity. Qed.
Lemma assigned_Rph : assigned_at_ii Rph.
Proof. intros t g ii. right. eexists. reflexivity. Qed.
Lemma assigned_Teff : assigned_at_ii Teff.
Proof. intros t g ii. right. eexists. reflexivity. Qed.

(** Iterations at indices other than 0 do not touch position 0. *)
Lemma later_iterations_keep_item0 (f : grids -> list R) (t : list R)
    (idxs : list nat) (g : grids) :
  assigned_at_ii f ->
  Forall (fun i => (0 < i < length (f g))%nat) idxs ->
  (f (fold_left (update t) (map Z.of_nat idxs) g)).[0] = (f g).[0] /\
  length (f (fold_left (update t) (map Z.of_nat idxs) g)) = length (f g).
Proof.
  intros Hf. revert g. induction idxs as [|i idxs IH]; intros g H; simpl.
  - split; reflexivity.
  - apply Forall_cons_iff in H as [Hi H].
    assert (L : length (f (update t g (Z.of_nat i))) = length (f g)).
    { destruct (Hf t g (Z.of_nat i)) as [-> | [v ->]];
        [reflexivity | apply length_setitem]. }
    destruct (IH (update t g (Z.of_nat i))) as [E1 E2];
      [rewrite L; exact H|].
    rewrite E1, E2, L. split; [|reflexivity].
    destruct (Hf t g (Z.of_nat i)) as [-> | [v ->]]; [reflexivity|].
    apply (item_setitem_other _ _ _ 0%nat i).
    + apply (index_pos_range _ 0). lia.
    + apply index_pos_range. lia.
    + lia.
Qed.

Lemma range_S (n : nat) :
  range (S n) = 0%Z :: map Z.of_nat (seq 1 n).
Proof. reflexivity. Qed.

(** After the loop, position 0 of a grid holds what the iteration
    [ii = 0] has put there. *)
Lemma evolve_item0 (f : grids -> list R) (t : list R) (g : grids) :
  assigned_at_ii f ->
  length (f g) = length t -> (0 < length t)%nat ->
  (f (evolve t g)).[0] = (f (update t g 0)).[0].
Proof.
  intros Hf L Hn. unfold TdeModels.evolve.
  destruct (length t) as [|n] eqn:E; [lia|].
  rewrite range_S. cbn [fold_left].
  apply later_iterations_keep_item0; [exact Hf|].
  assert (L0 : length (f (update t g 0)) = S n).
  { destruct (Hf t g 0%Z) as [-> | [v ->]];
      [exact L | rewrite length_setitem; exact L]. }
  rewrite L0. apply Forall_forall. intros i Hi. apply in_seq in Hi. lia.
Qed.

(** Every iteration computes the envelope mass at [ii] from the entries
    at [ii - 1]. *)
Lemma update_Me_from_predecessor (t : list R) (g : grids) (i : nat) :
  (i < length (Me g))%nat ->
  let ii := Z.of_nat i in
  (Me (update t g ii)).[ii]
  = (Me g).[ii - 1]
    - ((MdotBH g).[ii - 1] - Mdotfb.[ii - 1]) * (t.[ii] - t.[ii - 1]).
Proof.
  intros H ii. unfold TdeModels.update. cbn [Me].
  apply (item_setitem_same _ _ i); [apply index_pos_range|]; exact H.
Qed.

Lemma update_0_same_but_first (t : list R) (g1 g2 : grids) :
  same_but_first g1 g2 -> update t g1 0 = update t g2 0.
Proof.
  intros [H Hnu].
  repeat match goal with
  | H : Forall _ (_ :: _) |- _ =>
      let H1 := fresh in let H2 := fresh in
      apply Forall_cons_iff in H; destruct H as [[H1 H2] H]
  end.
  unfold TdeModels.update. change (0 - 1)%Z with (-1)%Z.
  repeat match goal with
  | E : _.[-1] = _.[-1] |- _ => rewrite E; clear E
  end.
  repeat match goal with
  | E : forall v : R, setitem _ 0 v = setitem _ 0 v |- _ => rewrite !E; clear E
  end.
  rewrite Hnu. reflexivity.
Qed.

(** What lines 100 to 123 assign is never read: the loop gives the same
    grids without them, for grids of at least two points. *)
Lemma initial_values_are_dead (t : list R) (g : grids) :
  (0 < length t)%nat ->
  Forall (fun f : grids -> list R => (2 <= length (f g))%nat)
         [Me; Ee40; Rv; Racc; Rph; Edotfb40; tacc; Edotbh40; MdotBH; Teff;
          Lrad; Lamb; LX40] ->
  evolve t (initialize g) = evolve t g.
Proof.
  intros Ht H. unfold TdeModels.evolve.
  destruct (length t) as [|n]; [lia|].
  rewrite range_S. cbn [fold_left]. f_equal.
  apply update_0_same_but_first.
  repeat match goal with
  | H : Forall _ (_ :: _) |- _ =>
      let H1 := fresh in
      apply Forall_cons_iff in H; destruct H as [H1 H]
  end.
  split; [|reflexivity].
  repeat constructor;
    cbn [Me Ee40 Rv Racc Rph Edotfb40 tacc Edotbh40 MdotBH Teff Lrad Lamb
         LX40 TdeModels.initialize];
    try reflexivity; try (intros; apply setitem_twice);
    apply last_after_setitem_0; assumption.
Qed.

Lemma length_time_temp : length time_temp = 500%nat.
Proof. apply length_logspace. Qed.

Lemma length_empty_like (k : nat) :
  length (empty_like buffer k (tdays day_to_s mbh_6 stellar_mass kwargs)) = 500%nat.
Proof.
  unfold empty_like, tdays. rewrite length_map, length_seq, length_map.
  apply length_time_temp.
Qed.

(** In [_metzger_tde] itself: the grids after the loop are those of the loop
    run on the buffers as allocated. *)
Lemma initialisation_is_dead : final_grids = evolve time_temp allocate.
Proof.
  unfold TdeModels.final_grids. apply initial_values_are_dead.
  - rewrite length_time_temp. lia.
  - repeat constructor;
      cbn [Me Ee40 Rv Racc Rph Edotfb40 tacc Edotbh40 MdotBH Teff Lrad Lamb
           LX40 TdeModels.allocate];
      rewrite length_empty_like; lia.
Qed.

(** After the loop, grid point 0 of the envelope mass, the thermal energy,
    the virial radius, the photosphere radius and the temperature holds
    what the iteration [ii = 0] has computed. *)
Lemma grid_point_0_is_from_iteration_0 :
  Forall (fun f : grids -> list R =>
            (f final_grids).[0]
            = (f (update time_temp (initialize allocate) 0)).[0])
         [Me; Ee40; Rv; Rph; Teff].
Proof.
  unfold TdeModels.final_grids.
  assert (L : forall k v,
            length (setitem (empty_like buffer k
                               (tdays day_to_s mbh_6 stellar_mass kwargs)) 0 v)
            = length time_temp)
    by (intros; rewrite length_setitem, length_empty_like, length_time_temp;
        reflexivity).
  assert (Hn : (0 < length time_temp)%nat) by (rewrite length_time_temp; lia).
  constructor; [apply (evolve_item0 Me _ _ assigned_Me); [apply L | exact Hn]|].
  constructor; [apply (evolve_item0 Ee40 _ _ assigned_Ee40); [apply L | exact Hn]|].
  constructor; [apply (evolve_item0 Rv _ _ assigned_Rv); [apply L | exact Hn]|].
  constructor; [apply (evolve_item0 Rph _ _ assigned_Rph); [apply L | exact Hn]|].
  constructor; [apply (evolve_item0 Teff _ _ assigned_Teff); [apply L | exact Hn]|].
  constructor.
Qed.

(** The last entry of a fresh buffer is whatever the buffer holds. *)
Lemma last_of_empty_like (k : nat) :
  (empty_like buffer k (tdays day_to_s mbh_6 stellar_mass kwargs)).[-1]
  = buffer k 499.
Proof.
  unfold item. rewrite length_empty_like.
  change (index_pos 500 (-1)) with (Some 499%nat). 
  unfold empty_like, tdays. rewrite length_map, length_time_temp.
  apply nth_map_seq. lia.
Qed.

(** Initialising grid point 0 leaves the last entry as it was. *)
Lemma last_after_setitem0 (k : nat) (v : R) :
  (setitem (empty_like buffer k (tdays day_to_s mbh_6 stellar_mass kwargs)) 0 v).[-1]
  = buffer k 499.
Proof.
  rewrite (item_setitem_other _ _ _ 499%nat 0%nat);
    try (rewrite length_empty_like; reflexivity); try lia.
  apply last_of_empty_like.
Qed.

Lemma first_after_setitem0 (k : nat) (v : R) :
  (setitem (empty_like buffer k (tdays day_to_s mbh_6 stellar_mass kwargs)) 0 v).[0]
  = v.
Proof.
  apply (item_setitem_same _ _ 0%nat); rewrite length_empty_like;
    [reflexivity | lia].
Qed.

(** The envelope mass and the thermal energy at grid point 0 after the
    loop: the iteration [ii = 0] computes them from the last entries of the
    buffers, which nothing has assigned. *)
Lemma Me_Ee40_after_loop :
  let t := time_temp in
  (Me final_grids).[0]
    = buffer 0 499 - (buffer 8 499 - Mdotfb.[-1]) * (t.[0] - t.[-1]) /\
  (Ee40 final_grids).[0]
    = buffer 1 499 + (Ledd40 - buffer 7 499) * (t.[0] - t.[-1]).
Proof.
  intros t. unfold TdeModels.final_grids. split.
  - rewrite (evolve_item0 Me) by
      (try apply assigned_Me; try (rewrite length_time_temp; lia);
       cbn [Me TdeModels.initialize TdeModels.allocate];
       rewrite length_setitem, length_empty_like, length_time_temp; reflexivity).
    unfold TdeModels.update at 1. cbn [Me].
    rewrite (item_setitem_same _ _ 0%nat)
      by (cbn [Me TdeModels.initialize TdeModels.allocate];
          rewrite length_setitem, length_empty_like; first [reflexivity | lia]).
    cbn [Me MdotBH TdeModels.initialize TdeModels.allocate].
    change (0 - 1)%Z with (-1)%Z.
    rewrite !last_after_setitem0. reflexivity.
  - rewrite (evolve_item0 Ee40) by
      (try apply assigned_Ee40; try (rewrite length_time_temp; lia);
       cbn [Ee40 TdeModels.initialize TdeModels.allocate];
       rewrite length_setitem, length_empty_like, length_time_temp; reflexivity).
    unfold TdeModels.update at 1. cbn [Ee40].
    rewrite (item_setitem_same _ _ 0%nat)
      by (cbn [Ee40 TdeModels.initialize TdeModels.allocate];
          rewrite length_setitem, length_empty_like; first [reflexivity | lia]).
    cbn [Ee40 Edotbh40 TdeModels.initialize TdeModels.allocate].
    change (0 - 1)%Z with (-1)%Z.
    rewrite !last_after_setitem0. reflexivity.
Qed.

(** The envelope mass that line 100 assigns to grid point 0. *)
Lemma Me_initial :
  (Me (initialize allocate)).[0]
  = 0.1 * Mstar + (0.4 * Mstar) * (1.0 - power (t0 kwargs) (- 2 / 3)).
Proof.
  cbn [Me TdeModels.initialize TdeModels.allocate].
  apply first_after_setitem0.
Qed.

(** C2, what the loop does to grid point 0.  Take positive masses, the
    default [t0] and buffers that happen to hold zeros.  Line 100 assigns
    the envelope mass [0.1 * Mstar] to grid point 0; the loop starts at
    [ii = 0], where [ii - 1] is the last grid point, and replaces it by
    [- 99 * tfb * Mdotfb[-1]], which is negative.  The value at index 0
    after the loop is not the initial value. *)
Theorem loop_overwrites_grid_point_0 :
  0 < solar_mass -> 0 < mbh_6 -> 0 < stellar_mass ->
  0 < binding_energy_const kwargs -> t0 kwargs = 1 ->
  (forall k i : nat, buffer k i = 0) ->
  let before := initialize allocate in
  let after := final_grids in
  (Me before).[0] = 0.1 * Mstar /\
  (Me after).[0] = - 99 * tfb * Mdotfb.[-1] /\
  (Me after).[0] < 0 < (Me before).[0] /\
  (Ee40 after).[0] = Ledd40 * (- 99 * tfb).
Proof.
  intros Hsun Hm Hs Hb Ht0 Hzero before after.
  pose proof (tfb_pos mbh_6 stellar_mass kwargs Hm Hs Hb) as Htfb.
  assert (HMstar : 0 < Mstar) by (apply Rmult_lt_0_compat; assumption).
  assert (Hfirst : time_temp.[0] = tfb).
  { unfold item. rewrite length_time_temp.
    change (index_pos 500 0) with (Some 0%nat).
    apply time_temp_first; assumption. }
  assert (Hlast : time_temp.[-1] = 100 * tfb).
  { unfold item. rewrite length_time_temp.
    change (index_pos 500 (-1)) with (Some 499%nat).
    apply time_temp_last; assumption. }
  assert (HM : 0 < Mdotfb.[-1]).
  { unfold item, TdeModels.Mdotfb. rewrite length_map, length_time_temp.
    change (index_pos 500 (-1)) with (Some 499%nat).
    set (F := fun t : R => 0.8 * Mstar / (3.0 * tfb) * power (t / tfb) (- 5 / 3)).
    cbv iota.
    rewrite (nth_indep _ 0 (F 0)) by (rewrite length_map, length_time_temp; lia).
    rewrite (map_nth F). rewrite time_temp_last by assumption.
    unfold F.
    replace (100 * tfb / tfb) with 100 by (field; lra).
    rewrite power_pos by lra.
    apply Rmult_lt_0_compat; [|apply exp_pos].
    apply Rdiv_lt_0_compat; lra. }
  assert (Hbefore : (Me before).[0] = 0.1 * Mstar).
  { unfold before. rewrite Me_initial, Ht0.
    rewrite power_pos by lra.
    unfold Rpower. rewrite ln_1, Rmult_0_r, exp_0. lra. }
  destruct Me_Ee40_after_loop as [HMe HEe]. fold after in HMe, HEe.
  rewrite Hfirst, Hlast, !Hzero in HMe, HEe.
  assert (Hafter : (Me after).[0] = - 99 * tfb * Mdotfb.[-1]) by (rewrite HMe; ring).
  split; [exact Hbefore|]. split; [exact Hafter|]. split.
  - rewrite Hafter, Hbefore. split; [|lra].
    assert (0 < tfb * Mdotfb.[-1]) by (apply Rmult_lt_0_compat; assumption).
    lra.
  - rewrite HEe. ring.
Qed.

End Loop.

Lemma loop_overwrites_grid_point_0_witness :
  let G := 6.674e-8 in
  let Msun := 1.989e33 in
  let c := 2.998e10 in
  let Rsun := 6.957e10 in
  let day := 86400 in
  let sb := 5.67e-5 in
  let zeroed := fun _ _ : nat => 0 in
  let before :=
    initialize G Msun c Rsun sb 1 1 0.1 0.1 1 []
      (allocate day zeroed 1 1 []) in
  let after := final_grids G Msun c Rsun day sb zeroed 1 1 0.1 0.1 1 [] in
  (Me before).[0] = 0.1 * Mstar Msun 1 /\
  (Me after).[0] = - 99 * tfb 1 1 [] * (Mdotfb Msun 1 1 []).[-1] /\
  (Me after).[0] < 0 < (Me before).[0] /\
  (Ee40 after).[0] = Ledd40 1 * (- 99 * tfb 1 1 []).
Proof.
  apply (loop_overwrites_grid_point_0 6.674e-8 1.989e33 2.998e10 6.957e10
           86400 5.67e-5 (fun _ _ => 0) 1 1 0.1 0.1 1 []);
    try reflexivity; try lra;
    unfold binding_energy_const, t0, get; simpl; lra.
Defined.

End LoopProperties.

(** * Further properties *)

(** ** Names, labels and table entries *)

Module NameExtras.
Import Afterglow.
Local Open Scope string_scope.

(** X1: Normalising a name twice is normalising it once. *)
Theorem init_name_idempotent (n : string) :
  init_name (init_name n) = init_name n.
Proof.
  unfold init_name at 1.
  rewrite NameProperties.init_name_startswith. reflexivity.
Qed.

Lemma lstrip_append_skipped (p s chars : string) :
  lstrip p chars = EmptyString -> lstrip (p ++ s) chars = lstrip s chars.
Proof.
  induction p as [|c p IH]; simpl; [reflexivity|].
  destruct (char_in c chars); [exact IH | discriminate].
Qed.

Lemma lstrip_first (s chars : string) :
  match lstrip s chars with
  | EmptyString => True
  | String c _ => char_in c chars = false
  end.
Proof.
  induction s as [|c s IH]; simpl; [exact I|].
  destruct (char_in c chars) eqn:E; [exact IH | exact E].
Qed.

Lemma lstrip_idempotent (s chars : string) :
  lstrip (lstrip s chars) chars = lstrip s chars.
Proof.
  induction s as [|c s IH]; simpl; [reflexivity|].
  destruct (char_in c chars) eqn:E; [exact IH|].
  simpl. rewrite E. reflexivity.
Qed.

(** X2: The stripped name of an object is the name given with every leading
    G, R and B removed, whether or not the name had the prefix GRB; it
    begins with none of these letters. *)
Theorem stripped_name_of_init_name (n : string) :
  _stripped_name (init_name n) = lstrip n "GRB" /\
  match _stripped_name (init_name n) with
  | EmptyString => True
  | String c _ => c <> "G"%char /\ c <> "R"%char /\ c <> "B"%char
  end.
Proof.
  assert (E : _stripped_name (init_name n) = lstrip n "GRB").
  { unfold _stripped_name, init_name.
    destruct (startswith n "GRB"); cbn [negb]; [reflexivity|].
    apply lstrip_append_skipped. reflexivity. }
  split; [exact E|].
  rewrite E. pose proof (lstrip_first n "GRB") as H.
  destruct (lstrip n "GRB") as [|c r]; [exact I|].
  simpl in H.
  repeat split; intros ->; discriminate H.
Qed.

(** The annotation that [plot_data] writes on the figure doubles the
    prefix: it starts with GRBGRB for the name of every constructed
    object. *)
Lemma doubled_prefix (n : string) :
  startswith ("GRB" ++ init_name n) "GRBGRB" = true.
Proof.
  pose proof (NameProperties.init_name_startswith n) as H.
  destruct (init_name n) as [|a [|b [|c r]]]; simpl in H;
    try discriminate H;
    try (destruct (Ascii.eqb a "G"); discriminate H);
    try (destruct (Ascii.eqb a "G"); destruct (Ascii.eqb b "R"); discriminate H).
  simpl.
  destruct (Ascii.eqb a "G"); [|discriminate H].
  destruct (Ascii.eqb b "R"); [|discriminate H].
  destruct (Ascii.eqb c "B"); [reflexivity|discriminate H].
Qed.

End NameExtras.

(** ** Plot data *)

Module PlotExtras.
Import Afterglow TruncationSpec TruncationProperties.
Local Open Scope R_scope.
Local Open Scope string_scope.

Ltac unfold_plot :=
  unfold plot_data, _get_plot_data_and_labels, mbind, luminosity_data,
    flux_data, fluxdensity_data, attr, eval, assign, ret, raise;
  cbn -[row first_item last_item minimum maximum Rmult Rplus].

(** [_get_plot_data_and_labels] assigns nothing. *)
Lemma _get_plot_data_and_labels_state (self : obj) :
  snd (_get_plot_data_and_labels self) = self.
Proof.
  destruct self as [nm dm z g t trf te trfe l le fd fde fl fle].
  by_mode dm; unfold_plot; split_results;
    repeat (first [rewrite E | rewrite E0 | rewrite E1];
            cbn -[row]);
    reflexivity.
Qed.

(** The measurement that [_get_plot_data_and_labels] returns. *)
Lemma plot_y_of_observed (self : obj) (d : plot_data_and_labels)
    (t y : list R) (te ye : ndarray) :
  observed self = Some (t, te, y, ye) ->
  fst (_get_plot_data_and_labels self) = Ok d -> plot_y d = y.
Proof.
  destruct self as [nm dm z g t0 trf te0 trfe l le fd fde fl fle].
  unfold observed.
  cbn [data_mode time time_rest_frame time_err time_rest_frame_err Lum50
       Lum50_err flux_density flux_density_err flux flux_err].
  by_mode dm; intros Hobs; try discriminate Hobs;
    injection Hobs as <- <- <- <-; unfold_plot; split_results;
    intros H; injection H as <-; reflexivity.
Qed.

(** X3: [_get_plot_data_and_labels] returns the time and the measurement that
    the data mode designates, with the rows of each error array in the
    order second, first, and leaves the object as it is; in any other data
    mode it raises ValueError. *)
Theorem get_plot_data_and_labels_observed (self : obj) :
  match observed self with
  | None => _get_plot_data_and_labels self = (Raise ValueError, self)
  | Some (t, te, y, ye) =>
      snd (_get_plot_data_and_labels self) = self /\
      forall d : plot_data_and_labels,
        fst (_get_plot_data_and_labels self) = Ok d ->
        plot_x d = t /\ plot_y d = y /\
        row te 1 = Ok (fst (plot_x_err d)) /\
        row te 0 = Ok (snd (plot_x_err d)) /\
        row ye 1 = Ok (fst (plot_y_err d)) /\
        row ye 0 = Ok (snd (plot_y_err d))
  end.
Proof.
  pose proof (_get_plot_data_and_labels_state self) as S.
  destruct self as [nm dm z g t trf te trfe l le fd fde fl fle].
  unfold observed.
  cbn [data_mode time time_rest_frame time_err time_rest_frame_err Lum50
       Lum50_err flux_density flux_density_err flux flux_err].
  by_mode dm.
  - split; [exact S|]. clear S. unfold_plot. split_results.
    intros d H; injection H as <-; cbn; repeat split; reflexivity.
  - split; [exact S|]. clear S. unfold_plot. split_results.
    intros d H; injection H as <-; cbn; repeat split; reflexivity.
  - split; [exact S|]. clear S. unfold_plot. split_results.
    intros d H; injection H as <-; cbn; repeat split; reflexivity.
  - clear S. unfold_plot.
    repeat (first [rewrite E | rewrite E0 | rewrite E1]; cbn -[row]).
    reflexivity.
Qed.

Lemma fold_Rmin_le (a : list R) (x : R) :
  fold_left Rmin a x <= x /\ Forall (fun v => fold_left Rmin a x <= v) a.
Proof.
  revert x; induction a as [|y a IH]; intros x; simpl.
  - split; [lra | constructor].
  - destruct (IH (Rmin x y)) as [H1 H2].
    pose proof (Rmin_l x y). pose proof (Rmin_r x y).
    split; [lra|]. constructor; [lra | exact H2].
Qed.

Lemma fold_Rmax_ge (a : list R) (x : R) :
  x <= fold_left Rmax a x /\ Forall (fun v => v <= fold_left Rmax a x) a.
Proof.
  revert x; induction a as [|y a IH]; intros x; simpl.
  - split; [lra | constructor].
  - destruct (IH (Rmax x y)) as [H1 H2].
    pose proof (Rmax_l x y). pose proof (Rmax_r x y).
    split; [lra|]. constructor; [lra | exact H2].
Qed.

Lemma minimum_le (a : list R) (m : R) :
  minimum a = Ok m -> Forall (fun v => m <= v) a.
Proof.
  destruct a as [|x a]; simpl; intros H; [discriminate|].
  injection H as <-. destruct (fold_Rmin_le a x). constructor; assumption.
Qed.

Lemma maximum_ge (a : list R) (m : R) :
  maximum a = Ok m -> Forall (fun v => v <= m) a.
Proof.
  destruct a as [|x a]; simpl; intros H; [discriminate|].
  injection H as <-. destruct (fold_Rmax_ge a x). constructor; assumption.
Qed.

(** X4: When [plot_data] gets as far as the figure: every positive measurement
    lies strictly between the limits of the ordinate, and the annotation is
    GRB followed by the name of the object, so that it starts with GRBGRB
    for a name that the constructor has normalised. *)
Theorem plot_data_limits_and_annotation (self : obj) (fig : figure)
    (t y : list R) (te ye : ndarray) :
  observed self = Some (t, te, y, ye) ->
  fst (plot_data self) = Ok fig ->
  (forall v : R, In v y -> 0 < v -> fst (ylim fig) < v < snd (ylim fig)) /\
  annotation fig = "GRB" ++ name self /\
  (forall n : string, name self = init_name n ->
     startswith (annotation fig) "GRBGRB" = true).
Proof.
  intros Hobs Hfig.
  pose proof (_get_plot_data_and_labels_state self) as S.
  pose proof (fun d => plot_y_of_observed self d t y te ye Hobs) as G.
  unfold plot_data in Hfig. unfold mbind at 1 in Hfig.
  destruct (_get_plot_data_and_labels self) as [[d|e] s];
    cbn [fst snd] in S, G; subst s; [|discriminate Hfig].
  pose proof (G d eq_refl) as Hy.
  unfold mbind, eval, attr, ret in Hfig.
  destruct (first_item (plot_x d)); [|discriminate Hfig].
  destruct (last_item (plot_x d)); [|discriminate Hfig].
  destruct (last_item (snd (plot_x_err d))); [|discriminate Hfig].
  destruct (minimum (plot_y d)) as [ymin|] eqn:Emin; [|discriminate Hfig].
  destruct (maximum (plot_y d)) as [ymax|] eqn:Emax; [|discriminate Hfig].
  cbn in Hfig. injection Hfig as <-. cbn [ylim annotation fst snd].
  rewrite Hy in Emin, Emax.
  apply minimum_le in Emin. apply maximum_ge in Emax.
  rewrite Forall_forall in Emin, Emax.
  split; [|split].
  - intros v Hv Hpos. specialize (Emin v Hv). specialize (Emax v Hv). lra.
  - reflexivity.
  - intros n ->. apply NameExtras.doubled_prefix.
Qed.

Lemma plot_data_limits_and_annotation_witness :
  let fig :=
    {| xlim := (0.5 * 1, 2 * (3 + 0.01));
       ylim := (0.5 * Rmin 5 6, 2 * Rmax 5 6);
       annotation := "GRBGRB070809";
       ylabel := "Flux [erg cm$^{-2}$ s$^{-1}$]";
       savefig_name := "GRB070809_lc.png" |} in
  (forall v : R, In v [5; 6] -> 0 < v -> fst (ylim fig) < v < snd (ylim fig)) /\
  annotation fig = "GRB" ++ name two_point_flux /\
  (forall n : string, name two_point_flux = init_name n ->
     startswith (annotation fig) "GRBGRB" = true).
Proof.
  apply (plot_data_limits_and_annotation two_point_flux _ [1; 3] [5; 6]
           (Arr2 [[0.01; 0.01]; [0.01; 0.01]])
           (Arr2 [[0.5; 0.5]; [0.5; 0.5]]));
    reflexivity.
Defined.

End PlotExtras.

(** ** Loading *)

Module LoadExtras.
Import Afterglow TruncationSpec TruncationProperties.
Local Open Scope R_scope.
Local Open Scope string_scope.

Lemma ncols_rectangular (data : list (list R)) (c : nat) :
  data <> [] -> Forall (fun r => length r = c) data -> ncols data = c.
Proof.
  destruct data as [|r data]; [contradiction|].
  intros _ H. apply Forall_cons_iff in H as [H _]. exact H.
Qed.

Lemma column_ok (data : list (list R)) (c j : nat) :
  data <> [] -> Forall (fun r => length r = c) data -> (j < c)%nat ->
  column data j = Ok (map (fun r => nth j r 0) data).
Proof.
  intros Hne Hc Hj. unfold column.
  rewrite (ncols_rectangular data c Hne Hc).
  replace (Nat.ltb j c) with true by (symmetry; apply Nat.ltb_lt; exact Hj).
  reflexivity.
Qed.

Lemma transposed_columns_ok (data : list (list R)) (c a : nat) (b : option nat) :
  data <> [] -> Forall (fun r => length r = c) data ->
  transposed_columns data a b
  = Ok (Arr2 (map (fun j => map (fun r => nth j r 0) data)
                  (seq a (match b with Some b => Nat.min b c | None => c end - a)))).
Proof.
  intros Hne Hc. unfold transposed_columns.
  rewrite (ncols_rectangular data c Hne Hc).
  destruct data; [contradiction | reflexivity].
Qed.

Lemma abs_nonnegative (a : ndarray) : nonnegative (abs a).
Proof.
  destruct a as [xs | rows]; simpl.
  - apply Forall_map, Forall_forall. intros; apply Rabs_pos.
  - apply Forall_map, Forall_forall. intros r _.
    apply Forall_map, Forall_forall. intros; apply Rabs_pos.
Qed.

Lemma abs_columns (a : ndarray) (n : nat) : columns a n -> columns (abs a) n.
Proof.
  destruct a as [xs | rows]; simpl.
  - rewrite length_map. trivial.
  - intros H. apply Forall_map. revert H. apply Forall_impl.
    intros r Hr. rewrite length_map. exact Hr.
Qed.

Section WithFiles.

Variable afterglow_directory_structure : string -> string -> string.
Variable join : string -> string -> string.
Variable genfromtxt_rows : string -> result (list (list R)).

#[local] Abbreviation load_data :=
  (load_data afterglow_directory_structure join genfromtxt_rows).

(** What [load_data] reads from a file with at least four columns. *)
Lemma load_data_run (self : obj) (mode : string)
    (data : list (list R)) (c : nat) :
  In mode ["luminosity"; "flux"; "flux_density"] ->
  genfromtxt_rows
    (join (afterglow_directory_structure (_stripped_name (name self)) mode)
          (name self ++ ".csv")) = Ok data ->
  data <> [] -> Forall (fun r => length r = c) data -> (4 <= c)%nat ->
  let result := load_data (Some mode) self in
  fst result = Ok tt /\
  data_mode (snd result) = mode /\
  observed (snd result)
  = Some (map (fun r => nth 0 r 0) data,
          abs (Arr2 [map (fun r => nth 1 r 0) data; map (fun r => nth 2 r 0) data]),
          map (fun r => nth 3 r 0) data,
          abs (Arr2 (map (fun j => map (fun r => nth j r 0) data) (seq 4 (c - 4))))).
Proof.
  intros Hmode Hfile Hne Hc H4 result. unfold result.
  destruct self as [nm dm z g t trf te trfe l le fd fde fl fle].
  cbn [name] in Hfile.
  unfold Afterglow.load_data, _load, mbind, luminosity_data, flux_data,
    fluxdensity_data, attr, eval, assign, ret.
  cbn [data_mode name set_data_mode fst snd].
  rewrite Hfile.
  rewrite (column_ok data c 0 Hne Hc) by lia.
  rewrite (column_ok data c 3 Hne Hc) by lia.
  rewrite (transposed_columns_ok data c 1 (Some 3%nat) Hne Hc).
  rewrite (transposed_columns_ok data c 4 None Hne Hc).
  replace (Nat.min 3 c - 1)%nat with 2%nat by lia.
  cbn [bind seq map].
  simpl in Hmode.
  destruct Hmode as [<- | [<- | [<- | []]]]; cbn; repeat split.
Qed.

(** Columns of one matrix are aligned. *)
Lemma loaded_columns_aligned (self : obj) (data : list (list R)) (n : nat) :
  observed self
  = Some (map (fun r => nth 0 r 0) data,
          abs (Arr2 [map (fun r => nth 1 r 0) data; map (fun r => nth 2 r 0) data]),
          map (fun r => nth 3 r 0) data,
          abs (Arr2 (map (fun j => map (fun r => nth j r 0) data) (seq 4 n)))) ->
  aligned self.
Proof.
  intros H. unfold aligned. rewrite H. rewrite !length_map.
  split; [reflexivity|]. split.
  - apply abs_columns. simpl. repeat constructor; apply length_map.
  - apply abs_columns. simpl. apply Forall_map, Forall_forall.
    intros; apply length_map.
Qed.

(** X5: Loading a file with at least one row of at least four columns, in
    luminosity, flux or flux-density mode, succeeds and leaves the object
    aligned: the time is column 0, its error the absolute values of columns
    1 and 2, the measurement column 3 and its error the absolute values of
    the columns from 4 on; no error is negative. *)
Theorem load_data_aligned (self : obj) (mode : string)
    (data : list (list R)) (c : nat) :
  In mode ["luminosity"; "flux"; "flux_density"] ->
  genfromtxt_rows
    (join (afterglow_directory_structure (_stripped_name (name self)) mode)
          (name self ++ ".csv")) = Ok data ->
  data <> [] -> Forall (fun r => length r = c) data -> (4 <= c)%nat ->
  let result := load_data (Some mode) self in
  fst result = Ok tt /\
  data_mode (snd result) = mode /\
  observed (snd result)
  = Some (map (fun r => nth 0 r 0) data,
          abs (Arr2 [map (fun r => nth 1 r 0) data; map (fun r => nth 2 r 0) data]),
          map (fun r => nth 3 r 0) data,
          abs (Arr2 (map (fun j => map (fun r => nth j r 0) data) (seq 4 (c - 4))))) /\
  aligned (snd result) /\
  (forall t te y ye, observed (snd result) = Some (t, te, y, ye) ->
     nonnegative te /\ nonnegative ye).
Proof.
  intros Hmode Hfile Hne Hc H4 result.
  destruct (load_data_run self mode data c Hmode Hfile Hne Hc H4)
    as (H1 & H2 & H3).
  fold result in H1, H2, H3.
  split; [exact H1|]. split; [exact H2|]. split; [exact H3|].
  split; [exact (loaded_columns_aligned _ data (c - 4) H3)|].
  intros t te y ye E. rewrite H3 in E.
  assert (Ete : abs (Arr2 [map (fun r => nth 1 r 0) data;
                           map (fun r => nth 2 r 0) data]) = te)
    by congruence.
  assert (Eye : abs (Arr2 (map (fun j => map (fun r => nth j r 0) data)
                               (seq 4 (c - 4)))) = ye)
    by congruence.
  rewrite <- Ete, <- Eye. split; apply abs_nonnegative.
Qed.

(** X6: [load_and_truncate_data] on such a file, with a truncation method other
    than prompt_time_error: whenever it returns, the object is aligned. *)
Theorem load_and_truncate_keeps_aligned (self : obj)
    (truncate_flag : bool) (truncate_method mode : string)
    (data : list (list R)) (c : nat) :
  In mode ["luminosity"; "flux"; "flux_density"] ->
  genfromtxt_rows
    (join (afterglow_directory_structure (_stripped_name (name self)) mode)
          (name self ++ ".csv")) = Ok data ->
  data <> [] -> Forall (fun r => length r = c) data -> (4 <= c)%nat ->
  truncate_method <> "prompt_time_error" ->
  let result := load_and_truncate_data (fun m => load_data (Some m))
                  truncate_flag truncate_method mode self in
  fst result = Ok tt -> aligned (snd result).
Proof.
  intros Hmode Hfile Hne Hc H4 Hm result.
  destruct (load_data_run self mode data c Hmode Hfile Hne Hc H4)
    as (H1 & _ & H3).
  pose proof (loaded_columns_aligned _ data (c - 4) H3) as A.
  unfold result, load_and_truncate_data, mbind.
  destruct (load_data (Some mode) self) as [r s]. cbn [fst snd] in H1, A.
  subst r. destruct truncate_flag; [|intros _; exact A].
  unfold truncate.
  destruct (String.eqb truncate_method "prompt_time_error") eqn:E.
  - apply String.eqb_eq in E. contradiction.
  - destruct (String.eqb truncate_method "left_of_max").
    + apply left_of_max_keeps_aligned, A.
    + apply default_keeps_aligned, A.
Qed.

(** X7: A file with two or three columns: [load_data] raises IndexError at the
    measurement column, after it has replaced the time and its error.  The
    object is left with the new time beside the old measurement.  (A file
    with a single column is read as a one-dimensional array, which has no
    rows here: there [data[:, 0]] raises before anything is replaced.) *)
Theorem load_data_short_file (self : obj) (mode : string)
    (data : list (list R)) (c : nat) :
  In mode ["luminosity"; "flux"; "flux_density"] ->
  genfromtxt_rows
    (join (afterglow_directory_structure (_stripped_name (name self)) mode)
          (name self ++ ".csv")) = Ok data ->
  data <> [] -> Forall (fun r => length r = c) data ->
  (2 <= c)%nat -> (c < 4)%nat ->
  let result := load_data (Some mode) self in
  fst result = Raise IndexError /\
  data_mode (snd result) = mode /\
  exists te : ndarray,
    observed (snd result)
    = Some (map (fun r => nth 0 r 0) data, te,
            (if String.eqb mode "luminosity" then Lum50 self
             else if String.eqb mode "flux" then flux self
             else flux_density self),
            (if String.eqb mode "luminosity" then Lum50_err self
             else if String.eqb mode "flux" then flux_err self
             else flux_density_err self)).
Proof.
  intros Hmode Hfile Hne Hc H1 H4 result. unfold result.
  destruct self as [nm dm z g t trf te trfe l le fd fde fl fle].
  cbn [name] in Hfile.
  unfold Afterglow.load_data, _load, mbind, luminosity_data, flux_data,
    fluxdensity_data, attr, eval, assign, ret.
  cbn [data_mode name set_data_mode fst snd].
  rewrite Hfile.
  rewrite (column_ok data c 0 Hne Hc) by lia.
  rewrite (transposed_columns_ok data c 1 (Some 3%nat) Hne Hc).
  assert (E3 : column data 3 = Raise IndexError).
  { unfold column. rewrite (ncols_rectangular data c Hne Hc).
    replace (Nat.ltb 3 c) with false by (symmetry; apply Nat.ltb_ge; lia).
    reflexivity. }
  rewrite E3. cbn [bind].
  simpl in Hmode.
  destruct Hmode as [<- | [<- | [<- | []]]]; cbn;
    (split; [reflexivity | split; [reflexivity | eexists; reflexivity]]).
Qed.

End WithFiles.

Lemma load_data_aligned_witness :
  let result := load_data example_directory append example_genfromtxt
                  (Some "flux") two_point_flux in
  fst result = Ok tt /\
  data_mode (snd result) = "flux" /\
  observed (snd result)
  = Some (map (fun r => nth 0 r 0) example_rows,
          abs (Arr2 [map (fun r => nth 1 r 0) example_rows;
                     map (fun r => nth 2 r 0) example_rows]),
          map (fun r => nth 3 r 0) example_rows,
          abs (Arr2 (map (fun j => map (fun r => nth j r 0) example_rows)
                         (seq 4 (6 - 4))))) /\
  aligned (snd result) /\
  (forall t te y ye, observed (snd result) = Some (t, te, y, ye) ->
     nonnegative te /\ nonnegative ye).
Proof.
  apply (load_data_aligned example_directory append example_genfromtxt
           two_point_flux "flux" example_rows 6).
  - right; left; reflexivity.
  - reflexivity.
  - discriminate.
  - repeat constructor.
  - lia.
Defined.

Lemma load_data_short_file_witness :
  let result := load_data example_directory append short_genfromtxt
                  (Some "flux") two_point_flux in
  fst result = Raise IndexError /\
  data_mode (snd result) = "flux" /\
  exists te : ndarray,
    observed (snd result)
    = Some (map (fun r => nth 0 r 0) short_rows, te,
            (if String.eqb "flux" "luminosity" then Lum50 two_point_flux
             else if String.eqb "flux" "flux" then flux two_point_flux
             else flux_density two_point_flux),
            (if String.eqb "flux" "luminosity" then Lum50_err two_point_flux
             else if String.eqb "flux" "flux" then flux_err two_point_flux
             else flux_density_err two_point_flux)).
Proof.
  apply (load_data_short_file example_directory append short_genfromtxt
           two_point_flux "flux" short_rows 3).
  - right; left; reflexivity.
  - reflexivity.
  - discriminate.
  - repeat constructor.
  - lia.
  - lia.
Defined.

Lemma load_and_truncate_keeps_aligned_witness :
  aligned
    (snd (load_and_truncate_data
            (fun m => load_data example_directory append example_genfromtxt
                        (Some m))
            true "left_of_max" "flux" two_point_flux)).
Proof.
  apply (load_and_truncate_keeps_aligned example_directory append
           example_genfromtxt two_point_flux true "left_of_max" "flux"
           example_rows 6).
  - right; left; reflexivity.
  - reflexivity.
  - discriminate.
  - repeat constructor.
  - lia.
  - discriminate.
  - assert (E : argmax [5; 6] = Ok 1%nat).
    { unfold argmax, argmax_from.
      replace (Rgtb 6 5) with true
        by (symmetry; apply MaskProperties.Rgtb_true; lra).
      reflexivity. }
    unfold load_and_truncate_data, Afterglow.load_data, _load.
    unfold_method. rewrite E. reflexivity.
Defined.

End LoadExtras.

(** ** Truncation, continued *)

Module TruncationExtras.
Import Afterglow TruncationSpec MaskProperties TruncationProperties.
Local Open Scope R_scope.
Local Open Scope string_scope.
Local Open Scope list_scope.

(** [np.argmax]: the position found holds the largest entry, and every
    entry before it is smaller. *)
Lemma argmax_from_spec (a pre : list R) (best : R) (besti : nat) :
  (besti < length pre)%nat -> nth besti pre 0 = best ->
  Forall (fun x => x <= best) pre ->
  (forall j, (j < besti)%nat -> nth j pre 0 < best) ->
  let r := argmax_from best besti (length pre) a in
  (r < length (pre ++ a))%nat /\
  Forall (fun x => x <= nth r (pre ++ a) 0) (pre ++ a) /\
  (forall j, (j < r)%nat -> nth j (pre ++ a) 0 < nth r (pre ++ a) 0).
Proof.
  revert pre best besti. induction a as [|x a IH]; intros pre best besti Hb Hn Hle Hlt.
  - cbn [argmax_from]. rewrite app_nil_r. rewrite Hn.
    repeat split; assumption.
  - cbn [argmax_from].
    replace (pre ++ x :: a) with ((pre ++ [x]) ++ a)
      by (rewrite <- app_assoc; reflexivity).
    replace (S (length pre)) with (length (pre ++ [x]))
      by (rewrite length_app; simpl; lia).
    destruct (Rgtb x best) eqn:E.
    + apply Rgtb_true in E.
      apply IH.
      * rewrite length_app; simpl; lia.
      * rewrite app_nth2 by lia. rewrite Nat.sub_diag. reflexivity.
      * apply Forall_app. split; [|constructor; [lra | constructor]].
        revert Hle. apply Forall_impl. intros; lra.
      * intros j Hj. rewrite app_nth1 by exact Hj.
        rewrite Forall_forall in Hle.
        assert (nth j pre 0 <= best) by (apply Hle, nth_In; exact Hj). lra.
    + apply Rgtb_false in E.
      apply IH.
      * rewrite length_app; simpl; lia.
      * rewrite app_nth1 by exact Hb. exact Hn.
      * apply Forall_app. split; [exact Hle | constructor; [exact E | constructor]].
      * intros j Hj. rewrite app_nth1 by lia. apply Hlt, Hj.
Qed.

Lemma argmax_spec (a : list R) (i : nat) :
  argmax a = Ok i ->
  (i < length a)%nat /\
  Forall (fun x => x <= nth i a 0) a /\
  (forall j, (j < i)%nat -> nth j a 0 < nth i a 0).
Proof.
  destruct a as [|x a]; simpl; intros H; [discriminate|].
  injection H as <-.
  apply (argmax_from_spec a [x] x 0); simpl; try lia; try reflexivity.
  - constructor; [lra | constructor].
Qed.

Lemma slice_from_nat {A} (a : list A) (i : nat) :
  (i <= length a)%nat -> slice_from a (Z.of_nat i) = skipn i a.
Proof.
  intros H. unfold slice_from, slice_start.
  replace (Z.of_nat i <? 0)%Z with false by (symmetry; apply Z.ltb_ge; lia).
  rewrite Nat2Z.id, Nat.min_l by exact H. reflexivity.
Qed.

Lemma skipn_nth_cons (a : list R) (i : nat) :
  (i < length a)%nat -> skipn i a = nth i a 0 :: skipn (S i) a.
Proof.
  revert i; induction a as [|x a IH]; intros [|i] H; simpl in *; try lia.
  - reflexivity.
  - apply IH. lia.
Qed.

Lemma firstn_below (a : list R) (i : nat) (m : R) :
  (i <= length a)%nat -> (forall j, (j < i)%nat -> nth j a 0 < m) ->
  Forall (fun v => v < m) (firstn i a).
Proof.
  revert i; induction a as [|x a IH]; intros [|i] Hi H; simpl in *;
    try constructor; try lia.
  - apply (H 0%nat). lia.
  - apply IH; [lia|]. intros j Hj. apply (H (S j)). lia.
Qed.

(** What [argmax] finds, in terms of the array cut at the position. *)
Lemma argmax_cut (y : list R) (i : nat) :
  argmax y = Ok i ->
  exists (m : R) (rest : list R),
    slice_from y (Z.of_nat i) = m :: rest /\
    length (firstn i y) = i /\
    y = firstn i y ++ m :: rest /\
    Forall (fun v => v < m) (firstn i y) /\
    Forall (fun v => v <= m) y.
Proof.
  intros H. destruct (argmax_spec y i H) as (Hi & Hmax & Hbefore).
  exists (nth i y 0), (skipn (S i) y).
  rewrite slice_from_nat by lia.
  rewrite <- (skipn_nth_cons y i Hi).
  repeat split.
  - rewrite length_firstn. lia.
  - symmetry. apply firstn_skipn.
  - apply firstn_below; [lia | exact Hbefore].
  - exact Hmax.
Qed.

Ltac finish_left_of_max :=
  match goal with
  | H : argmax ?y = Ok ?a |- _ =>
      let m := fresh "m" in let rest := fresh "rest" in
      destruct (argmax_cut y a H) as (m & rest & Hs & Hl & Hy & Hd & Hm);
      exists m, rest, (firstn a y); do 2 eexists;
      rewrite Hl, Hs; repeat split; assumption
  end.

(** X8: When [_truncate_left_of_max] returns, it has dropped exactly the
    measurements before the first largest one: the measurement array now
    starts with its maximum, every dropped measurement was smaller, and the
    time has lost as many leading entries. *)
Theorem left_of_max_starts_at_maximum (self : obj) (t y : list R)
    (te ye : ndarray) :
  observed self = Some (t, te, y, ye) ->
  fst (_truncate_left_of_max self) = Ok tt ->
  exists (m : R) (rest dropped : list R) (te' ye' : ndarray),
    observed (snd (_truncate_left_of_max self))
      = Some (slice_from t (Z.of_nat (length dropped)), te', m :: rest, ye') /\
    y = dropped ++ m :: rest /\
    Forall (fun v => v < m) dropped /\
    Forall (fun v => v <= m) y.
Proof.
  destruct self as [nm dm z g t0 trf te0 trfe l le fd fde fl fle].
  unfold observed.
  cbn [data_mode time time_rest_frame time_err time_rest_frame_err Lum50
       Lum50_err flux_density flux_density_err flux flux_err].
  by_mode dm; intros Hobs.
  - injection Hobs as -> -> -> ->. unfold_method. split_results. intros _.
    finish_left_of_max.
  - injection Hobs as -> -> -> ->. unfold_method. split_results. intros _.
    finish_left_of_max.
  - injection Hobs as -> -> -> ->. unfold_method. split_results. intros _.
    finish_left_of_max.
  - discriminate Hobs.
Qed.

Lemma left_of_max_starts_at_maximum_witness :
  exists (m : R) (rest dropped : list R) (te' ye' : ndarray),
    observed (snd (_truncate_left_of_max two_point_flux))
      = Some (slice_from [1; 3] (Z.of_nat (length dropped)), te', m :: rest, ye') /\
    [5; 6] = dropped ++ m :: rest /\
    Forall (fun v => v < m) dropped /\
    Forall (fun v => v <= m) [5; 6].
Proof.
  apply (left_of_max_starts_at_maximum two_point_flux [1; 3] [5; 6]
           (Arr2 [[0.01; 0.01]; [0.01; 0.01]]) (Arr2 [[0.5; 0.5]; [0.5; 0.5]]));
    [reflexivity | exact (proj1 left_of_max_two_point)].
Defined.

(** X9: With no measurement, or in a data mode other than luminosity, flux
    and flux density, [_truncate_left_of_max] raises ValueError and leaves
    the object as it was. *)
Theorem left_of_max_raises_ValueError (self : obj) :
  match observed self with
  | Some (_, _, [], _) | None =>
      _truncate_left_of_max self = (Raise ValueError, self)
  | _ => True
  end.
Proof.
  destruct self as [nm dm z g t0 trf te0 trfe l le fd fde fl fle].
  unfold observed.
  cbn [data_mode time time_rest_frame time_err time_rest_frame_err Lum50
       Lum50_err flux_density flux_density_err flux flux_err].
  by_mode dm.
  - destruct l; [reflexivity | exact I].
  - destruct fl; [reflexivity | exact I].
  - destruct fd; [reflexivity | exact I].
  - unfold_method.
    repeat (first [rewrite E | rewrite E0 | rewrite E1]; run_truncate).
    reflexivity.
Qed.

Lemma length_slice_from_count (t : list R) (k : nat) :
  (k <= length t)%nat ->
  length (slice_from t (Z.of_nat (length t) - (Z.of_nat k + 2)))
  = if (k + 2 <=? length t)%nat then (k + 2)%nat
    else Nat.min (length t) (k + 2 - length t).
Proof.
  intros Hk. unfold slice_from, slice_start. rewrite length_skipn.
  destruct (k + 2 <=? length t)%nat eqn:E.
  - apply Nat.leb_le in E.
    replace (Z.of_nat (length t) - (Z.of_nat k + 2) <? 0)%Z with false
      by (symmetry; apply Z.ltb_ge; lia).
    lia.
  - apply Nat.leb_gt in E.
    replace (Z.of_nat (length t) - (Z.of_nat k + 2) <? 0)%Z with true
      by (symmetry; apply Z.ltb_lt; lia).
    lia.
Qed.

(** X10: [_truncate_default] cuts the time to its last [k + 2] entries, where [k]
    counts the time errors above 0.1, as long as the time has that many
    entries.  When it has not (all errors, or all but one, are above 0.1)
    the start of the slice is negative and counts from the end: one or two
    entries are left. *)
Theorem default_keeps_last_points (self : obj) (t e0 : list R)
    (erest : list (list R)) :
  time self = t -> time_err self = Arr2 (e0 :: erest) ->
  length e0 = length t ->
  let k := count_occ bool_dec (gt e0 0.1) true in
  let n := length t in
  time (snd (_truncate_default self))
    = slice_from t (Z.of_nat n - (Z.of_nat k + 2)) /\
  length (time (snd (_truncate_default self)))
    = if (k + 2 <=? n)%nat then (k + 2)%nat else Nat.min n (k + 2 - n).
Proof.
  intros Ht He Le k n.
  assert (Lm : length (gt e0 0.1) = length t)
    by (unfold gt; rewrite length_map; exact Le).
  assert (Hk : (k <= n)%nat).
  { unfold k, n. rewrite <- Lm. apply count_occ_bound. }
  assert (E : time (snd (_truncate_default self))
              = slice_from t (Z.of_nat n - (Z.of_nat k + 2))).
  { destruct self as [nm dm z g t' trf te trfe l le fd fde fl fle].
    cbn in Ht, He. subst t' te.
    unfold _truncate_default, mbind, luminosity_data, flux_data,
      fluxdensity_data, attr, eval, assign, ret.
    cbn [time time_err row nth_error].
    rewrite (take_mask_ok t (gt e0 0.1) Lm).
    rewrite (length_compress_count (gt e0 0.1) t Lm).
    fold k. fold n.
    run_truncate.
    repeat match goal with
    | |- context [match ?x with Ok _ => _ | Raise _ => _ end] =>
        destruct x; run_truncate
    | |- context [if ?b then _ else _] => destruct b; run_truncate
    end; reflexivity. }
  split; [exact E|].
  rewrite E. apply length_slice_from_count, Hk.
Qed.

Lemma default_keeps_last_points_witness :
  let k := count_occ bool_dec (gt [0.01; 0.01] 0.1) true in
  let n := length [1; 3] in
  time (snd (_truncate_default two_point_flux))
    = slice_from [1; 3] (Z.of_nat n - (Z.of_nat k + 2)) /\
  length (time (snd (_truncate_default two_point_flux)))
    = if (k + 2 <=? n)%nat then (k + 2)%nat else Nat.min n (k + 2 - n).
Proof.
  apply (default_keeps_last_points two_point_flux [1; 3] [0.01; 0.01]
           [[0.01; 0.01]]); reflexivity.
Defined.

(** X11: Every truncation method but prompt_time_error keeps the arrays of the
    data mode aligned whenever it returns. *)
Theorem truncate_keeps_aligned (truncate_method : string) (self : obj) :
  truncate_method <> "prompt_time_error" ->
  aligned self ->
  fst (truncate truncate_method self) = Ok tt ->
  aligned (snd (truncate truncate_method self)).
Proof.
  intros Hm A. unfold truncate.
  destruct (String.eqb truncate_method "prompt_time_error") eqn:E.
  - apply String.eqb_eq in E. contradiction.
  - destruct (String.eqb truncate_method "left_of_max").
    + apply left_of_max_keeps_aligned, A.
    + apply default_keeps_aligned, A.
Qed.

Lemma truncate_keeps_aligned_witness :
  aligned (snd (truncate "left_of_max" two_point_flux)).
Proof.
  apply (truncate_keeps_aligned "left_of_max" two_point_flux).
  - discriminate.
  - unfold aligned; cbn. repeat constructor.
  - exact (proj1 left_of_max_two_point).
Defined.

(** X12: In flux mode a second call of [_truncate_prompt_time_error] raises
    IndexError as soon as the first call has removed a measurement: the
    mask is made from the time, which the first call has left at its full
    length, and no longer fits the flux. *)
Theorem second_prompt_truncation_raises (self : obj) (t e0 y : list R)
    (erest yrows : list (list R)) :
  data_mode self = "flux" ->
  time self = t -> time_err self = Arr2 (e0 :: erest) ->
  flux self = y -> flux_err self = Arr2 yrows ->
  length e0 = length t -> length y = length t ->
  Forall (fun r => length r = length t) yrows ->
  length (kept_positions t e0) <> length t ->
  let once := snd (truncate "prompt_time_error" self) in
  truncate "prompt_time_error" once = (Raise IndexError, once).
Proof.
  intros Hmode Ht He Hy Hye Le Ly Lrows Hremoved once.
  unfold once.
  rewrite (prompt_time_error_flux self t e0 y erest yrows) by assumption.
  cbn [snd].
  destruct (keep_mask_positions t e0 Le) as [Lk Hk].
  destruct self as [nm dm z g t' trf te trfe l le fd fde fl fle].
  cbn in Hmode, Ht, He, Hy, Hye. subst.
  run_truncate.
  rewrite logical_and_same_length
    by (unfold gt, lt; rewrite !length_map; exact Le).
  unfold take_mask. rewrite Lk, length_select.
  replace (Nat.eqb (length t) (length (kept_positions t e0))) with false
    by (symmetry; apply Nat.eqb_neq; congruence).
  reflexivity.
Qed.

Lemma second_prompt_truncation_raises_witness :
  let once := snd (truncate "prompt_time_error" two_point_flux) in
  truncate "prompt_time_error" once = (Raise IndexError, once).
Proof.
  apply (second_prompt_truncation_raises two_point_flux [1; 3] [0.01; 0.01]
           [5; 6] [[0.01; 0.01]] [[0.5; 0.5]; [0.5; 0.5]]);
    try reflexivity; [repeat constructor|].
  rewrite kept_positions_two_point. discriminate.
Defined.

Lemma select_all (a : list R) : select (seq 0 (length a)) a = a.
Proof.
  unfold select. induction a as [|x a IH]; [reflexivity|].
  cbn [length seq map nth]. rewrite <- seq_shift, map_map. cbn [nth].
  rewrite IH. reflexivity.
Qed.

Lemma nth_select (idx : list nat) (a : list R) (i : nat) :
  (i < length idx)%nat -> nth i (select idx a) 0 = nth (nth i idx 0%nat) a 0.
Proof.
  intros H. unfold select.
  rewrite (nth_indep _ 0 (nth 0%nat a 0)) by (rewrite length_map; exact H).
  rewrite (map_nth (fun j => nth j a 0) idx 0%nat i). reflexivity.
Qed.

Lemma filter_all (p : nat -> bool) (l : list nat) :
  Forall (fun i => p i = true) l -> filter p l = l.
Proof.
  induction l as [|x l IH]; intros H; [reflexivity|].
  apply Forall_cons_iff in H as [Hx H]. simpl. rewrite Hx, (IH H). reflexivity.
Qed.

(** Among the measurements kept, all are kept again. *)
Lemma kept_positions_of_kept (t e : list R) :
  let kept := kept_positions t e in
  kept_positions (select kept t) (select kept e) = seq 0 (length kept).
Proof.
  intros kept. unfold kept_positions at 1. rewrite length_select.
  apply filter_all, Forall_forall. intros i Hi. apply in_seq in Hi.
  rewrite !nth_select by lia.
  assert (Hin : In (nth i kept 0%nat) kept) by (apply nth_In; lia).
  unfold kept, kept_positions in Hin. apply filter_In in Hin. apply Hin.
Qed.

(** X13: In luminosity mode [_truncate_prompt_time_error] returns on aligned
    arrays, leaves them aligned, and is idempotent: a second call returns
    and changes nothing. *)
Theorem prompt_truncation_in_luminosity (self : obj)
    (t e0 y : list R) (erest yrows : list (list R)) :
  data_mode self = "luminosity" ->
  observed self = Some (t, Arr2 (e0 :: erest), y, Arr2 yrows) ->
  aligned self ->
  let first := truncate "prompt_time_error" self in
  fst first = Ok tt /\
  aligned (snd first) /\
  truncate "prompt_time_error" (snd first) = (Ok tt, snd first).
Proof.
  intros Hmode Hobs A first.
  assert (Hobs' := Hobs). unfold observed in Hobs'. rewrite Hmode in Hobs'.
  cbn in Hobs'. injection Hobs' as Ht He Hy Hye.
  destruct (prompt_time_error_luminosity_keeps_aligned self t e0 y erest yrows
              Hmode Ht He Hy Hye A) as [H1 H2].
  split; [exact H1 | split; [exact H2|]].
  unfold aligned in A. rewrite Hobs in A. destruct A as (Ly & Le & Lrows).
  cbn in Le. apply Forall_cons_iff in Le. destruct Le as [Le Lerest].
  rewrite <- Ly in Lrows. symmetry in Ly.
  unfold first.
  rewrite (prompt_time_error_luminosity self t e0 y erest yrows) by assumption.
  cbn [snd].
  set (kept := kept_positions t e0).
  set (s1 := set_Lum50_err _ _).
  assert (Lsel : forall rows : list (list R),
            Forall (fun r => length r = length (select kept t))
                   (map (select kept) rows)).
  { intros rows. apply Forall_map, Forall_forall. intros r _.
    rewrite !length_select. reflexivity. }
  rewrite (prompt_time_error_luminosity s1 (select kept t) (select kept e0)
             (select kept y) (map (select kept) erest) (map (select kept) yrows));
    try apply Lsel; try (rewrite !length_select; reflexivity);
    try (unfold s1; destruct self; first [exact Hmode | reflexivity]).
  pose proof (kept_positions_of_kept t e0) as K. cbv zeta in K.
  fold kept in K. rewrite K.
  assert (Hsel : forall a : list R,
            select (seq 0 (length kept)) (select kept a) = select kept a).
  { intros a. rewrite <- (length_select kept a) at 1. apply select_all. }
  assert (Hrows : forall rows : list (list R),
            map (select (seq 0 (length kept))) (map (select kept) rows)
            = map (select kept) rows).
  { intros rows. rewrite map_map. apply map_ext. intros r. apply Hsel. }
  cbn [map]. rewrite !Hsel, !Hrows.
  unfold s1. destruct self. reflexivity.
Qed.

Lemma prompt_truncation_in_luminosity_witness :
  let first := truncate "prompt_time_error" two_point_luminosity in
  fst first = Ok tt /\
  aligned (snd first) /\
  truncate "prompt_time_error" (snd first) = (Ok tt, snd first).
Proof.
  apply (prompt_truncation_in_luminosity two_point_luminosity
           [0.8; 2.5] [0.008; 0.008] [5; 6]
           [[0.008; 0.008]] [[0.5; 0.5]; [0.5; 0.5]]).
  - reflexivity.
  - reflexivity.
  - unfold aligned; cbn. repeat constructor.
Defined.

End TruncationExtras.

(** ** Flux to luminosity, continued *)

Module ConversionExtras.
Import Afterglow TruncationSpec ConversionProperties.
Local Open Scope R_scope.
Local Open Scope string_scope.

Section Cosmology.

Variable luminosity_distance : R -> R.

#[local] Abbreviation convert := (analytical_flux_to_luminosity luminosity_distance).

Lemma _get_redshift_state (self : obj) :
  snd (_get_redshift_for_luminosity_calculation self) = self.
Proof.
  unfold _get_redshift_for_luminosity_calculation, mbind, attr, ret.
  destruct (redshift self); [reflexivity|].
  destruct (String.eqb _ _); [reflexivity|].
  destruct (String.eqb _ _); reflexivity.
Qed.

Lemma _get_redshift_cases (self : obj) :
  fst (_get_redshift_for_luminosity_calculation self) = Ok None \/
  exists z : R, fst (_get_redshift_for_luminosity_calculation self) = Ok (Some z).
Proof.
  unfold _get_redshift_for_luminosity_calculation, mbind, attr, ret.
  destruct (redshift self); [right; eexists; reflexivity|].
  destruct (String.eqb _ _); [left; reflexivity|].
  destruct (String.eqb _ _); [left; reflexivity | right; eexists; reflexivity].
Qed.

Lemma conversion_none (self : obj) :
  fst (_get_redshift_for_luminosity_calculation self) = Ok None ->
  convert self = (Ok tt, self).
Proof.
  intros H. pose proof (_get_redshift_state self) as Hs.
  unfold analytical_flux_to_luminosity. unfold mbind at 1.
  destruct (_get_redshift_for_luminosity_calculation self) as [r s].
  simpl in H, Hs. subst r s. reflexivity.
Qed.

(** The result of a conversion at redshift [z] is that of saving the
    converted arrays. *)
Lemma conversion_result (self : obj) (z : R) :
  fst (_get_redshift_for_luminosity_calculation self) = Ok (Some z) ->
  fst (convert self) = fst (_save_luminosity_data (snd (convert self))).
Proof.
  intros H. rewrite (conversion_state luminosity_distance self z H).
  pose proof (_get_redshift_state self) as Hs.
  unfold analytical_flux_to_luminosity. unfold mbind at 1.
  destruct (_get_redshift_for_luminosity_calculation self) as [r s].
  simpl in H, Hs. subst r s.
  destruct self. reflexivity.
Qed.

(** X14: Converting twice gives the object that converting once gives: with a
    measured redshift the second call finds the luminosity mode and returns;
    with none it computes the same arrays again from the flux and the time,
    which the first call has left as they were. *)
Theorem conversion_is_idempotent (self : obj) :
  snd (convert (snd (convert self))) = snd (convert self).
Proof.
  destruct (_get_redshift_cases self) as [H | [z H]].
  - rewrite (conversion_none self H). cbn [snd].
    rewrite (conversion_none self H). reflexivity.
  - rewrite (conversion_state luminosity_distance self z H).
    set (s1 := {| name := name self |}).
    destruct (_get_redshift_cases s1) as [H1 | [z1 H1]].
    + rewrite (conversion_none s1 H1). reflexivity.
    + rewrite (conversion_state luminosity_distance s1 z1 H1).
      assert (Ez : z1 = z).
      { revert H H1.
        unfold _get_redshift_for_luminosity_calculation, mbind, attr, ret.
        unfold s1. cbn [redshift data_mode].
        destruct (redshift self); cbn.
        - congruence.
        - destruct (String.eqb (data_mode self) "luminosity"); [discriminate|].
          destruct (String.eqb (data_mode self) "flux_density"); discriminate. }
      subst z1. reflexivity.
Qed.

(** X15: An object in flux mode whose arrays are aligned and whose two error
    arrays have a row for each sign: the conversion returns, the object is
    in luminosity mode and its rest-frame time, luminosity and their errors
    are aligned. *)
Theorem conversion_keeps_aligned (self : obj) (e0 e1 f0 f1 : list R) :
  data_mode self = "flux" ->
  time_err self = Arr2 [e0; e1] -> flux_err self = Arr2 [f0; f1] ->
  aligned self ->
  fst (convert self) = Ok tt /\
  data_mode (snd (convert self)) = "luminosity" /\
  aligned (snd (convert self)).
Proof.
  intros Hmode He Hf A.
  unfold aligned, observed in A. rewrite Hmode, He, Hf in A. cbn in A.
  destruct A as (Ly & Le & Lf).
  apply Forall_cons_iff in Le. destruct Le as [Le0 Le].
  apply Forall_cons_iff in Le. destruct Le as [Le1 _].
  apply Forall_cons_iff in Lf. destruct Lf as [Lf0 Lf].
  apply Forall_cons_iff in Lf. destruct Lf as [Lf1 _].
  assert (exists z : R,
            fst (_get_redshift_for_luminosity_calculation self) = Ok (Some z))
    as [z H].
  { unfold _get_redshift_for_luminosity_calculation, mbind, attr, ret.
    destruct (redshift self); [|rewrite Hmode]; eexists; reflexivity. }
  rewrite (conversion_result self z H).
  rewrite (conversion_state luminosity_distance self z H).
  rewrite He, Hf.
  unfold _save_luminosity_data, mbind, attr, eval, ret, raise, aligned, observed.
  cbn [time_rest_frame time_rest_frame_err Lum50 Lum50_err data_mode
       map_nd map row nth_error forallb fst snd].
  rewrite !length_map, Le0, Le1, Lf0, Lf1, <- Ly, !Nat.eqb_refl.
  cbn [andb String.eqb Ascii.eqb Bool.eqb fst snd columns].
  split; [reflexivity|]. split; [reflexivity|].
  rewrite !length_map.
  split; [exact Ly|].
  split; repeat constructor; rewrite length_map; congruence.
Qed.

(** X16: An object that holds no flux, as one constructed in another data mode
    ([flux_err] is the one-dimensional [np.array([])]): whenever the
    conversion does not return at once, it raises IndexError in
    [_save_luminosity_data], and has put the object into luminosity mode
    before. *)
Theorem conversion_without_flux_raises (self : obj) (z : R) (xs : list R) :
  fst (_get_redshift_for_luminosity_calculation self) = Ok (Some z) ->
  flux_err self = Arr1 xs ->
  fst (convert self) = Raise IndexError /\
  data_mode (snd (convert self)) = "luminosity".
Proof.
  intros H Hf.
  rewrite (conversion_result self z H).
  rewrite (conversion_state luminosity_distance self z H).
  split; [|reflexivity].
  rewrite Hf.
  unfold _save_luminosity_data, mbind, attr, eval, ret, raise.
  cbn [time_rest_frame_err Lum50_err time_rest_frame Lum50 map_nd].
  destruct (time_err self) as [ys | rows]; [reflexivity|].
  cbn [map_nd]. unfold row.
  destruct rows as [|r0 [|r1 rows]]; reflexivity.
Qed.

End Cosmology.

Lemma conversion_keeps_aligned_witness :
  fst (analytical_flux_to_luminosity hubble_distance two_point_flux) = Ok tt /\
  data_mode (snd (analytical_flux_to_luminosity hubble_distance two_point_flux))
    = "luminosity" /\
  aligned (snd (analytical_flux_to_luminosity hubble_distance two_point_flux)).
Proof.
  apply (conversion_keeps_aligned hubble_distance two_point_flux
           [0.01; 0.01] [0.01; 0.01] [0.5; 0.5] [0.5; 0.5]).
  - reflexivity.
  - reflexivity.
  - reflexivity.
  - unfold aligned; cbn. repeat constructor.
Defined.

Lemma conversion_without_flux_raises_witness :
  fst (analytical_flux_to_luminosity hubble_distance unmeasured_flux_density)
    = Raise IndexError /\
  data_mode (snd (analytical_flux_to_luminosity hubble_distance
                    unmeasured_flux_density)) = "luminosity".
Proof.
  apply (conversion_without_flux_raises hubble_distance unmeasured_flux_density
           0.75 []); reflexivity.
Defined.

End ConversionExtras.

(** ** The analytic fallback model, continued *)

Module AnalyticFallbackExtras.
Import TdeModels MaskProperties AnalyticFallbackProperties.
Local Open Scope R_scope.

(** One entry of the result, for a positive turn-on time: the power law at
    the later of the time and the turn-on time. *)
Lemma fallback_entry (l0 t_0 t : R) :
  t_0 > 0 ->
  (if Rgtb (t - t_0) 0
   then l0 / power (t * 86400) (5 / 3)
   else l0 / power (t_0 * 86400) (5 / 3))
  = l0 / Rpower (Rmax t t_0 * 86400) (5 / 3).
Proof.
  intros Ht. destruct (Rgtb (t - t_0) 0) eqn:E.
  - apply Rgtb_true in E. rewrite Rmax_left by lra.
    rewrite power_pos by lra. reflexivity.
  - apply Rgtb_false in E. rewrite Rmax_right by lra.
    rewrite power_pos by lra. reflexivity.
Qed.

Lemma fallback_entry_decreasing (l0 t_0 t u : R) :
  l0 > 0 -> t_0 > 0 -> t <= u ->
  0 < l0 / Rpower (Rmax u t_0 * 86400) (5 / 3)
    <= l0 / Rpower (Rmax t t_0 * 86400) (5 / 3).
Proof.
  intros Hl Ht Htu.
  assert (Hm : Rmax t t_0 <= Rmax u t_0).
  { apply Rmax_lub; [|apply Rmax_r].
    apply Rle_trans with u; [exact Htu | apply Rmax_l]. }
  assert (Hp : 0 < Rmax t t_0) by (pose proof (Rmax_r t t_0); lra).
  assert (Hle : Rpower (Rmax t t_0 * 86400) (5 / 3)
                <= Rpower (Rmax u t_0 * 86400) (5 / 3)).
  { apply Rle_Rpower_l; lra. }
  assert (H1 : 0 < Rpower (Rmax t t_0 * 86400) (5 / 3)) by apply exp_pos.
  assert (H2 : 0 < Rpower (Rmax u t_0 * 86400) (5 / 3)) by apply exp_pos.
  split.
  - apply Rdiv_lt_0_compat; lra.
  - unfold Rdiv. apply Rmult_le_compat_l; [lra|].
    apply Rinv_le_contravar; assumption.
Qed.

(** X17: For [l0 > 0] and [t_0 > 0] the luminosity is positive, never above the
    plateau [l0 / (t_0 * 86400) ^ (5/3)], and does not grow with time: of two
    entries, the one of the later time is the smaller or they are equal. *)
Theorem analytic_fallback_decays (time : list R) (l0 t_0 : R) :
  l0 > 0 -> t_0 > 0 ->
  exists lbol : list R,
    _analytic_fallback time l0 t_0 = Ok lbol /\
    Forall (fun l => 0 < l <= l0 / Rpower (t_0 * 86400) (5 / 3)) lbol /\
    (forall (i j : nat) (ti tj li lj : R),
       nth_error time i = Some ti -> nth_error time j = Some tj ->
       nth_error lbol i = Some li -> nth_error lbol j = Some lj ->
       ti <= tj -> lj <= li).
Proof.
  intros Hl Ht.
  eexists. split; [apply _analytic_fallback_entrywise|]. split.
  - apply Forall_map, Forall_forall. intros t _.
    rewrite fallback_entry by exact Ht.
    destruct (Rle_or_lt t t_0) as [H | H].
    + rewrite Rmax_right by exact H. split; [|lra].
      apply Rdiv_lt_0_compat; [lra | apply exp_pos].
    + replace (t_0 * 86400) with (Rmax t_0 t_0 * 86400)
        by (rewrite Rmax_left by lra; reflexivity).
      apply fallback_entry_decreasing; lra.
  - intros i j ti tj li lj Hi Hj Hli Hlj Hle.
    rewrite nth_error_map, Hi in Hli. rewrite nth_error_map, Hj in Hlj.
    cbn [option_map] in Hli, Hlj.
    rewrite fallback_entry in Hli, Hlj by exact Ht.
    injection Hli as <-. injection Hlj as <-.
    apply fallback_entry_decreasing; assumption.
Qed.

Lemma analytic_fallback_decays_witness :
  exists lbol : list R,
    _analytic_fallback [1; 3] 1e40 2 = Ok lbol /\
    Forall (fun l => 0 < l <= 1e40 / Rpower (2 * 86400) (5 / 3)) lbol /\
    (forall (i j : nat) (ti tj li lj : R),
       nth_error [1; 3] i = Some ti -> nth_error [1; 3] j = Some tj ->
       nth_error lbol i = Some li -> nth_error lbol j = Some lj ->
       ti <= tj -> lj <= li).
Proof.
  apply (analytic_fallback_decays [1; 3] 1e40 2); lra.
Defined.

End AnalyticFallbackExtras.

(** ** The outputs of [_metzger_tde] *)

Module OutputProperties.
Import TdeModels AnalyticFallbackProperties GridProperties LoopProperties.
Local Open Scope R_scope.

Section Outputs.

Variables graviational_constant solar_mass speed_of_light solar_radius
          day_to_s sigma_sb : R.
Variable buffer : nat -> nat -> R.
Variables mbh_6 stellar_mass : R.
Variable kwargs : dict R.

Section Efficiency.

Variables eta alpha beta : R.

#[local] Abbreviation update :=
  (update graviational_constant solar_mass speed_of_light solar_radius
     sigma_sb mbh_6 stellar_mass eta alpha beta kwargs).
#[local] Abbreviation initialize :=
  (initialize graviational_constant solar_mass speed_of_light solar_radius
     sigma_sb mbh_6 stellar_mass eta alpha beta kwargs).
#[local] Abbreviation allocate := (allocate day_to_s buffer mbh_6 stellar_mass kwargs).
#[local] Abbreviation final_grids :=
  (final_grids graviational_constant solar_mass speed_of_light solar_radius
     day_to_s sigma_sb buffer mbh_6 stellar_mass eta alpha beta kwargs).
#[local] Abbreviation assigned_at_ii :=
  (assigned_at_ii graviational_constant solar_mass speed_of_light solar_radius
     sigma_sb mbh_6 stellar_mass eta alpha beta kwargs).
#[local] Abbreviation Mdotfb := (Mdotfb solar_mass mbh_6 stellar_mass kwargs).
#[local] Abbreviation time_temp := (make_time_temp mbh_6 stellar_mass kwargs).
#[local] Abbreviation tfb := (tfb mbh_6 stellar_mass kwargs).
#[local] Abbreviation Ledd40 := (Ledd40 mbh_6).
#[local] Abbreviation _metzger_tde :=
  (_metzger_tde graviational_constant solar_mass speed_of_light solar_radius
     day_to_s sigma_sb buffer mbh_6 stellar_mass eta alpha beta kwargs).

Lemma assigned_Racc : assigned_at_ii Racc.
Proof. intros t g ii. right. eexists. reflexivity. Qed.
Lemma assigned_Edotfb40 : assigned_at_ii Edotfb40.
Proof. intros t g ii. right. eexists. reflexivity. Qed.
Lemma assigned_Lrad : assigned_at_ii Lrad.
Proof. intros t g ii. right. eexists. reflexivity. Qed.
Lemma assigned_MdotBH : assigned_at_ii MdotBH.
Proof. intros t g ii. right. eexists. reflexivity. Qed.
Lemma assigned_LX40 : assigned_at_ii LX40.
Proof. intros t g ii. right. eexists. reflexivity. Qed.

Lemma length_after_update (f : grids -> list R) (t : list R) (g : grids) (ii : Z) :
  assigned_at_ii f -> length (f (update t g ii)) = length (f g).
Proof.
  intros Hf. destruct (Hf t g ii) as [-> | [v ->]];
    [reflexivity | apply length_setitem].
Qed.

Lemma length_after_updates (f : grids -> list R) (t : list R) (idxs : list Z)
    (g : grids) :
  assigned_at_ii f -> length (f (fold_left (update t) idxs g)) = length (f g).
Proof.
  intros Hf. revert g. induction idxs as [|i idxs IH]; intros g; simpl.
  - reflexivity.
  - rewrite IH. apply length_after_update, Hf.
Qed.

(** Iterations at other indices do not touch position [p]. *)
Lemma other_iterations_keep_item (f : grids -> list R) (t : list R)
    (idxs : list nat) (g : grids) (p : nat) :
  assigned_at_ii f -> (p < length (f g))%nat ->
  Forall (fun i => i <> p /\ (i < length (f g))%nat) idxs ->
  (f (fold_left (update t) (map Z.of_nat idxs) g)).[Z.of_nat p]
  = (f g).[Z.of_nat p].
Proof.
  intros Hf. revert g. induction idxs as [|i idxs IH]; intros g Hp H; simpl.
  - reflexivity.
  - apply Forall_cons_iff in H. destruct H as [[Hip Hi] H].
    pose proof (length_after_update f t g (Z.of_nat i) Hf) as L.
    rewrite IH by (rewrite L; assumption).
    destruct (Hf t g (Z.of_nat i)) as [-> | [v ->]]; [reflexivity|].
    apply (item_setitem_other _ _ _ p i).
    + apply index_pos_range, Hp.
    + apply index_pos_range, Hi.
    + congruence.
Qed.

(** The loop as the iterations before [p], the iteration [p] and the
    iterations after it. *)
Lemma range_split (n p : nat) :
  (p < n)%nat ->
  range n = (range p ++ Z.of_nat p :: map Z.of_nat (seq (S p) (n - S p)))%list.
Proof.
  intros H. unfold range.
  replace n with (p + S (n - S p))%nat at 1 by lia.
  rewrite seq_app, map_app. reflexivity.
Qed.

(** After the loop, the positions [p] and 0 of a grid hold what they held
    when the iteration [ii = p] ended. *)
Lemma evolve_item (f : grids -> list R) (t : list R) (g : grids) (p q : nat) :
  assigned_at_ii f -> length (f g) = length t -> (p < length t)%nat ->
  q = p \/ q = 0%nat ->
  (f (evolve graviational_constant solar_mass speed_of_light solar_radius
        sigma_sb mbh_6 stellar_mass eta alpha beta kwargs t g)).[Z.of_nat q]
  = (f (update t (fold_left (update t) (range p) g) (Z.of_nat p))).[Z.of_nat q].
Proof.
  intros Hf L Hp Hq. unfold evolve.
  rewrite (range_split (length t) p Hp), fold_left_app. cbn [fold_left].
  set (h := update t _ _).
  assert (Lh : length (f h) = length t).
  { unfold h. rewrite length_after_update, length_after_updates; assumption. }
  apply other_iterations_keep_item; [exact Hf | rewrite Lh; lia |].
  rewrite Lh. apply Forall_forall. intros i Hi. apply in_seq in Hi. lia.
Qed.

Lemma item_nth (a : list R) (i : nat) :
  (i < length a)%nat -> a.[Z.of_nat i] = nth i a 0.
Proof.
  intros H. unfold item. rewrite (index_pos_range _ _ H). reflexivity.
Qed.

#[local] Abbreviation before_iteration :=
  (before_iteration graviational_constant solar_mass speed_of_light solar_radius
     day_to_s sigma_sb buffer mbh_6 stellar_mass eta alpha beta kwargs).

Ltac grid_length :=
  unfold TdeModels.before_iteration;
  rewrite ?length_after_update, ?length_after_updates
    by first [apply assigned_Me | apply assigned_Ee40 | apply assigned_Rv
             | apply assigned_Rph | apply assigned_Teff | apply assigned_Racc
             | apply assigned_Edotfb40 | apply assigned_Lrad
             | apply assigned_MdotBH | apply assigned_LX40];
  cbn [Me Ee40 Rv Racc Rph Edotfb40 tacc Edotbh40 MdotBH Teff Lrad Lamb LX40
       TdeModels.initialize TdeModels.allocate];
  rewrite ?length_setitem, ?length_empty_like, ?length_time_temp.

(** After the loop, the positions [p] and 0 of a grid hold what they held
    when the iteration [ii = p] ended. *)
Lemma final_item (f : grids -> list R) (p q : nat) :
  assigned_at_ii f -> length (f (initialize allocate)) = 500%nat ->
  (p < 500)%nat -> q = p \/ q = 0%nat ->
  (f final_grids).[Z.of_nat q]
  = (f (update time_temp (before_iteration p) (Z.of_nat p))).[Z.of_nat q].
Proof.
  intros Hf L Hp Hq. unfold TdeModels.final_grids.
  apply evolve_item; rewrite ?length_time_temp; assumption.
Qed.

Ltac assigned :=
  first [apply assigned_Me | apply assigned_Ee40 | apply assigned_Rv
        | apply assigned_Rph | apply assigned_Teff | apply assigned_Racc
        | apply assigned_Edotfb40 | apply assigned_Lrad
        | apply assigned_MdotBH | apply assigned_LX40].

Lemma length_final (f : grids -> list R) :
  assigned_at_ii f -> length (f (initialize allocate)) = 500%nat ->
  length (f final_grids) = 500%nat.
Proof.
  intros Hf L. unfold TdeModels.final_grids, evolve.
  rewrite (length_after_updates f time_temp (range (length time_temp))
             (initialize allocate) Hf).
  exact L.
Qed.

Ltac final_length := apply length_final; [assigned | grid_length; reflexivity].

(** What one iteration assigns, in terms of the grids it leaves. *)
Lemma update_LX40 (t : list R) (g : grids) (ii : Z) :
  LX40 (update t g ii)
  = setitem (LX40 g) ii
      (0.01 * ((MdotBH (update t g ii)).[ii] / 1.0e20)
       * (power speed_of_light 2.0 / 1.0e20)).
Proof. reflexivity. Qed.

Lemma update_Teff (t : list R) (g : grids) (ii : Z) :
  Teff (update t g ii)
  = setitem (Teff g) ii
      (1.0e10 * power ((Ledd40 + (Edotfb40 (update t g ii)).[ii])
                       / (4.0 * PI * sigma_sb
                          * power (Rph (update t g ii)).[ii] 2.0)) 0.25).
Proof. reflexivity. Qed.

Lemma update_Lrad (t : list R) (g : grids) (ii : Z) :
  Lrad (update t g ii)
  = setitem (Lrad g) ii (Ledd40 + (Edotfb40 (update t g ii)).[ii]).
Proof. reflexivity. Qed.

Lemma update_Edotfb40 (t : list R) (g : grids) (ii : Z) :
  Edotfb40 (update t g ii)
  = setitem (Edotfb40 g) ii
      ((graviational_constant * mbh_6 * 1.0e6 * Mdotfb.[ii]
        / (Racc (update t g ii)).[ii]) * 2.0e-7).
Proof. reflexivity. Qed.

Lemma update_Racc (t : list R) (g : grids) (ii : Z) :
  Racc (update t g ii)
  = setitem (Racc g) ii
      (zeta kwargs * (Rv (update t g ii)).[0] * power (t.[ii] / tfb) (2 / 3)).
Proof. reflexivity. Qed.

Lemma update_Rv (t : list R) (g : grids) (ii : Z) :
  Rv (update t g ii)
  = setitem (Rv g) ii
      (((2.0 * graviational_constant * mbh_6 * 1.0e6 * (Me (update t g ii)).[ii])
        / (5.0 * (Ee40 (update t g ii)).[ii])) * 2.0e-7).
Proof. reflexivity. Qed.

Ltac assigned_item p :=
  apply (item_setitem_same _ _ p);
  [apply index_pos_range|]; grid_length; lia.

Ltac from_final p :=
  change ((Rv final_grids).[0]) with ((Rv final_grids).[Z.of_nat 0]);
  rewrite ?(final_item Me p p), ?(final_item Ee40 p p), ?(final_item Rv p p),
    ?(final_item Rv p 0), ?(final_item Racc p p), ?(final_item Rph p p),
    ?(final_item Edotfb40 p p), ?(final_item Lrad p p),
    ?(final_item MdotBH p p), ?(final_item Teff p p), ?(final_item LX40 p p)
    by first [apply assigned_Me | apply assigned_Ee40 | apply assigned_Rv
             | apply assigned_Rph | apply assigned_Teff | apply assigned_Racc
             | apply assigned_Edotfb40 | apply assigned_Lrad
             | apply assigned_MdotBH | apply assigned_LX40
             | grid_length; reflexivity | lia | left; reflexivity
             | right; reflexivity].

(** The grids after the loop, point by point. *)
Lemma final_relations (p : nat) :
  (p < 500)%nat ->
  let ii := Z.of_nat p in
  let g := final_grids in
  (LX40 g).[ii]
    = 0.01 * ((MdotBH g).[ii] / 1.0e20) * (power speed_of_light 2.0 / 1.0e20) /\
  (Teff g).[ii]
    = 1.0e10 * power ((Ledd40 + (Edotfb40 g).[ii])
                      / (4.0 * PI * sigma_sb * power (Rph g).[ii] 2.0)) 0.25 /\
  (Lrad g).[ii] = Ledd40 + (Edotfb40 g).[ii] /\
  (Edotfb40 g).[ii]
    = (graviational_constant * mbh_6 * 1.0e6 * Mdotfb.[ii] / (Racc g).[ii])
      * 2.0e-7 /\
  (Racc g).[ii]
    = zeta kwargs * (Rv g).[0] * power (time_temp.[ii] / tfb) (2 / 3) /\
  (Rv g).[ii]
    = ((2.0 * graviational_constant * mbh_6 * 1.0e6 * (Me g).[ii])
       / (5.0 * (Ee40 g).[ii])) * 2.0e-7.
Proof.
  intros Hp ii g. unfold g, ii.
  from_final p.
  split; [rewrite update_LX40 at 1; assigned_item p|].
  split; [rewrite update_Teff at 1; assigned_item p|].
  split; [rewrite update_Lrad at 1; assigned_item p|].
  split; [rewrite update_Edotfb40 at 1; assigned_item p|].
  split; [rewrite update_Racc at 1; assigned_item p|].
  rewrite update_Rv at 1; assigned_item p.
Qed.

(** The outputs, for grids that satisfy the relations of the loop. *)
Lemma outputs_of_grids (g : grids) (t : list R) (i : nat) :
  (i < 500)%nat -> length t = 500%nat ->
  Forall (fun f : grids -> list R => length (f g) = 500%nat)
    [Lrad; Teff; Rph; LX40; Racc; MdotBH] ->
  (LX40 g).[Z.of_nat i]
    = 0.01 * ((MdotBH g).[Z.of_nat i] / 1.0e20)
      * (power speed_of_light 2.0 / 1.0e20) ->
  (Teff g).[Z.of_nat i]
    = 1.0e10 * power ((Ledd40 + (Edotfb40 g).[Z.of_nat i])
                      / (4.0 * PI * sigma_sb
                         * power (Rph g).[Z.of_nat i] 2.0)) 0.25 ->
  (Lrad g).[Z.of_nat i] = Ledd40 + (Edotfb40 g).[Z.of_nat i] ->
  let o := {| bolometric_luminosity := Lrad g;
              photosphere_temperature := Teff g;
              photosphere_radius := Rph g;
              lum_xray := LX40 g;
              accretion_radius := Racc g;
              SMBH_accretion_rate := MdotBH g;
              TdeModels.time_temp := t |} in
  Forall (fun a : list R => length a = 500%nat)
    [bolometric_luminosity o; photosphere_temperature o; photosphere_radius o;
     lum_xray o; accretion_radius o; SMBH_accretion_rate o; TdeModels.time_temp o] /\
  nth i (lum_xray o) 0
    = 0.01 * (nth i (SMBH_accretion_rate o) 0 / 1.0e20)
      * (power speed_of_light 2.0 / 1.0e20) /\
  nth i (photosphere_temperature o) 0
    = 1.0e10 * power (nth i (bolometric_luminosity o) 0
                      / (4.0 * PI * sigma_sb
                         * power (nth i (photosphere_radius o) 0) 2.0)) 0.25.
Proof.
  intros Hi Lt L HLX HT HL o. unfold o.
  cbn [bolometric_luminosity photosphere_temperature photosphere_radius
       lum_xray accretion_radius SMBH_accretion_rate TdeModels.time_temp].
  rewrite <- HL in HT.
  apply Forall_cons_iff in L. destruct L as [L0 L].
  apply Forall_cons_iff in L. destruct L as [L1 L].
  apply Forall_cons_iff in L. destruct L as [L2 L].
  apply Forall_cons_iff in L. destruct L as [L3 L].
  apply Forall_cons_iff in L. destruct L as [L4 L].
  apply Forall_cons_iff in L. destruct L as [L5 _].
  repeat rewrite item_nth in HLX by lia.
  repeat rewrite item_nth in HT by lia.
  split; [|split; assumption].
  repeat constructor; assumption.
Qed.

(** X18: Each output has the 500 entries of the time grid.  At every grid
    point the proxy X-ray luminosity is [0.01 (MdotBH / 1e20) (c^2 / 1e20)]
    of the accretion rate returned, and the photosphere temperature is
    [1e10 (L / (4 pi sigma_sb R^2))^(1/4)] of the bolometric luminosity and
    the photosphere radius returned. *)
Theorem outputs_at_each_grid_point (i : nat) :
  (i < 500)%nat ->
  let o := _metzger_tde in
  Forall (fun a : list R => length a = 500%nat)
    [bolometric_luminosity o; photosphere_temperature o; photosphere_radius o;
     lum_xray o; accretion_radius o; SMBH_accretion_rate o; TdeModels.time_temp o] /\
  nth i (lum_xray o) 0
    = 0.01 * (nth i (SMBH_accretion_rate o) 0 / 1.0e20)
      * (power speed_of_light 2.0 / 1.0e20) /\
  nth i (photosphere_temperature o) 0
    = 1.0e10 * power (nth i (bolometric_luminosity o) 0
                      / (4.0 * PI * sigma_sb
                         * power (nth i (photosphere_radius o) 0) 2.0)) 0.25.
Proof.
  intros Hi.
  destruct (final_relations i Hi) as (HLX & HT & HL & _).
  assert (L : Forall (fun f : grids -> list R => length (f final_grids) = 500%nat)
                [Lrad; Teff; Rph; LX40; Racc; MdotBH])
    by (repeat constructor; final_length).
  exact (outputs_of_grids final_grids time_temp i Hi
           (length_time_temp mbh_6 stellar_mass kwargs) L HLX HT HL).
Qed.

(** The accretion radius and the bolometric luminosity after the loop, in
    terms of the inputs and of what the fresh buffers held. *)
Lemma Racc_Lrad_closed_form (p : nat) :
  (p < 500)%nat ->
  let t := time_temp in
  let Me0 := buffer 0 499 - (buffer 8 499 - Mdotfb.[-1]) * (t.[0] - t.[-1]) in
  let Ee0 := buffer 1 499 + (Ledd40 - buffer 7 499) * (t.[0] - t.[-1]) in
  let Rv0 := ((2.0 * graviational_constant * mbh_6 * 1.0e6 * Me0) / (5.0 * Ee0))
             * 2.0e-7 in
  let Racc_p := zeta kwargs * Rv0 * power (nth p t 0 / tfb) (2 / 3) in
  nth p (Racc final_grids) 0 = Racc_p /\
  nth p (Lrad final_grids) 0
    = Ledd40 + (graviational_constant * mbh_6 * 1.0e6 * nth p Mdotfb 0 / Racc_p)
               * 2.0e-7.
Proof.
  intros Hp t Me0 Ee0 Rv0 Racc_p.
  destruct (final_relations p Hp) as (_ & _ & HL & HE & HR & _).
  destruct (final_relations 0 ltac:(lia)) as (_ & _ & _ & _ & _ & HRv).
  cbv zeta in HL, HE, HR, HRv. change (Z.of_nat 0) with 0%Z in HRv.
  destruct (Me_Ee40_after_loop graviational_constant solar_mass speed_of_light
              solar_radius day_to_s sigma_sb buffer mbh_6 stellar_mass
              eta alpha beta kwargs) as [HMe HEe].
  rewrite HMe, HEe in HRv. fold t Me0 Ee0 Rv0 in HRv.
  rewrite HRv in HR.
  assert (Lt : length time_temp = 500%nat) by apply length_time_temp.
  assert (LM : length Mdotfb = 500%nat)
    by (unfold TdeModels.Mdotfb; rewrite length_map; exact Lt).
  assert (LR : length (Racc final_grids) = 500%nat) by final_length.
  assert (LL : length (Lrad final_grids) = 500%nat) by final_length.
  rewrite (item_nth (Racc final_grids) p) in HR, HE by lia.
  rewrite (item_nth time_temp p) in HR by lia.
  rewrite (item_nth Mdotfb p) in HE by lia.
  rewrite (item_nth (Lrad final_grids) p) in HL by lia.
  fold t in HR. fold Racc_p in HR.
  split; [exact HR|].
  rewrite HL, HE, HR. reflexivity.
Qed.

(** X19: For positive masses and binding-energy constant, the accretion radius
    returned grows as the power 2/3 of the time, from its value at the first
    grid point. *)
Theorem accretion_radius_power_law (i : nat) :
  0 < mbh_6 -> 0 < stellar_mass -> 0 < binding_energy_const kwargs ->
  (i < 500)%nat ->
  let o := _metzger_tde in
  nth i (accretion_radius o) 0
  = nth 0 (accretion_radius o) 0
    * Rpower (nth i (TdeModels.time_temp o) 0 / nth 0 (TdeModels.time_temp o) 0)
             (2 / 3).
Proof.
  intros Hm Hs Hb Hi o.
  pose proof (tfb_pos mbh_6 stellar_mass kwargs Hm Hs Hb) as Htfb.
  destruct (Racc_Lrad_closed_form i Hi) as [Ei _].
  destruct (Racc_Lrad_closed_form 0 ltac:(lia)) as [E0 _].
  cbv zeta in Ei, E0.
  unfold o, TdeModels._metzger_tde.
  cbn [accretion_radius TdeModels.time_temp].
  rewrite Ei, E0.
  rewrite time_temp_first by assumption.
  replace (tfb / tfb) with 1 by (field; lra).
  rewrite (power_pos 1) by lra.
  replace (Rpower 1 (2 / 3)) with 1
    by (unfold Rpower; rewrite ln_1, Rmult_0_r, exp_0; reflexivity).
  rewrite power_pos; [ring|].
  rewrite nth_time_temp by assumption.
  replace (tfb * Rpower 10 (INR i * (2 / 499)) / tfb)
    with (Rpower 10 (INR i * (2 / 499))) by (field; lra).
  apply exp_pos.
Qed.

End Efficiency.

(** X20: The feedback efficiency [eta], the viscosity [alpha] and the penetration
    factor [beta] have no effect on the bolometric luminosity, the accretion
    radius and the time grid that [_metzger_tde] returns (for the same
    contents of the fresh buffers). *)
Theorem luminosity_ignores_eta_alpha_beta
    (eta alpha beta eta' alpha' beta' : R) :
  let o := _metzger_tde graviational_constant solar_mass speed_of_light
             solar_radius day_to_s sigma_sb buffer mbh_6 stellar_mass
             eta alpha beta kwargs in
  let o' := _metzger_tde graviational_constant solar_mass speed_of_light
              solar_radius day_to_s sigma_sb buffer mbh_6 stellar_mass
              eta' alpha' beta' kwargs in
  bolometric_luminosity o = bolometric_luminosity o' /\
  accretion_radius o = accretion_radius o' /\
  time_temp o = time_temp o'.
Proof.
  intros o o'.
  assert (L : forall e a b,
            length (Lrad (final_grids graviational_constant solar_mass
                            speed_of_light solar_radius day_to_s sigma_sb buffer
                            mbh_6 stellar_mass e a b kwargs)) = 500%nat /\
            length (Racc (final_grids graviational_constant solar_mass
                            speed_of_light solar_radius day_to_s sigma_sb buffer
                            mbh_6 stellar_mass e a b kwargs)) = 500%nat).
  { intros e a b. split; apply length_final;
      first [apply assigned_Lrad | apply assigned_Racc
            | cbn [Lrad Racc initialize allocate];
              rewrite length_setitem; apply length_empty_like]. }
  destruct (L eta alpha beta) as [L1 L2].
  destruct (L eta' alpha' beta') as [L1' L2'].
  unfold o, o', _metzger_tde.
  cbn [bolometric_luminosity accretion_radius time_temp].
  split; [|split; [|reflexivity]].
  - apply (nth_ext _ _ 0 0); [congruence|].
    intros i Hi. rewrite L1 in Hi.
    destruct (Racc_Lrad_closed_form eta alpha beta i Hi) as [_ ->].
    destruct (Racc_Lrad_closed_form eta' alpha' beta' i Hi) as [_ ->].
    reflexivity.
  - apply (nth_ext _ _ 0 0); [congruence|].
    intros i Hi. rewrite L2 in Hi.
    destruct (Racc_Lrad_closed_form eta alpha beta i Hi) as [-> _].
    destruct (Racc_Lrad_closed_form eta' alpha' beta' i Hi) as [-> _].
    reflexivity.
Qed.

End Outputs.

Lemma outputs_at_each_grid_point_witness :
  let o := _metzger_tde 6.674e-8 1.989e33 2.998e10 6.957e10 86400 5.67e-5
             (fun _ _ => 0) 1 1 0.1 0.1 1 [] in
  Forall (fun a : list R => length a = 500%nat)
    [bolometric_luminosity o; photosphere_temperature o; photosphere_radius o;
     lum_xray o; accretion_radius o; SMBH_accretion_rate o; time_temp o] /\
  nth 7 (lum_xray o) 0
    = 0.01 * (nth 7 (SMBH_accretion_rate o) 0 / 1.0e20)
      * (power 2.998e10 2.0 / 1.0e20) /\
  nth 7 (photosphere_temperature o) 0
    = 1.0e10 * power (nth 7 (bolometric_luminosity o) 0
                      / (4.0 * PI * 5.67e-5
                         * power (nth 7 (photosphere_radius o) 0) 2.0)) 0.25.
Proof.
  apply (outputs_at_each_grid_point 6.674e-8 1.989e33 2.998e10 6.957e10 86400
           5.67e-5 (fun _ _ => 0) 1 1 [] 0.1 0.1 1 7).
  lia.
Defined.

Lemma accretion_radius_power_law_witness :
  let o := _metzger_tde 6.674e-8 1.989e33 2.998e10 6.957e10 86400 5.67e-5
             (fun _ _ => 0) 1 1 0.1 0.1 1 [] in
  nth 7 (accretion_radius o) 0
  = nth 0 (accretion_radius o) 0
    * Rpower (nth 7 (time_temp o) 0 / nth 0 (time_temp o) 0) (2 / 3).
Proof.
  apply (accretion_radius_power_law 6.674e-8 1.989e33 2.998e10 6.957e10 86400
           5.67e-5 (fun _ _ => 0) 1 1 [] 0.1 0.1 1 7);
    try lia; try lra.
  unfold binding_energy_const, get; simpl; lra.
Defined.

End OutputProperties.

(** ** Cleaning the entries of the event table *)

Module CleanStringExtras.
Import Py Afterglow.
Local Open Scope string_scope.

(** Replacing by the empty string only deletes characters. *)
Lemma deletion_adds_no_char (c : ascii) (old s : string) (skip : nat) :
  char_in c s = false -> char_in c (replace_from old "" skip s) = false.
Proof.
  revert skip. induction s as [|a s IH]; intros skip H; [reflexivity|].
  simpl in H. apply orb_false_elim in H. destruct H as [Ha Hs].
  cbn [replace_from]. destruct skip as [|k].
  - destruct (startswith (String a s) old).
    + cbn [append]. apply IH, Hs.
    + cbn [char_in]. rewrite Ha. apply IH, Hs.
  - apply IH, Hs.
Qed.

(** Replacing a character by the empty string leaves none of it. *)
Lemma deleted_char_is_gone (c : ascii) (s : string) :
  char_in c (str_replace s (String c "") "") = false.
Proof.
  unfold str_replace. induction s as [|a s IH]; [reflexivity|].
  cbn [replace_from startswith String.length Nat.sub append].
  destruct (Ascii.eqb a c) eqn:E; cbn [andb].
  - exact IH.
  - cbn [char_in]. rewrite Ascii.eqb_sym, E. exact IH.
Qed.

(** X21: What [__clean_string] hands to [float] holds no comma, no C, no tilde
    and no space. *)
Theorem cleaned_has_no_separator (s : string) :
  occurs "," (cleaned s) = false /\ occurs "C" (cleaned s) = false /\
  occurs "~" (cleaned s) = false /\ occurs " " (cleaned s) = false.
Proof.
  unfold occurs, cleaned, clean_patterns. cbn [fold_left].
  unfold str_replace at 1 2.
  repeat split.
  - do 4 (unfold str_replace at 1; apply deletion_adds_no_char).
    unfold str_replace at 1. apply deletion_adds_no_char.
    apply deleted_char_is_gone.
  - do 4 (unfold str_replace at 1; apply deletion_adds_no_char).
    apply deleted_char_is_gone.
  - do 3 (unfold str_replace at 1; apply deletion_adds_no_char).
    apply deleted_char_is_gone.
  - do 2 (unfold str_replace at 1; apply deletion_adds_no_char).
    apply deleted_char_is_gone.
Qed.

Lemma none_in_char (s chars : string) (c : ascii) :
  none_in s chars = true -> char_in c chars = true -> char_in c s = false.
Proof.
  induction s as [|a s IH]; intros H Hc; [reflexivity|].
  simpl in H. apply andb_prop in H. destruct H as [Ha Hs].
  cbn [char_in]. rewrite (IH Hs Hc), orb_false_r.
  destruct (Ascii.eqb c a) eqn:E; [|reflexivity].
  apply Ascii.eqb_eq in E. subst a. rewrite Hc in Ha. discriminate Ha.
Qed.

(** A pattern whose first character is not in [n] is not found in [n], nor
    across the end of [n]. *)
Lemma replace_after_clean_prefix (b : ascii) (old new n x : string) :
  char_in b n = false ->
  str_replace (n ++ x) (String b old) new
  = n ++ str_replace x (String b old) new.
Proof.
  unfold str_replace. induction n as [|a n IH]; intros H; [reflexivity|].
  simpl in H. apply orb_false_elim in H. destruct H as [Ha Hn].
  cbn [append replace_from startswith].
  rewrite Ascii.eqb_sym, Ha. cbn [andb]. rewrite (IH Hn). reflexivity.
Qed.

Lemma cleaned_after_clean_prefix (n x : string) :
  none_in n "PC,~ G(" = true -> cleaned (n ++ x) = n ++ cleaned x.
Proof.
  intros H. unfold cleaned, clean_patterns. cbn [fold_left].
  rewrite !replace_after_clean_prefix
    by (apply (none_in_char n "PC,~ G("); [exact H | reflexivity]).
  reflexivity.
Qed.

Section WithFloat.

Variable float : string -> result R.

(** X22: An entry that holds none of the characters P, C, G, comma, tilde, space
    and opening bracket goes to [float] as it is; followed by the model
    marker [, PL] or [, CPL] it goes to [float] without the marker. *)
Theorem clean_string_of_number (n : string) :
  none_in n "PC,~ G(" = true ->
  __clean_string float n = float n /\
  __clean_string float (n ++ ", PL") = float n /\
  __clean_string float (n ++ ", CPL") = float n.
Proof.
  intros H. unfold __clean_string.
  assert (E : forall x, cleaned x = "" -> cleaned (n ++ x) = n).
  { intros x Hx. rewrite (cleaned_after_clean_prefix n x H), Hx.
    clear. induction n as [|a n IH]; [reflexivity|].
    cbn [append]. rewrite IH. reflexivity. }
  rewrite !E by reflexivity.
  replace (cleaned n) with n; [repeat split|].
  pose proof (E "" eq_refl) as E0.
  replace (n ++ "") with n in E0; [symmetry; exact E0|].
  clear. induction n as [|a n IH]; [reflexivity|].
  cbn [append]. rewrite <- IH. reflexivity.
Qed.

End WithFloat.

Lemma clean_string_of_number_witness :
  __clean_string (fun _ => Ok 1.69%R) "1.69" = Ok 1.69%R /\
  __clean_string (fun _ => Ok 1.69%R) ("1.69" ++ ", PL") = Ok 1.69%R /\
  __clean_string (fun _ => Ok 1.69%R) ("1.69" ++ ", CPL") = Ok 1.69%R.
Proof.
  apply (clean_string_of_number (fun _ => Ok 1.69%R) "1.69").
  reflexivity.
Defined.

End CleanStringExtras.

(** ** [tde_analytical] *)

Module TdeAnalyticalExtras.
Import Py Np TdeModels.
Local Open Scope R_scope.
Local Open Scope string_scope.
Local Open Scope list_scope.

#[local] Abbreviation Diffusion := (VObject "redback.interaction_processes.Diffusion").

(** The named parameters of [tde_analytical_bolometric]. *)
Lemma is_param_bolometric (k : string) :
  is_param (sig_params tde_analytical_bolometric_signature) k = true ->
  k = "time" \/ k = "l0" \/ k = "t_0" \/ k = "interaction_process".
Proof.
  unfold is_param. cbn [sig_params tde_analytical_bolometric_signature existsb fst].
  intros H.
  repeat (apply orb_prop in H; destruct H as [H | H];
          [apply String.eqb_eq in H; tauto|]).
  discriminate H.
Qed.

(** Keywords that come after every parameter has its value: one that
    names a parameter is an error, the others go to [**kwargs]. *)
Lemma keywords_after_all_bound (bound kw : dict value) :
  (forall k, is_param (sig_params tde_analytical_bolometric_signature) k = true ->
             lookup bound k <> None) ->
  match bind_keywords tde_analytical_bolometric_signature bound kw with
  | Ok b =>
      b = bound /\
      forall k, is_param (sig_params tde_analytical_bolometric_signature) k = true ->
                lookup kw k = None
  | Raise e =>
      exists k : string,
        e = MultipleValues "tde_analytical_bolometric" k /\
        lookup kw k <> None /\
        is_param (sig_params tde_analytical_bolometric_signature) k = true
  end.
Proof.
  intros Hb. induction kw as [|[k v] kw IH].
  - cbn [bind_keywords]. split; [reflexivity | reflexivity].
  - cbn [bind_keywords].
    destruct (is_param (sig_params tde_analytical_bolometric_signature) k) eqn:E.
    + destruct (lookup bound k) eqn:El; [|exfalso; apply (Hb k E El)].
      exists k. cbn [lookup]. rewrite String.eqb_refl.
      repeat split; try assumption; discriminate.
    + cbn [sig_var_keyword tde_analytical_bolometric_signature].
      destruct (bind_keywords tde_analytical_bolometric_signature bound kw) as [b | e].
      * destruct IH as [-> Hnone]. split; [reflexivity|].
        intros k' Hk'. cbn [lookup].
        destruct (String.eqb k' k) eqn:Ek; [|apply Hnone, Hk'].
        apply String.eqb_eq in Ek. subst k'. congruence.
      * destruct IH as (k0 & -> & Hin & Hp).
        exists k0. repeat split; try assumption.
        cbn [lookup]. destruct (String.eqb k0 k); [discriminate | exact Hin].
Qed.

Section Collaborators.

Variable call_interaction :
  value -> list R -> list R -> dict value -> result (list R).
Variable call_photosphere :
  value -> list R -> list R -> dict value -> result (list R * list R).
Variable call_sed :
  value -> list R -> list R -> list R -> value -> R -> value -> list R ->
  result (list R).
Variable calc_kcorrected_properties :
  value -> R -> list R -> result (value * list R).
Variable luminosity_distance : R -> R.
Variables to_mJy to_ABmag : list R -> list R.

#[local] Abbreviation tde_analytical :=
  (tde_analytical call_interaction call_photosphere call_sed
     calc_kcorrected_properties luminosity_distance to_mJy to_ABmag).

(** The call of [tde_analytical_bolometric] inside [tde_analytical]: the
    keyword [interaction_process] is written out and [**kwargs] follows. *)
Lemma bolometric_call (time : list R) (l0 t_0 : R) (ip : value)
    (kwargs : dict value) :
  match bind_args tde_analytical_bolometric_signature []
          ([("time", VArray time); ("l0", VFloat l0); ("t_0", VFloat t_0);
            ("interaction_process", ip)] ++ kwargs) with
  | Ok arguments =>
      get arguments "interaction_process" VNone = ip /\
      lookup kwargs "interaction_process" = None
  | Raise e =>
      exists k : string,
        e = MultipleValues "tde_analytical_bolometric" k /\
        lookup kwargs k <> None /\
        (k = "time" \/ k = "l0" \/ k = "t_0" \/ k = "interaction_process")
  end.
Proof.
  unfold bind_args.
  cbn [bind_positional sig_name sig_params tde_analytical_bolometric_signature
       bind app].
  set (bound := [("time", VArray time); ("l0", VFloat l0); ("t_0", VFloat t_0);
                 ("interaction_process", ip)]).
  assert (E : bind_keywords tde_analytical_bolometric_signature []
                (("time", VArray time) :: ("l0", VFloat l0) :: ("t_0", VFloat t_0)
                 :: ("interaction_process", ip) :: kwargs)
              = bind_keywords tde_analytical_bolometric_signature bound kwargs)
    by reflexivity.
  fold tde_analytical_bolometric_signature.
  rewrite E.
  assert (Hb : forall k,
            is_param (sig_params tde_analytical_bolometric_signature) k = true ->
            lookup bound k <> None).
  { intros k Hk. apply is_param_bolometric in Hk.
    destruct Hk as [-> | [-> | [-> | ->]]]; discriminate. }
  pose proof (keywords_after_all_bound bound kwargs Hb) as H.
  destruct (bind_keywords tde_analytical_bolometric_signature bound kwargs)
    as [b | e].
  - destruct H as [-> Hnone]. cbn [bind]. split; [reflexivity|].
    apply Hnone. reflexivity.
  - destruct H as (k & -> & Hin & Hp). cbn [bind].
    exists k. repeat split; [exact Hin | apply is_param_bolometric, Hp].
Qed.

(** X23: The documentation of [tde_analytical] offers the keyword
    [interaction_process].  A call that gives it never returns: the keyword
    reaches [tde_analytical_bolometric] twice, once written out and once
    in [**kwargs], and the call raises TypeError (when the frequency is
    given and the k-correction returns; an error of these comes first). *)
Theorem tde_analytical_rejects_interaction_process (time : list R)
    (redshift l0 t_0 : R) (kwargs : dict value) (v : value) :
  lookup kwargs "interaction_process" = Some v ->
  (forall r, tde_analytical time redshift l0 t_0 kwargs <> Ok r) /\
  (forall frequency ft,
     lookup kwargs "frequency" = Some frequency ->
     calc_kcorrected_properties frequency redshift time = Ok ft ->
     lookup kwargs "time" = None -> lookup kwargs "l0" = None ->
     lookup kwargs "t_0" = None ->
     tde_analytical time redshift l0 t_0 kwargs
     = Raise (MultipleValues "tde_analytical_bolometric" "interaction_process")).
Proof.
  intros Hv.
  assert (Hcall : forall time' : list R,
            exists k : string,
              bind_args tde_analytical_bolometric_signature []
                ([("time", VArray time'); ("l0", VFloat l0); ("t_0", VFloat t_0);
                  ("interaction_process", v)] ++ kwargs)
              = Raise (MultipleValues "tde_analytical_bolometric" k) /\
              lookup kwargs k <> None /\
              (k = "time" \/ k = "l0" \/ k = "t_0" \/ k = "interaction_process")).
  { intros time'.
    pose proof (bolometric_call time' l0 t_0 v kwargs) as H.
    destruct (bind_args _ _ _) as [a | e].
    - destruct H as [_ H]. congruence.
    - destruct H as (k & -> & H1 & H2). exists k. repeat split; assumption. }
  unfold TdeModels.tde_analytical, get, getitem. rewrite Hv.
  split.
  - intros r. destruct (lookup kwargs "frequency") as [f|]; [|discriminate].
    cbn [bind]. destruct (calc_kcorrected_properties f redshift time) as [ft | e];
      [|discriminate].
    cbn [bind]. destruct (Hcall (snd ft)) as (k & -> & _). discriminate.
  - intros f ft Hf Hk Htime Hl0 Ht0. rewrite Hf. cbn [bind]. rewrite Hk.
    cbn [bind]. destruct (Hcall (snd ft)) as (k & -> & Hin & Hcases).
    cbn [bind].
    destruct Hcases as [-> | [-> | [-> | ->]]]; try contradiction.
    reflexivity.
Qed.

(** X24: Whenever [tde_analytical] returns, the keyword [interaction_process]
    was not given and the interaction process called was Diffusion, on the
    luminosity of the analytic fallback at the k-corrected time; and what
    it returns is None unless [output_format] is flux_density or
    magnitude. *)
Theorem tde_analytical_returns (time : list R) (redshift l0 t_0 : R)
    (kwargs : dict value) (r : option (list R)) :
  tde_analytical time redshift l0 t_0 kwargs = Ok r ->
  lookup kwargs "interaction_process" = None /\
  exists (frequency : value) (ft : value * list R) (lbol0 lbol : list R)
         (output_format : value),
    lookup kwargs "frequency" = Some frequency /\
    calc_kcorrected_properties frequency redshift time = Ok ft /\
    _analytic_fallback (snd ft) l0 t_0 = Ok lbol0 /\
    call_interaction Diffusion (snd ft) lbol0 kwargs = Ok lbol /\
    lookup kwargs "output_format" = Some output_format /\
    (r = None <->
       value_is output_format "flux_density" = false /\
       value_is output_format "magnitude" = false).
Proof.
  unfold TdeModels.tde_analytical, getitem.
  destruct (lookup kwargs "frequency") as [f|]; [|discriminate].
  cbn [bind].
  destruct (calc_kcorrected_properties f redshift time) as [ft|] eqn:Ek;
    [|discriminate].
  cbn [bind].
  pose proof (bolometric_call (snd ft) l0 t_0
                (get kwargs "interaction_process" Diffusion) kwargs) as Hcall.
  destruct (bind_args _ _ _) as [arguments | e]; [|discriminate].
  destruct Hcall as [Hip Hnone].
  cbn [bind]. rewrite Hip. unfold get at 1. rewrite Hnone.
  unfold tde_analytical_bolometric, as_interaction.
  destruct (_analytic_fallback (snd ft) l0 t_0) as [lbol0|] eqn:Ef;
    [|discriminate].
  cbn [bind].
  destruct (call_interaction Diffusion (snd ft) lbol0 kwargs) as [lbol|] eqn:Ei;
    [|discriminate].
  cbn [bind].
  destruct (call_photosphere _ _ _ _) as [photo|]; [|discriminate].
  cbn [bind].
  destruct (call_sed _ _ _ _ _ _ _ _) as [fd|]; [|discriminate].
  cbn [bind].
  destruct (lookup kwargs "output_format") as [fmt|]; [|discriminate].
  cbn [bind]. intros H.
  split; [reflexivity|].
  exists f, ft, lbol0, lbol, fmt.
  do 5 (split; [first [reflexivity | assumption]|]).
  destruct (value_is fmt "flux_density"); [split; [|intros [? _]]; congruence|].
  destruct (value_is fmt "magnitude"); [split; [|intros [_ ?]]; congruence|].
  split; [intros _; split; reflexivity | congruence].
Qed.

End Collaborators.

Lemma tde_analytical_rejects_interaction_process_witness :
  let kwargs := [("frequency", VFloat 1e14); ("interaction_process", VNone);
                 ("output_format", VStr "flux_density")] in
  let run := tde_analytical
               (fun _ _ luminosity _ => Ok luminosity)
               (fun _ time luminosity _ => Ok (time, luminosity))
               (fun _ _ _ _ _ _ _ luminosity => Ok luminosity)
               (fun frequency _ time => Ok (frequency, time))
               (fun z => 1.37e28 * z) (fun a => a) (fun a => a)
               [1; 3] 0.1 1e40 2 kwargs in
  (forall r, run <> Ok r) /\
  (forall frequency ft,
     lookup kwargs "frequency" = Some frequency ->
     (fun frequency (_ : R) (time : list R) => Ok (frequency, time))
       frequency 0.1 [1; 3] = Ok ft ->
     lookup kwargs "time" = None -> lookup kwargs "l0" = None ->
     lookup kwargs "t_0" = None ->
     run = Raise (MultipleValues "tde_analytical_bolometric" "interaction_process")).
Proof.
  intros kwargs run.
  apply (tde_analytical_rejects_interaction_process
           (fun _ _ luminosity _ => Ok luminosity)
           (fun _ time luminosity _ => Ok (time, luminosity))
           (fun _ _ _ _ _ _ _ luminosity => Ok luminosity)
           (fun frequency _ time => Ok (frequency, time))
           (fun z => 1.37e28 * z) (fun a => a) (fun a => a)
           [1; 3] 0.1 1e40 2 kwargs VNone).
  reflexivity.
Defined.

Lemma tde_analytical_returns_witness :
  let kwargs := [("frequency", VFloat 1e14); ("output_format", VStr "magnitude")] in
  lookup kwargs "interaction_process" = None /\
  exists (frequency : value) (ft : value * list R) (lbol0 lbol : list R)
         (output_format : value),
    lookup kwargs "frequency" = Some frequency /\
    (fun frequency (_ : R) (time : list R) => Ok (frequency, time))
      frequency 0.1 [1; 3] = Ok ft /\
    _analytic_fallback (snd ft) 1e40 2 = Ok lbol0 /\
    (fun (_ : value) (_ : list R) (luminosity : list R) (_ : dict value) =>
       Ok luminosity) Diffusion (snd ft) lbol0 kwargs = Ok lbol /\
    lookup kwargs "output_format" = Some output_format /\
    (Some [17.5] = None <->
       value_is output_format "flux_density" = false /\
       value_is output_format "magnitude" = false).
Proof.
  intros kwargs.
  apply (tde_analytical_returns
           (fun _ _ luminosity _ => Ok luminosity)
           (fun _ time luminosity _ => Ok (time, luminosity))
           (fun _ _ _ _ _ _ _ _ => Ok [2.5])
           (fun frequency _ time => Ok (frequency, time))
           (fun z => 1.37e28 * z) (fun a => a) (fun _ => [17.5])
           [1; 3] 0.1 1e40 2 kwargs (Some [17.5])).
  unfold tde_analytical, tde_analytical_bolometric, getitem, get, kwargs.
  cbn [lookup String.eqb Ascii.eqb Bool.eqb bind fst snd].
  rewrite AnalyticFallbackProperties._analytic_fallback_entrywise.
  reflexivity.
Defined.

End TdeAnalyticalExtras.
